(** * SimpleAgent: classifier, provider selection, response parser, quality
    gate and fallback synthesizer of [app/agent/agent.py]

    The development is a shallow embedding of the class [SimpleAgent].  Pure
    methods are Rocq functions carrying the names of the source.  A method
    that can raise returns a [result]; the [async] methods that may reach a
    provider run in the small monad [Agent], which threads the log of the
    provider calls made and reads the answers of the outside world from an
    environment.

    Python [str] values are modelled by [string]: sequences of characters
    with code points below 256 (ASCII and Latin-1).  Character classes and
    case maps are Python's on that range.  Dictionaries are association
    lists in insertion order, since the source iterates over them with early
    exits. *)

From Stdlib Require Import String Ascii List Bool Arith Lia DecimalString.
Import ListNotations.
Open Scope list_scope.
Open Scope string_scope.

(** ** Python strings *)

Module PyStr.

(** The characters that cannot be written inside a literal here. *)
Definition nl : string := String (ascii_of_nat 10) EmptyString.
Definition dq : string := String (ascii_of_nat 34) EmptyString.

Definition len (s : string) : nat := String.length s.

(** [bool(s)] for a [str]. *)
Definition truthy (s : string) : bool :=
  match s with EmptyString => false | String _ _ => true end.

(** [bool(x)] for an [Optional[str]]. *)
Definition truthy_opt (o : option string) : bool :=
  match o with None => false | Some s => truthy s end.

(** [a or b] on [Optional[str]] values. *)
Definition py_or (a b : option string) : option string :=
  if truthy_opt a then a else b.

Definition in_range (lo hi n : nat) : bool := Nat.leb lo n && Nat.leb n hi.

(** [c.isspace()] *)
Definition isspace (c : ascii) : bool :=
  let n := nat_of_ascii c in
  in_range 9 13 n || in_range 28 32 n || Nat.eqb n 133 || Nat.eqb n 160.

(** [c] matches the regular expression class [\w]. *)
Definition isword (c : ascii) : bool :=
  let n := nat_of_ascii c in
  in_range 48 57 n || in_range 65 90 n || in_range 97 122 n || Nat.eqb n 95
  || Nat.eqb n 170 || Nat.eqb n 178 || Nat.eqb n 179 || Nat.eqb n 181
  || in_range 185 186 n || in_range 188 190 n
  || in_range 192 214 n || in_range 216 246 n || in_range 248 255 n.

Definition lower_char (c : ascii) : ascii :=
  let n := nat_of_ascii c in
  if in_range 65 90 n || (in_range 192 222 n && negb (Nat.eqb n 215))
  then ascii_of_nat (n + 32) else c.

(** Upper-case forms that leave the modelled range (those of code points
    181 and 255) are not taken; 223 is handled by [capitalize]. *)
Definition upper_char (c : ascii) : ascii :=
  let n := nat_of_ascii c in
  if in_range 97 122 n || (in_range 224 254 n && negb (Nat.eqb n 247))
  then ascii_of_nat (n - 32) else c.

(** [s.lower()] *)
Fixpoint lower (s : string) : string :=
  match s with
  | EmptyString => EmptyString
  | String c r => String (lower_char c) (lower r)
  end.

(** [s.capitalize()] *)
Definition capitalize (s : string) : string :=
  match s with
  | EmptyString => EmptyString
  | String c r =>
      if Nat.eqb (nat_of_ascii c) 223 then "Ss" ++ lower r
      else String (upper_char c) (lower r)
  end.

(** [s.startswith(p)] *)
Fixpoint startswith (p s : string) : bool :=
  match p, s with
  | EmptyString, _ => true
  | String a p', String b s' => Ascii.eqb a b && startswith p' s'
  | String _ _, EmptyString => false
  end.

(** [p in s] *)
Fixpoint contains (p s : string) : bool :=
  startswith p s
  || match s with
     | EmptyString => false
     | String _ r => contains p r
     end.

(** [s.endswith(p)] *)
Fixpoint endswith (p s : string) : bool :=
  String.eqb s p
  || match s with
     | EmptyString => false
     | String _ r => endswith p r
     end.

(** [s[n:]] *)
Fixpoint drop (n : nat) (s : string) : string :=
  match n, s with
  | S k, String _ r => drop k r
  | _, _ => s
  end.

(** [s[:n]] *)
Fixpoint take (n : nat) (s : string) : string :=
  match n, s with
  | S k, String c r => String c (take k r)
  | _, _ => EmptyString
  end.

(** [s.lstrip()], [s.rstrip()], [s.strip()] *)
Fixpoint lstrip (s : string) : string :=
  match s with
  | EmptyString => EmptyString
  | String c r => if isspace c then lstrip r else s
  end.

Fixpoint rstrip (s : string) : string :=
  match s with
  | EmptyString => EmptyString
  | String c r =>
      match rstrip r with
      | EmptyString => if isspace c then EmptyString else String c EmptyString
      | r' => String c r'
      end
  end.

Definition strip (s : string) : string := rstrip (lstrip s).

(** [s.split(c)] for a one-character separator. *)
Fixpoint split (sep : ascii) (s : string) : list string :=
  match s with
  | EmptyString => [EmptyString]
  | String c r =>
      if Ascii.eqb c sep then EmptyString :: split sep r
      else match split sep r with
           | h :: t => String c h :: t
           | [] => [String c EmptyString]
           end
  end.

Definition splitlines_nl (s : string) : list string := split (ascii_of_nat 10) s.
Definition split_slash (s : string) : list string := split (ascii_of_nat 47) s.

(** [sep.join(l)] *)
Fixpoint join (sep : string) (l : list string) : string :=
  match l with
  | [] => EmptyString
  | [x] => x
  | x :: r => x ++ sep ++ join sep r
  end.

(** [s.replace(old, new)] for a non-empty [old]: occurrences are replaced
    from the left and do not overlap; [skip] counts the characters of the
    occurrence being replaced that are still to be passed over. *)
Fixpoint replace_from (old new : string) (skip : nat) (s : string) : string :=
  match s with
  | EmptyString => EmptyString
  | String c r =>
      match skip with
      | S k => replace_from old new k r
      | O =>
          if startswith old s then new ++ replace_from old new (len old - 1) r
          else String c (replace_from old new 0 r)
      end
  end.

Definition replace (old new s : string) : string := replace_from old new 0 s.

(** [any(p(x) for x in l)] is [existsb p l]; [sum(1 for x in l if p(x))]: *)
Definition count {A : Type} (p : A -> bool) (l : list A) : nat :=
  List.length (filter p l).

End PyStr.

Import PyStr.

(** ** Python dictionaries with string keys, in insertion order *)

Module Dict.

Definition t (V : Type) : Type := list (string * V).

Fixpoint get {V : Type} (k : string) (d : t V) : option V :=
  match d with
  | [] => None
  | (k', v) :: r => if String.eqb k k' then Some v else get k r
  end.

Definition mem {V : Type} (k : string) (d : t V) : bool :=
  match get k d with Some _ => true | None => false end.

(** [d[k] = v]: an existing key keeps its place, a new one goes last. *)
Fixpoint set {V : Type} (k : string) (v : V) (d : t V) : t V :=
  match d with
  | [] => [(k, v)]
  | (k', v') :: r =>
      if String.eqb k k' then (k, v) :: r else (k', v') :: set k v r
  end.

Definition keys {V : Type} (d : t V) : list string := map fst d.
Definition values {V : Type} (d : t V) : list V := map snd d.

End Dict.

(** ** Exceptions *)

Record exn : Type := Exception { exn_type : string; exn_msg : string }.

Inductive result (A : Type) : Type :=
| Ok (a : A)
| Raise (e : exn).
Arguments Ok {A} a.
Arguments Raise {A} e.

Definition rbind {A B : Type} (r : result A) (k : A -> result B) : result B :=
  match r with
  | Ok a => k a
  | Raise e => Raise e
  end.

(** ** The classifier *)

Record Analysis : Type := mkAnalysis {
  should_generate_code : bool;
  code_score : nat;
  text_score : nat;
  language : string;
  framework : option string;
  reason : string
}.

Definition code_keywords : list string :=
  [ "create"; "build"; "develop"; "implement"; "write code";
    "application"; "app"; "program"; "script"; "function";
    "api"; "service"; "website"; "web app"; "database";
    "class"; "module"; "package"; "framework" ].

Definition text_keywords : list string :=
  [ "explain"; "what is"; "how does"; "describe"; "tell me about";
    "information"; "definition"; "concept"; "theory" ].

Definition language_keywords : list (string * list string) :=
  [ ("python", ["python"; "py"; "django"; "flask"; "fastapi"]);
    ("javascript", ["javascript"; "js"; "node"; "react"; "vue"; "angular"]);
    ("typescript", ["typescript"; "ts"]);
    ("java", ["java"; "spring"; "maven"]);
    ("go", ["go"; "golang"]);
    ("rust", ["rust"]);
    ("cpp", ["c++"; "cpp"]);
    ("c", ["c programming"; "c language"]) ].

Fixpoint first_language (table : list (string * list string)) (query_lower : string)
  : string :=
  match table with
  | [] => "python"
  | (lang, keywords) :: rest =>
      if existsb (fun keyword => contains keyword query_lower) keywords
      then lang
      else first_language rest query_lower
  end.

Definition _detect_language (query : string) : string :=
  first_language language_keywords (lower query).

Definition frameworks : list (string * string) :=
  [ ("django", "django"); ("flask", "flask"); ("fastapi", "fastapi");
    ("react", "react"); ("vue", "vue"); ("angular", "angular");
    ("express", "express"); ("spring", "spring") ].

Fixpoint first_framework (table : list (string * string)) (query_lower : string)
  : option string :=
  match table with
  | [] => None
  | (keyword, fw) :: rest =>
      if contains keyword query_lower then Some fw
      else first_framework rest query_lower
  end.

Definition _detect_framework (query : string) : option string :=
  first_framework frameworks (lower query).

Definition _analyze_query (query : string) : Analysis :=
  let query_lower := lower query in
  let code_score := count (fun keyword => contains keyword query_lower) code_keywords in
  let text_score := count (fun keyword => contains keyword query_lower) text_keywords in
  let should_generate_code := Nat.ltb text_score code_score && Nat.ltb 0 code_score in
  {| should_generate_code := should_generate_code;
     code_score := code_score;
     text_score := text_score;
     language := _detect_language query;
     framework := _detect_framework query;
     reason := if should_generate_code then "Code generation suitable"
               else "Query better suited for text response" |}.

(** ** Configuration and provider selection *)

Record Settings : Type := mkSettings {
  OPENAI_API_KEY : option string;
  ANTHROPIC_API_KEY : option string;
  GOOGLE_API_KEY : option string;
  ENABLE_CODE_GENERATION : bool
}.

(** The process environment, as [os.getenv] reads it. *)
Definition Environ : Type := string -> option string.

Record SimpleAgent : Type := mkAgent {
  openai_api_key : option string;
  anthropic_api_key : option string;
  google_api_key : option string;
  use_openai : bool;
  use_anthropic : bool;
  use_gemini : bool
}.

Definition __init__ (settings : Settings) (getenv : Environ) : SimpleAgent :=
  let openai_api_key := py_or (OPENAI_API_KEY settings) (getenv "OPENAI_API_KEY") in
  let anthropic_api_key := py_or (ANTHROPIC_API_KEY settings) (getenv "ANTHROPIC_API_KEY") in
  let google_api_key := py_or (GOOGLE_API_KEY settings) (getenv "GOOGLE_API_KEY") in
  let use_openai := truthy_opt openai_api_key in
  let use_anthropic := truthy_opt anthropic_api_key && negb use_openai in
  let use_gemini := truthy_opt google_api_key && negb use_openai && negb use_anthropic in
  {| openai_api_key := openai_api_key;
     anthropic_api_key := anthropic_api_key;
     google_api_key := google_api_key;
     use_openai := use_openai;
     use_anthropic := use_anthropic;
     use_gemini := use_gemini |}.

(** ** The structure tree *)

Set Warnings "-register-all".

(** A value of the nested [structure] dictionary: the string ["file"] or a
    dictionary of such values. *)
Inductive Tree : Type :=
| File : Tree
| Dir (entries : list (string * Tree)).

Definition TypeError (msg : string) : exn := Exception "TypeError" msg.
Definition KeyError (msg : string) : exn := Exception "KeyError" msg.
Definition IndexError (msg : string) : exn := Exception "IndexError" msg.
Definition ValueError (msg : string) : exn := Exception "ValueError" msg.

(** [part in current]: key membership on a dictionary, substring test on the
    string ["file"]. *)
Definition tree_contains (part : string) (current : Tree) : bool :=
  match current with
  | File => contains part "file"
  | Dir d => Dict.mem part d
  end.

(** [current[k] = v] *)
Definition tree_setitem (current : Tree) (k : string) (v : Tree) : result Tree :=
  match current with
  | File => Raise (TypeError "'str' object does not support item assignment")
  | Dir d => Ok (Dir (Dict.set k v d))
  end.

(** [current[k]] *)
Definition tree_getitem (current : Tree) (k : string) : result Tree :=
  match current with
  | File => Raise (TypeError "string indices must be integers")
  | Dir d =>
      match Dict.get k d with
      | Some v => Ok v
      | None => Raise (KeyError k)
      end
  end.

(** The body of the loop over [files.keys()] for one path.  The source walks
    down with the reference [current] and mutates the dictionary it points
    to; here the updated sub-dictionary is put back on the way up. *)
Fixpoint place (parts : list string) (current : Tree) : result Tree :=
  match parts with
  | [] => Raise (IndexError "list index out of range")
  | [last] => tree_setitem current last File
  | part :: rest =>
      rbind (if tree_contains part current then Ok current
             else tree_setitem current part (Dir [])) (fun current1 =>
      rbind (tree_getitem current1 part) (fun sub =>
      rbind (place rest sub) (fun sub' =>
      tree_setitem current1 part sub')))
  end.

Fixpoint build_from (paths : list string) (structure : Tree) : result Tree :=
  match paths with
  | [] => Ok structure
  | file_path :: rest =>
      rbind (place (split_slash file_path) structure) (build_from rest)
  end.

Definition _build_structure_tree (files : Dict.t string) : result Tree :=
  build_from (Dict.keys files) (Dir []).

(** ** Codebase results and the quality gate *)

Record Codebase : Type := mkCodebase {
  files : Dict.t string;
  structure : Tree
}.

Definition fallback_patterns : list string :=
  [ "Hello, World"; "TODO: Implement"; "basic template"; "placeholder";
    "print('Hello" ].

Definition declaration_keywords : list string :=
  [ "def "; "class "; "function "; "const "; "let "; "var " ].

Definition is_code_line (line : string) : bool :=
  truthy (strip line)
  && negb (startswith "#" (strip line))
  && negb (startswith "//" (strip line)).

Definition code_lines (content : string) : nat :=
  count is_code_line (splitlines_nl content).

Definition has_fallback_pattern (content : string) : bool :=
  let content_lower := lower content in
  existsb (fun pattern => contains (lower pattern) content_lower) fallback_patterns.

Definition has_declaration (content : string) : bool :=
  existsb (fun keyword => contains keyword content) declaration_keywords.

(** The [for] loop of [_is_fallback_code]: [Some b] when it returns [b],
    [None] when it runs to its end. *)
Fixpoint gate_loop (items : list (string * string)) : option bool :=
  match items with
  | [] => None
  | (file_path, content) :: rest =>
      if has_fallback_pattern content then
        if Nat.ltb 200 (len content) then Some false
        else if has_declaration content then
          if Nat.ltb 5 (code_lines content) then Some false
          else gate_loop rest
        else gate_loop rest
      else gate_loop rest
  end.

Definition total_code_lines (files : Dict.t string) : nat :=
  list_sum (map code_lines (Dict.values files)).

Definition _is_fallback_code (result : Codebase) : bool :=
  match files result with
  | [] => true
  | _ =>
      match gate_loop (files result) with
      | Some b => b
      | None => Nat.ltb (total_code_lines (files result)) 10
      end
  end.

(** ** The response parser: the line scanner *)

Record ParseState : Type := mkState {
  st_files : Dict.t string;
  current_file : option string;
  current_content : list string;
  in_code_block : bool;
  code_block_lang : option string
}.

Definition initial_state : ParseState :=
  {| st_files := []; current_file := None; current_content := [];
     in_code_block := false; code_block_lang := None |}.

Definition ext_map : Dict.t string :=
  [ ("python", "py"); ("py", "py");
    ("javascript", "js"); ("js", "js");
    ("typescript", "ts"); ("ts", "ts");
    ("html", "html"); ("css", "css");
    ("json", "json"); ("yaml", "yml"); ("yml", "yml");
    ("markdown", "md"); ("md", "md") ].

(** [d.get(k, default)] *)
Definition get_default (k : string) (default : string) (d : Dict.t string) : string :=
  match Dict.get k d with Some v => v | None => default end.

(** ['\n'.join(current_content).strip()] *)
Definition committed_text (content : list string) : string :=
  strip (join nl content).

Definition is_nonempty {A : Type} (l : list A) : bool :=
  match l with [] => false | _ => true end.

Definition is_marker (line : string) : bool := startswith "FILE:" (strip line).
Definition is_fence (line : string) : bool := startswith "```" (strip line).

Definition readme_like (f : string) : bool :=
  startswith "README" f || endswith ".md" f.

(** The name inferred for a block opened without a target. *)
Definition inferred_name (current_file : option string) (lang : string) : string :=
  let ext := get_default (lower lang) "txt" ext_map in
  if contains "main" (lower lang) || negb (truthy_opt current_file)
  then "main." ++ ext
  else "file." ++ ext.

(** One turn of the [while] loop, on the line [lines[i]]. *)
Definition scan_step (st : ParseState) (line : string) : ParseState :=
  if is_marker line then
    {| st_files :=
         match current_file st with
         | Some f => if truthy f
                     then Dict.set f (committed_text (current_content st)) (st_files st)
                     else st_files st
         | None => st_files st
         end;
       current_file := Some (strip (replace "FILE:" "" line));
       current_content := [];
       in_code_block := false;
       code_block_lang := code_block_lang st |}
  else if is_fence line then
    if negb (in_code_block st) then
      let lang := strip (drop 3 (strip line)) in
      {| st_files := st_files st;
         current_file :=
           if truthy_opt (current_file st) && negb (is_nonempty (current_content st))
           then current_file st
           else if negb (truthy_opt (current_file st)) then
             if truthy lang then Some (inferred_name (current_file st) lang)
             else current_file st
           else current_file st;
         current_content := current_content st;
         in_code_block := true;
         code_block_lang := Some lang |}
    else
      match current_file st with
      | Some f =>
          if truthy f then
            {| st_files :=
                 if is_nonempty (current_content st)
                 then Dict.set f (committed_text (current_content st)) (st_files st)
                 else st_files st;
               current_file := None;
               current_content := [];
               in_code_block := false;
               code_block_lang := code_block_lang st |}
          else
            {| st_files := st_files st; current_file := current_file st;
               current_content := current_content st; in_code_block := false;
               code_block_lang := code_block_lang st |}
      | None =>
          {| st_files := st_files st; current_file := current_file st;
             current_content := current_content st; in_code_block := false;
             code_block_lang := code_block_lang st |}
      end
  else if truthy_opt (current_file st) then
    {| st_files := st_files st; current_file := current_file st;
       current_content := app (current_content st) [line];
       in_code_block := in_code_block st;
       code_block_lang := code_block_lang st |}
  else if truthy (strip line) && negb (startswith "```" line)
          && negb (in_code_block st) then
    if negb (existsb readme_like (Dict.keys (st_files st))) then
      {| st_files :=
           match Dict.get "README.md" (st_files st) with
           | None => Dict.set "README.md" line (st_files st)
           | Some old => Dict.set "README.md" (old ++ nl ++ line) (st_files st)
           end;
         current_file := current_file st;
         current_content := current_content st;
         in_code_block := in_code_block st;
         code_block_lang := code_block_lang st |}
    else st
  else st.

Definition scan_loop (lines : list string) (st : ParseState) : ParseState :=
  fold_left scan_step lines st.

(** The commit after the loop: "Save last file if exists". *)
Definition save_last (st : ParseState) : Dict.t string :=
  match current_file st with
  | Some f =>
      if truthy f && is_nonempty (current_content st)
      then Dict.set f (committed_text (current_content st)) (st_files st)
      else st_files st
  | None => st_files st
  end.

(** Lines 512 to 580 of the source: the files found by the scanner. *)
Definition scan_response (content : string) : Dict.t string :=
  save_last (scan_loop (splitlines_nl content) initial_state).

(** ** The response parser: the alternative format *)

(** The text before the first [```] of [s] and the text after it. *)
Fixpoint find_fence (s : string) : option (string * string) :=
  match s with
  | EmptyString => None
  | String c r =>
      if startswith "```" s then Some (EmptyString, drop 3 s)
      else match find_fence r with
           | Some (before, after) => Some (String c before, after)
           | None => None
           end
  end.

(** The longest prefix of [s] made of [\w] characters, and the rest. *)
Fixpoint span_word (s : string) : string * string :=
  match s with
  | EmptyString => (EmptyString, EmptyString)
  | String c r =>
      if isword c then let (w, rest) := span_word r in (String c w, rest)
      else (EmptyString, s)
  end.

(** A match of the pattern [```(\w+)?\n(.*?)```] (with [re.DOTALL]) at the
    start of [s]: the two groups and the text after the match.  An unmatched
    first group is the empty string, as [re.findall] reports it. *)
Definition match_block (s : string) : option (string * string * string) :=
  if startswith "```" s then
    let (lang, r) := span_word (drop 3 s) in
    match r with
    | String c r' =>
        if Ascii.eqb c (ascii_of_nat 10) then
          match find_fence r' with
          | Some (code, rest) => Some (lang, code, rest)
          | None => None
          end
        else None
    | EmptyString => None
    end
  else None.

(** [re.findall] of that pattern: matches are looked for from the left and
    do not overlap.  A match consumes at least one character, so [len s]
    turns are enough (lemma [findall_blocks_fuel]). *)
Fixpoint findall_blocks (fuel : nat) (s : string) : list (string * string) :=
  match fuel with
  | O => []
  | S fuel' =>
      match s with
      | EmptyString => []
      | String _ r =>
          match match_block s with
          | Some (lang, code, rest) => (lang, code) :: findall_blocks fuel' rest
          | None => findall_blocks fuel' r
          end
      end
  end.

(** [re.split] on the pattern [```.*?```] (with [re.DOTALL]). *)
Fixpoint split_fenced (fuel : nat) (s : string) : list string :=
  match fuel with
  | O => [s]
  | S fuel' =>
      match find_fence s with
      | Some (before, after) =>
          match find_fence after with
          | Some (_, rest) => before :: split_fenced fuel' rest
          | None => [s]
          end
      | None => [s]
      end
  end.

Definition ext_map_alternative : Dict.t string :=
  [ ("python", "py"); ("py", "py");
    ("javascript", "js"); ("js", "js");
    ("typescript", "ts"); ("ts", "ts");
    ("html", "html"); ("css", "css");
    ("json", "json") ].

(** [str(i)] *)
Definition str_of_nat (i : nat) : string := NilEmpty.string_of_uint (Nat.to_uint i).

(** The loop over [enumerate(code_blocks)], from index [i]. *)
Fixpoint add_blocks (language : string) (i : nat) (blocks : list (string * string))
  (files : Dict.t string) : Dict.t string :=
  match blocks with
  | [] => files
  | (lang, code) :: rest =>
      let lang := if truthy lang then lang else language in
      let ext := get_default (lower lang) "txt" ext_map_alternative in
      let filename := if Nat.eqb i 0 then "main." ++ ext
                      else "file_" ++ str_of_nat i ++ "." ++ ext in
      add_blocks language (S i) rest (Dict.set filename (strip code) files)
  end.

Definition _parse_alternative_format (content : string) (analysis : Analysis)
  : Dict.t string :=
  let code_blocks := findall_blocks (len content) content in
  let files := add_blocks (language analysis) 0 code_blocks [] in
  let text_parts := split_fenced (len content) content in
  let readme_text :=
    join (nl ++ nl)
      (map strip
         (filter (fun p => truthy (strip p) && negb (startswith "FILE:" (strip p)))
            text_parts)) in
  if truthy readme_text && Nat.ltb 50 (len readme_text)
  then Dict.set "README.md" readme_text files
  else files.

(** ** README for a parsed result *)

(** A block of text given line by line. *)
Definition text (lines : list string) : string := join nl lines.

Definition framework_is (framework : option string) (name : string) : bool :=
  match framework with
  | Some f => String.eqb f name
  | None => false
  end.

(** [f"- Framework: {framework}" if framework else ""] and its like. *)
Definition if_framework (framework : option string) (k : string -> string) : string :=
  match framework with
  | Some f => if truthy f then k f else ""
  | None => ""
  end.

Definition is_node_language (language : string) : bool :=
  String.eqb language "javascript" || String.eqb language "typescript".

(** [sorted(l)] on strings. *)
Fixpoint insert_sorted (x : string) (l : list string) : list string :=
  match l with
  | [] => [x]
  | y :: r => if String.leb x y then x :: l else y :: insert_sorted x r
  end.

Definition sorted (l : list string) : list string :=
  fold_right insert_sorted [] l.

Definition run_block (title command : string) : string :=
  text [ title; "   ```bash"; "   " ++ command; "   ```"; "" ].

Definition _generate_comprehensive_readme (files : Dict.t string) (language : string)
  (framework : option string) (analysis : Analysis) : string :=
  let filenames := Dict.keys files in
  let main_file :=
    match find (fun filename =>
                  endswith "main.py" filename || endswith "main.js" filename
                  || endswith "main.ts" filename || String.eqb filename "app.py"
                  || String.eqb filename "index.js") filenames with
    | Some f => if truthy f then Some f
                else find (fun filename =>
                             endswith ".py" filename || endswith ".js" filename
                             || endswith ".ts" filename) filenames
    | None => find (fun filename =>
                      endswith ".py" filename || endswith ".js" filename
                      || endswith ".ts" filename) filenames
    end in
  let is_web_app :=
    existsb (fun f => contains "app" (lower f) || contains "server" (lower f)
                      || contains "api" (lower f)) filenames
    || existsb (framework_is framework) ["fastapi"; "flask"; "express"; "react"] in
  let has_requirements := Dict.mem "requirements.txt" files in
  let has_package_json := Dict.mem "package.json" files in
  let readme :=
    text [ "# Generated Project";
           "";
           "## Description";
           "This project was generated by SimpleAgent. Please review the code and customize as needed.";
           "";
           "## Technology Stack";
           "- Language: " ++ language;
           if_framework framework (fun f => "- Framework: " ++ f);
           "";
           "## Prerequisites";
           "" ] in
  let readme :=
    if String.eqb language "python" then
      readme ++ text [ "- Python 3.8 or higher"; "- pip (Python package manager)"; "" ]
             ++ if_framework framework (fun f => "- " ++ f ++ " framework" ++ nl)
    else if is_node_language language then
      readme ++ text [ "- Node.js 14.x or higher"; "- npm (Node Package Manager)"; "" ]
             ++ if_framework framework (fun f => "- " ++ f ++ " framework" ++ nl)
    else readme in
  let readme := readme ++ nl ++ "## Installation" ++ nl ++ nl in
  let readme :=
    if String.eqb language "python" then
      readme ++ text [ "1. Create a virtual environment (recommended):";
                       "   ```bash";
                       "   python -m venv venv";
                       "   ";
                       "   # On Windows:";
                       "   venv\Scripts\activate";
                       "   ";
                       "   # On macOS/Linux:";
                       "   source venv/bin/activate";
                       "   ```";
                       "";
                       "2. Install dependencies:";
                       "   ```bash";
                       "   pip install -r requirements.txt";
                       "   ```";
                       "" ]
    else if is_node_language language then
      readme ++ text [ "1. Install dependencies:";
                       "   ```bash";
                       "   npm install";
                       "   ```";
                       "" ]
    else readme in
  let readme := readme ++ nl ++ "## How to Run" ++ nl ++ nl in
  let readme :=
    if is_web_app then
      if framework_is framework "fastapi" then
        readme ++ text [ "Run the FastAPI application:";
                         "   ```bash";
                         "   uvicorn main:app --reload";
                         "   ```";
                         "   ";
                         "   Or if using app.py:";
                         "   ```bash";
                         "   uvicorn app:app --reload";
                         "   ```";
                         "   ";
                         "   The application will be available at: http://localhost:8000";
                         "" ]
      else if framework_is framework "flask" then
        readme ++ text [ "Run the Flask application:";
                         "   ```bash";
                         "   python " ++ match main_file with
                                        | Some f => if truthy f then f else "app.py"
                                        | None => "app.py"
                                        end;
                         "   ```";
                         "   ";
                         "   The application will be available at: http://localhost:5000";
                         "" ]
      else if framework_is framework "express" then
        readme ++ text [ "Run the Express server:";
                         "   ```bash";
                         "   npm start";
                         "   ```";
                         "   ";
                         "   Or:";
                         "   ```bash";
                         "   node main.js";
                         "   ```";
                         "   ";
                         "   The server will be available at: http://localhost:3000";
                         "" ]
      else
        match main_file with
        | Some f =>
            if truthy f then
              if String.eqb language "python"
              then readme ++ run_block "Run the application:" ("python " ++ f)
              else readme ++ run_block "Run the application:" ("node " ++ f)
            else readme
        | None => readme
        end
    else
      match (match main_file with
             | Some f => if truthy f then Some f else None
             | None => None
             end) with
      | Some f =>
          if String.eqb language "python"
          then readme ++ run_block "Run the script:" ("python " ++ f)
          else readme ++ run_block "Run the script:" ("node " ++ f)
      | None =>
          readme ++ text [ "Run the main file:";
                           "   ```bash";
                           "   python main.py";
                           "   ```";
                           "   (Adjust the command based on your main entry point)";
                           "" ]
      end in
  let readme := readme ++ nl ++ "## Project Structure" ++ nl ++ nl in
  let readme := readme ++ "Key files in this project:" ++ nl ++ nl in
  let readme :=
    fold_left (fun readme filename => readme ++ "- `" ++ filename ++ "`" ++ nl)
      (firstn 10 (sorted filenames)) readme in
  let readme := readme ++ nl ++ "## Usage" ++ nl ++ nl in
  let readme := readme ++ "Please refer to the code comments and implementation for usage details." ++ nl in
  let readme := readme ++ nl ++ "## Notes" ++ nl ++ nl in
  let readme := readme ++ "- This code was automatically generated. Please review and test before production use." ++ nl in
  let readme := readme ++ "- Make sure all dependencies are installed before running." ++ nl in
  if negb has_requirements && negb has_package_json
  then readme ++ "- **Important**: Dependencies file may be missing. Please check and add required packages." ++ nl
  else readme.

(** ** The response parser *)

Definition is_readme (f : string) : bool :=
  endswith "readme.md" (lower f) || String.eqb (lower f) "readme.md".

Definition _parse_codebase_response (content : string) (analysis : Analysis)
  : result Codebase :=
  let files := scan_response content in
  let files :=
    if negb (is_nonempty files) then _parse_alternative_format content analysis
    else files in
  if negb (is_nonempty files) then Ok {| files := []; structure := Dir [] |}
  else
    let readme_exists := existsb is_readme (Dict.keys files) in
    let files :=
      if negb readme_exists then
        Dict.set "README.md"
          (_generate_comprehensive_readme files (language analysis)
             (framework analysis) analysis) files
      else files in
    rbind (_build_structure_tree files) (fun tree =>
    Ok {| files := files; structure := tree |}).

(** ** The fallback synthesizer *)

Definition any_in (keywords : list string) (s : string) : bool :=
  existsb (fun k => contains k s) keywords.

Definition _extract_requirements (query : string) : string :=
  let query_lower := lower query in
  let requirements :=
    concat
      [ if any_in ["authentication"; "login"; "auth"] query_lower
        then ["- User authentication/login functionality"] else [];
        if any_in ["database"; "db"; "sql"] query_lower
        then ["- Database integration"] else [];
        if any_in ["api"; "rest"; "endpoint"] query_lower
        then ["- API endpoints/REST API"] else [];
        if any_in ["crud"; "create"; "read"; "update"; "delete"] query_lower
        then ["- CRUD operations"] else [];
        if any_in ["todo"; "task"] query_lower
        then ["- Todo/task management features"] else [];
        if any_in ["web"; "website"; "html"] query_lower
        then ["- Web interface/HTML pages"] else [];
        if any_in ["visualization"; "chart"; "graph"; "plot"] query_lower
        then ["- Data visualization/charts"] else [];
        if any_in ["csv"; "excel"; "data"] query_lower
        then ["- Data file processing"] else [];
        if any_in ["cli"; "command"; "terminal"] query_lower
        then ["- Command-line interface"] else [] ] in
  let requirements :=
    if negb (is_nonempty requirements)
    then ["- Implement the functionality described in the user's request"]
    else requirements in
  join nl requirements.

(** [s] between double quotes. *)
Definition quoted (s : string) : string := dq ++ s ++ dq.

Definition _generate_python_code (query requirements : string)
  (framework : option string) : string :=
  let code_parts :=
    [ dq ++ dq ++ dq ++ nl ++ "Generated by SimpleAgent" ++ nl
      ++ "Query: " ++ query ++ nl ++ dq ++ dq ++ dq ++ nl ] in
  let imports :=
    concat
      [ if any_in ["api"; "rest"] (lower query) then
          if framework_is framework "fastapi" then
            [ "from fastapi import FastAPI, HTTPException";
              "from pydantic import BaseModel" ]
          else if framework_is framework "flask" then
            [ "from flask import Flask, request, jsonify" ]
          else
            [ "from http.server import HTTPServer, BaseHTTPRequestHandler";
              "import json" ]
        else [];
        if any_in ["database"; "db"; "sql"] (lower query)
        then ["import sqlite3"; "import os"] else [];
        if any_in ["csv"; "data"] (lower query)
        then ["import csv"; "import pandas as pd"] else [];
        if any_in ["authentication"; "login"; "auth"] (lower query)
        then ["import hashlib"; "import secrets"] else [];
        if any_in ["todo"; "task"] (lower query)
        then ["from datetime import datetime";
              "from typing import List, Dict, Optional"] else [] ] in
  let code_parts :=
    if is_nonempty imports then app code_parts [join nl imports; ""]
    else code_parts in
  let code_parts :=
    if framework_is framework "fastapi" then
      app code_parts
        [ "app = FastAPI(title=" ++ quoted "Generated Application" ++ ")" ++ nl;
          "@app.get(" ++ quoted "/" ++ ")" ++ nl ++ "def read_root():" ++ nl
          ++ "    return {" ++ quoted "message" ++ ": "
          ++ quoted "Application is running" ++ "}" ++ nl;
          "@app.get(" ++ quoted "/health" ++ ")" ++ nl ++ "def health_check():" ++ nl
          ++ "    return {" ++ quoted "status" ++ ": " ++ quoted "healthy" ++ "}" ++ nl ]
    else if framework_is framework "flask" then
      app code_parts
        [ "app = Flask(__name__)" ++ nl;
          "@app.route('/')" ++ nl ++ "def index():" ++ nl
          ++ "    return jsonify({" ++ quoted "message" ++ ": "
          ++ quoted "Application is running" ++ "})" ++ nl ]
    else
      app code_parts
        (app
           [ "def main():";
             "    " ++ dq ++ dq ++ dq
             ++ "Main function implementing the requested functionality"
             ++ dq ++ dq ++ dq ]
           (app
              (if any_in ["todo"; "task"] (lower query) then
                 [ "    # Todo list functionality";
                   "    todos = []";
                   "    print(" ++ quoted "Todo list application initialized" ++ ")" ]
               else if contains "api" (lower query) then
                 [ "    # API functionality";
                   "    print(" ++ quoted "API server would start here" ++ ")" ]
               else if contains "database" (lower query) then
                 [ "    # Database functionality";
                   "    print(" ++ quoted "Database operations would be performed here" ++ ")" ]
               else
                 [ "    # Implement: " ++ take 100 query;
                   "    print(" ++ quoted "Application started" ++ ")" ])
              [ "";
                "if __name__ == " ++ quoted "__main__" ++ ":";
                "    main()" ])) in
  join nl code_parts.

Definition _generate_js_code (query requirements : string)
  (framework : option string) (ext : string) : string :=
  let code_parts :=
    if String.eqb ext "ts" then
      [ "// Generated by SimpleAgent";
        "// Query: " ++ query ++ nl;
        "interface Config {";
        "  // Add configuration interface here";
        "}" ++ nl ]
    else
      [ "// Generated by SimpleAgent";
        "// Query: " ++ query ++ nl ] in
  let code_parts :=
    if framework_is framework "react" then
      app code_parts
        [ "import React from 'react';" ++ nl;
          "function App() {";
          "  return (";
          "    <div className=" ++ quoted "App" ++ ">";
          "      <h1>Generated Application</h1>";
          "    </div>";
          "  );";
          "}" ++ nl;
          "export default App;" ]
    else if framework_is framework "express" || contains "api" (lower query) then
      app code_parts
        [ "const express = require('express');";
          "const app = express();" ++ nl;
          "app.use(express.json());" ++ nl;
          "app.get('/', (req, res) => {";
          "  res.json({ message: 'Application is running' });";
          "});" ++ nl;
          "const PORT = process.env.PORT || 3000;";
          "app.listen(PORT, () => {";
          "  console.log(`Server running on port ${PORT}`);";
          "});" ]
    else
      app code_parts
        [ "// Main application code";
          "function main() {";
          "  // Implement: " ++ take 80 query;
          "  console.log('Application started');";
          "}" ++ nl;
          "main();" ] in
  join nl code_parts.

Definition _generate_dependencies (requirements language : string)
  (framework : option string) : string :=
  let deps :=
    if String.eqb language "python" then
      let deps :=
        concat
          [ if framework_is framework "fastapi"
            then ["fastapi==0.104.1"; "uvicorn[standard]==0.24.0"]
            else if framework_is framework "flask" then ["flask==3.0.0"]
            else [];
            if any_in ["database"; "sql"] (lower requirements)
            then ["sqlalchemy==2.0.23"] else [];
            if any_in ["csv"; "data"] (lower requirements)
            then ["pandas==2.1.3"] else [] ] in
      if negb (is_nonempty deps) then ["# Add your dependencies here"] else deps
    else [] in
  if is_nonempty deps then join nl deps
  else "# No specific dependencies identified".

Definition _generate_package_json (requirements : string)
  (framework : option string) : string :=
  let deps : Dict.t string :=
    app
      (if framework_is framework "express" || contains "api" (lower requirements)
       then [("express", "^4.18.2")] else [])
      (if framework_is framework "react"
       then [("react", "^18.2.0"); ("react-dom", "^18.2.0")] else []) in
  let deps_str :=
    join ("," ++ nl ++ "    ")
      (map (fun kv => quoted (fst kv) ++ ": " ++ quoted (snd kv)) deps) in
  join nl
    [ "{";
      "  " ++ quoted "name" ++ ": " ++ quoted "generated-project" ++ ",";
      "  " ++ quoted "version" ++ ": " ++ quoted "1.0.0" ++ ",";
      "  " ++ quoted "description" ++ ": " ++ quoted "Generated by SimpleAgent" ++ ",";
      "  " ++ quoted "main" ++ ": " ++ quoted "main.js" ++ ",";
      "  " ++ quoted "scripts" ++ ": {";
      "    " ++ quoted "start" ++ ": " ++ quoted "node main.js";
      "  },";
      "  " ++ quoted "dependencies" ++ ": {";
      "    " ++ (if truthy deps_str then deps_str else "// Add dependencies here");
      "  }";
      "}" ].

Definition _generate_readme (query requirements language : string)
  (framework : option string) : string :=
  let readme :=
    text [ "# Generated Project";
           "";
           "## Description";
           "This project was generated by SimpleAgent based on the following request:";
           "";
           query;
           "";
           "## Requirements Identified";
           requirements;
           "";
           "## Technology Stack";
           "- Language: " ++ language;
           if_framework framework (fun f => "- Framework: " ++ f);
           "";
           "## Setup Instructions";
           "";
           "### Prerequisites";
           "- " ++ capitalize language ++ " installed";
           if_framework framework (fun f => "- " ++ f ++ " framework");
           "";
           "### Installation";
           "" ] in
  let readme :=
    if String.eqb language "python" then
      readme ++ text [ "1. Create a virtual environment (recommended):";
                       "   ```bash";
                       "   python -m venv venv";
                       "   source venv/bin/activate  # On Windows: venv\Scripts\activate";
                       "   ```";
                       "";
                       "2. Install dependencies:";
                       "   ```bash";
                       "   pip install -r requirements.txt";
                       "   ```";
                       "";
                       "3. Run the application:";
                       "   ```bash";
                       "   python main.py";
                       "   ```";
                       "" ]
    else if is_node_language language then
      readme ++ text [ "1. Install dependencies:";
                       "   ```bash";
                       "   npm install";
                       "   ```";
                       "";
                       "2. Run the application:";
                       "   ```bash";
                       "   npm start";
                       "   # or";
                       "   node main.js";
                       "   ```";
                       "" ]
    else readme in
  readme ++ text [ "";
                   "## Implementation Notes";
                   "This code was generated based on your query. Please review and customize as needed to fully implement all requirements.";
                   "";
                   "## Next Steps";
                   "1. Review the generated code";
                   "2. Implement any missing functionality";
                   "3. Add tests";
                   "4. Customize based on your specific needs";
                   "" ].

(** The files of [_generate_enhanced_fallback], before the tree is built. *)
Definition fallback_files (query : string) (analysis : Analysis) : Dict.t string :=
  let language := language analysis in
  let framework := framework analysis in
  let requirements := _extract_requirements query in
  let files : Dict.t string := [] in
  let files :=
    if String.eqb language "python" then
      let main_code := _generate_python_code query requirements framework in
      let files := Dict.set "main.py" main_code files in
      let deps := _generate_dependencies requirements language framework in
      Dict.set "requirements.txt" deps files
    else if is_node_language language then
      let ext := if String.eqb language "typescript" then "ts" else "js" in
      let main_code := _generate_js_code query requirements framework ext in
      let files := Dict.set ("main." ++ ext) main_code files in
      let package_json := _generate_package_json requirements framework in
      Dict.set "package.json" package_json files
    else
      Dict.set ("main." ++ language)
        ("// Generated by SimpleAgent" ++ nl ++ "// Query: " ++ query ++ nl
         ++ "// Implement the requested functionality here") files in
  let readme := _generate_readme query requirements language framework in
  Dict.set "README.md" readme files.

(** The synthesizer as a computation that may raise: the only step of it
    that can is the building of the tree. *)
Definition enhanced_fallback (query : string) (analysis : Analysis) : result Codebase :=
  let files := fallback_files query analysis in
  rbind (_build_structure_tree files) (fun tree =>
  Ok {| files := files; structure := tree |}).

(** ** Provider calls *)

Inductive Provider : Type := OpenAI | Anthropic | Gemini.

(** The shapes of a Gemini response that [_generate_with_gemini] probes. *)
Inductive GeminiResponse : Type :=
| WithText (content : string)
| WithCandidates (content : string)
| Shapeless.

(** The outside world: what each provider answers when it is called.  An
    answer is the text of the reply, or the exception raised on the way to
    it (import, client construction, network, authentication, a reply of
    the wrong shape). *)
Record World : Type := mkWorld {
  openai_answer : result string;
  anthropic_answer : result string;
  gemini_answer : result GeminiResponse
}.

(** The provider calls made so far, oldest first. *)
Definition Log : Type := list Provider.

Definition Agent (A : Type) : Type := World -> Log -> result A * Log.

Definition ret {A : Type} (a : A) : Agent A := fun _ log => (Ok a, log).

Definition raise {A : Type} (e : exn) : Agent A := fun _ log => (Raise e, log).

Definition lift {A : Type} (r : result A) : Agent A := fun _ log => (r, log).

Definition bind {A B : Type} (m : Agent A) (k : A -> Agent B) : Agent B :=
  fun w log =>
    match m w log with
    | (Ok a, log') => k a w log'
    | (Raise e, log') => (Raise e, log')
    end.

(** [try: m  except Exception as e: handler e] *)
Definition try_except {A : Type} (m : Agent A) (handler : exn -> Agent A) : Agent A :=
  fun w log =>
    match m w log with
    | (Ok a, log') => (Ok a, log')
    | (Raise e, log') => handler e w log'
    end.

Notation "x <- m ;; k" := (bind m (fun x => k))
  (at level 61, m at next level, right associativity).

Definition call_openai : Agent string :=
  fun w log => (openai_answer w, app log [OpenAI]).

Definition call_anthropic : Agent string :=
  fun w log => (anthropic_answer w, app log [Anthropic]).

Definition call_gemini : Agent GeminiResponse :=
  fun w log => (gemini_answer w, app log [Gemini]).

(** ** The provider adapters *)

(** The dictionary an adapter returns: a codebase, or [{"content": ...}]. *)
Inductive Reply : Type :=
| CodeReply (codebase : Codebase)
| ContentReply (content : string).

Definition _generate_enhanced_fallback (query : string) (analysis : Analysis)
  (existing_result : option Reply) : Agent Codebase :=
  lift (enhanced_fallback query analysis).

Definition _generate_with_openai (query : string) (analysis : Analysis)
  (codebase : bool) : Agent Reply :=
  try_except
    (content <- call_openai ;;
     if codebase then
       parsed <- lift (_parse_codebase_response content analysis) ;;
       ret (CodeReply parsed)
     else ret (ContentReply content))
    (fun e =>
       if codebase then
         fallback <- _generate_enhanced_fallback query analysis None ;;
         ret (CodeReply fallback)
       else ret (ContentReply ("Error generating response: " ++ exn_msg e))).

Definition _generate_with_anthropic (query : string) (analysis : Analysis)
  (codebase : bool) : Agent Reply :=
  try_except
    (content <- call_anthropic ;;
     if codebase then
       parsed <- lift (_parse_codebase_response content analysis) ;;
       ret (CodeReply parsed)
     else ret (ContentReply content))
    (fun e =>
       if codebase then
         fallback <- _generate_enhanced_fallback query analysis None ;;
         ret (CodeReply fallback)
       else ret (ContentReply ("Error generating response: " ++ exn_msg e))).

Definition _generate_with_gemini (query : string) (analysis : Analysis)
  (codebase : bool) : Agent Reply :=
  try_except
    (response <- call_gemini ;;
     content <- match response with
                | WithText content => ret content
                | WithCandidates content => ret content
                | Shapeless =>
                    raise (ValueError "Unable to extract text from Gemini response")
                end ;;
     if codebase then
       parsed <- lift (_parse_codebase_response content analysis) ;;
       ret (CodeReply parsed)
     else ret (ContentReply content))
    (fun e =>
       if codebase then
         fallback <- _generate_enhanced_fallback query analysis None ;;
         ret (CodeReply fallback)
       else ret (ContentReply ("Error generating response: " ++ exn_msg e))).

(** ** The orchestrator *)

(** The lines that follow the provider call in each branch of
    [_generate_codebase]: a result with no files, or one the quality gate
    rejects, is replaced by the synthesizer's. *)
Definition check_result (query : string) (analysis : Analysis) (result : Reply)
  : Agent Codebase :=
  match result with
  | CodeReply c =>
      if negb (is_nonempty (files c)) || _is_fallback_code c
      then _generate_enhanced_fallback query analysis (Some result)
      else ret c
  | ContentReply _ => _generate_enhanced_fallback query analysis (Some result)
  end.

Definition _generate_codebase (self : SimpleAgent) (query : string)
  (analysis : Analysis) : Agent Codebase :=
  if use_openai self then
    result <- _generate_with_openai query analysis true ;;
    check_result query analysis result
  else if use_anthropic self then
    result <- _generate_with_anthropic query analysis true ;;
    check_result query analysis result
  else if use_gemini self then
    result <- _generate_with_gemini query analysis true ;;
    check_result query analysis result
  else _generate_enhanced_fallback query analysis None.

(** [result.get("content", "Unable to generate response.")] *)
Definition content_of (result : Reply) : string :=
  match result with
  | ContentReply content => content
  | CodeReply _ => "Unable to generate response."
  end.

Definition _generate_text_response (self : SimpleAgent) (query : string)
  (analysis : Analysis) : Agent string :=
  if use_openai self then
    result <- _generate_with_openai query analysis false ;;
    ret (content_of result)
  else if use_anthropic self then
    result <- _generate_with_anthropic query analysis false ;;
    ret (content_of result)
  else if use_gemini self then
    result <- _generate_with_gemini query analysis false ;;
    ret (content_of result)
  else
    ret ("Response to query: " ++ query ++ nl ++ nl
         ++ "This query is better suited for an informational response rather than code generation.").

(** The value handed to the external collaborator. *)
Inductive GenerationResult : Type :=
| CodebaseResult (content : Codebase) (meta_language : string)
    (meta_framework : option string) (meta_structure : Tree)
| TextResult (content : string) (meta_reason : string).

Definition process_query (settings : Settings) (self : SimpleAgent) (query : string)
  : Agent GenerationResult :=
  let analysis := _analyze_query query in
  if should_generate_code analysis && ENABLE_CODE_GENERATION settings then
    codebase <- _generate_codebase self query analysis ;;
    ret (CodebaseResult codebase (language analysis) (framework analysis)
           (structure codebase))
  else
    text_response <- _generate_text_response self query analysis ;;
    ret (TextResult text_response (reason analysis)).

(** * Notions used in the statements *)

(** The files that the loop of [_is_fallback_code] passes over without
    returning. *)
Definition gate_clear (items : list (string * string)) : Prop :=
  forall path content,
    In (path, content) items ->
    has_fallback_pattern content = true ->
    len content <= 200
    /\ ~ (has_declaration content = true /\ 5 < code_lines content).

(** The quality check as the specification words it: no files; or every file holds
    one of four placeholder phrases and is under 200 characters or lacks a
    declaration keyword with more than five code lines; or fewer than ten
    code lines in all. *)
Definition spec_placeholder_phrases : list string :=
  [ "hello, world"; "todo: implement"; "basic template"; "placeholder" ].

Definition spec_fallback_quality (result : Codebase) : bool :=
  negb (is_nonempty (files result))
  || forallb
       (fun content =>
          existsb (fun phrase => contains phrase (lower content))
            spec_placeholder_phrases
          && (Nat.ltb (len content) 200
              || negb (has_declaration content && Nat.ltb 5 (code_lines content))))
       (Dict.values (files result))
  || Nat.ltb (total_code_lines (files result)) 10.

(** A file of nine code lines that holds a placeholder phrase and a
    declaration, and the same file with a tenth line. *)
Definition nine_line_file : string :=
  text [ "label = 'placeholder'";
         "def area(w, h):";
         "    return w * h";
         "def perimeter(w, h):";
         "    return 2 * (w + h)";
         "w = 3";
         "h = 4";
         "print(label, area(w, h))";
         "print(label, perimeter(w, h))" ].

Definition ten_line_file : string := nine_line_file ++ nl ++ "print(w + h)".

Definition single_file (path content : string) : Codebase :=
  {| files := [(path, content)]; structure := Dir [(path, File)] |}.

(** The value found in a tree by walking down the segments of a path. *)
Fixpoint lookup_path (parts : list string) (t : Tree) : option Tree :=
  match parts with
  | [] => Some t
  | part :: rest =>
      match t with
      | File => None
      | Dir d =>
          match Dict.get part d with
          | Some sub => lookup_path rest sub
          | None => None
          end
      end
  end.

(** The tree marks the final segment of [file_path] as a leaf. *)
Definition marks_leaf (t : Tree) (file_path : string) : Prop :=
  lookup_path (split_slash file_path) t = Some File.

Definition is_prefix (p q : list string) : Prop := exists r, q = app p r.

Definition proper_prefix (p q : list string) : Prop :=
  exists r, r <> [] /\ q = app p r.

(** No path is a proper prefix, segment by segment, of another. *)
Definition prefix_free (paths : list string) : Prop :=
  forall p q, In p paths -> In q paths ->
    ~ proper_prefix (split_slash p) (split_slash q).

(** A path comes before one of its extensions in the order of the keys. *)
Definition extension_follows (paths : list string) : Prop :=
  exists before p between q after,
    paths = app before (p :: app between (q :: after))
    /\ proper_prefix (split_slash p) (split_slash q).

(** Two segment lists that part ways at some index. *)
Inductive diverge : list string -> list string -> Prop :=
| diverge_here (x y : string) (a b : list string) :
    x <> y -> diverge (x :: a) (y :: b)
| diverge_later (x : string) (a b : list string) :
    diverge a b -> diverge (x :: a) (x :: b).

Definition is_type_error {A : Type} (r : result A) : Prop :=
  exists msg, r = Raise (TypeError msg).

(** A provider reply that names a file and then a file below it. *)
Definition nested_reply : string :=
  text [ "FILE: a"; "x = 1"; "FILE: a/b"; "y = 2"; "FILE: README.md"; "Notes." ].

(** A reply that names the same two files in the other order. *)
Definition reversed_reply : string :=
  text [ "FILE: a/b"; "y = 2"; "FILE: a"; "x = 1"; "FILE: README.md"; "Notes." ].

(** The reply of an adapter to a prose request whose provider call raised. *)
Definition error_reply (e : exn) : Reply :=
  ContentReply ("Error generating response: " ++ exn_msg e).

(** The exception raised on a Gemini response of neither shape. *)
Definition extraction_error : exn :=
  ValueError "Unable to extract text from Gemini response".

(** The text of a Gemini response, or the exception of the probe. *)
Definition gemini_text (answer : result GeminiResponse) : result string :=
  match answer with
  | Ok (WithText content) => Ok content
  | Ok (WithCandidates content) => Ok content
  | Ok Shapeless => Raise extraction_error
  | Raise e => Raise e
  end.

(** A credential is present: [bool(settings.X or os.getenv("X"))]. *)
Definition credential (configured : option string) (from_environ : option string)
  : bool :=
  truthy_opt (py_or configured from_environ).

(** Every character of [s] is whitespace: [s] is a blank line. *)
Fixpoint all_space (s : string) : bool :=
  match s with
  | EmptyString => true
  | String c r => isspace c && all_space r
  end.

(** The trimming the specification words: blank lines removed at both
    ends, the lines between them untouched. *)
Fixpoint drop_blank_lines (lines : list string) : list string :=
  match lines with
  | [] => []
  | l :: r => if all_space l then drop_blank_lines r else lines
  end.

Definition trim_blank_lines (lines : list string) : list string :=
  rev (drop_blank_lines (rev (drop_blank_lines lines))).

Definition spec_committed_text (content : list string) : string :=
  join nl (trim_blank_lines content).

(** A reply whose only file starts with an indented line and ends with
    trailing spaces. *)
Definition indented_reply : string :=
  text [ "FILE: step.py"; ""; "    total = total + 1"; "    return total  "; "" ].

(** A reply that opens a fenced block without a language tag, so that the
    block has no file target. *)
Definition untagged_block_reply : string :=
  text [ "```"; "This tool prints a greeting."; "```" ].

(** The state of the scanner after the opening fence of that reply. *)
Definition inside_untagged_block : ParseState :=
  scan_loop ["```"] initial_state.

(** Two fenced blocks of the same language, and of two languages, none under
    a file marker. *)
Definition two_python_blocks : string :=
  text [ "```python"; "print(1)"; "```"; "```python"; "print(2)"; "```" ].

Definition python_then_js_blocks : string :=
  text [ "```python"; "print(1)"; "```"; "```js"; "console.log(2)"; "```" ].

(** A relative path with no [..] segment. *)
Definition safe_relative_path (p : string) : bool :=
  negb (startswith "/" p) && negb (existsb (String.eqb "..") (split_slash p)).

(** The text the selected provider answered, or the exception raised on the
    way to it. *)
Definition selected_answer (self : SimpleAgent) (world : World) : result string :=
  if use_openai self then openai_answer world
  else if use_anthropic self then anthropic_answer world
  else if use_gemini self then gemini_text (gemini_answer world)
  else Raise (ValueError "no provider selected").

(** The keys of the files the fallback synthesizer produces. *)
Definition fallback_key_list (language : string) : list string :=
  if String.eqb language "python" then ["main.py"; "requirements.txt"; "README.md"]
  else if is_node_language language then
    [ "main." ++ (if String.eqb language "typescript" then "ts" else "js");
      "package.json"; "README.md" ]
  else ["main." ++ language; "README.md"].

Definition detected_languages : list string :=
  ["python"; "javascript"; "typescript"; "java"; "go"; "rust"; "cpp"; "c"].

(** A configuration with an OpenAI credential, and a reply of that provider
    that names a file above the output directory. *)
Definition openai_settings : Settings :=
  {| OPENAI_API_KEY := Some "sk-test"; ANTHROPIC_API_KEY := None;
     GOOGLE_API_KEY := None; ENABLE_CODE_GENERATION := true |}.

Definition no_settings : Settings :=
  {| OPENAI_API_KEY := None; ANTHROPIC_API_KEY := None;
     GOOGLE_API_KEY := None; ENABLE_CODE_GENERATION := true |}.

Definition empty_environ : Environ := fun _ => None.

Definition traversal_reply : string :=
  text [ "FILE: ../deploy.py";
         "import os";
         "import sys";
         "def run(target):";
         "    os.makedirs(target, exist_ok=True)";
         "    return target";
         "def main():";
         "    target = sys.argv[1]";
         "    run(target)";
         "    return 0";
         "sys.exit(main())";
         "FILE: README.md";
         "Run python deploy.py <target>." ].

Definition traversal_world : World :=
  {| openai_answer := Ok traversal_reply;
     anthropic_answer := Ok "";
     gemini_answer := Ok Shapeless |}.

(** The sub-dictionary the walk goes into at [part]: the one already there,
    or the fresh one the loop creates. *)
Definition sub_at (part : string) (d : list (string * Tree)) : Tree :=
  match Dict.get part d with
  | Some s => s
  | None => Dir []
  end.

(** The tail shared by the three adapters, once the text of the reply or
    the exception is known. *)
Definition finish (query : string) (analysis : Analysis) (codebase : bool)
  (answer : result string) : result Reply :=
  match answer with
  | Ok content =>
      if codebase then
        match _parse_codebase_response content analysis with
        | Ok parsed => Ok (CodeReply parsed)
        | Raise _ =>
            match enhanced_fallback query analysis with
            | Ok c => Ok (CodeReply c)
            | Raise e => Raise e
            end
        end
      else Ok (ContentReply content)
  | Raise e =>
      if codebase then
        match enhanced_fallback query analysis with
        | Ok c => Ok (CodeReply c)
        | Raise e' => Raise e'
        end
      else Ok (error_reply e)
  end.

(** A line that is neither a file marker nor a fence. *)
Definition is_plain (line : string) : bool :=
  negb (is_marker line) && negb (is_fence line).

(** The line [opener] opens the file target [path]: a marker line names the
    target, a fence line with a language tag gives it the inferred name. *)
Definition opens (opener path : string) : Prop :=
  (is_marker opener = true /\ path = strip (replace "FILE:" "" opener))
  \/ (is_marker opener = false /\ is_fence opener = true
      /\ truthy (strip (drop 3 (strip opener))) = true
      /\ path = "main." ++ get_default (lower (strip (drop 3 (strip opener))))
                             "txt" ext_map).

(** The fence lines a target can pass before the one that closes its block:
    after a marker the fence that starts the block, after an inferring fence
    none. *)
Definition fences_allowed (opener : string) : nat :=
  if is_marker opener then 1 else 0.

(** The lines [seg] that follow the opener of a target up to the line that
    commits it: no marker line is among them, and no more fence lines than
    the opener allows. *)
Definition block_lines (opener : string) (seg : list string) : Prop :=
  existsb is_marker seg = false
  /\ count is_fence seg <= fences_allowed opener.

(** What comes after those lines: the end of the reply, a marker line, or
    the fence line that closes the block. *)
Definition block_end (opener : string) (seg after : list string) : Prop :=
  match after with
  | [] => True
  | closer :: _ =>
      is_marker closer = true
      \/ (is_fence closer = true /\ count is_fence seg = fences_allowed opener)
  end.

(** An entry of [files] that is the loose prose line kept under README.md. *)
Definition loose_entry (lines : list string) (path stored : string) : Prop :=
  path = "README.md" /\ In stored lines
  /\ is_plain stored = true /\ truthy (strip stored) = true.

(** An entry of [files] that a commit stored: the lines of the reply between
    the opener of the target and the line that commits, without the fence
    line among them, joined and stripped. *)
Definition block_entry (lines : list string) (path stored : string) : Prop :=
  exists before opener seg after,
    lines = app before (opener :: app seg after)
    /\ opens opener path
    /\ block_lines opener seg
    /\ block_end opener seg after
    /\ stored = committed_text (filter is_plain seg).

(** The same, for a commit made during the scan of the lines [seen]: the
    line that committed is among them. *)
Definition closed_entry (seen : list string) (path stored : string) : Prop :=
  exists before opener seg closer rest,
    seen = app before (opener :: app seg (closer :: rest))
    /\ opens opener path
    /\ block_lines opener seg
    /\ block_end opener seg [closer]
    /\ stored = committed_text (filter is_plain seg).

(** The accumulated lines during the scan of the lines [seen]: with a target,
    the lines seen since its opener without the fence line among them;
    without one, none. *)
Definition open_block (seen : list string) (st : ParseState) : Prop :=
  match current_file st with
  | Some f =>
      if truthy f then
        exists before opener seg,
          seen = app before (opener :: seg)
          /\ opens opener f
          /\ existsb is_marker seg = false
          /\ current_content st = filter is_plain seg
          /\ count is_fence seg
             = (if in_code_block st then fences_allowed opener else 0)
          /\ (in_code_block st = false -> is_marker opener = true)
      else current_content st = []
  | None => current_content st = []
  end.

Definition scan_invariant (seen : list string) (st : ParseState) : Prop :=
  open_block seen st
  /\ forall k v, Dict.get k (st_files st) = Some v ->
       loose_entry seen k v \/ closed_entry seen k v.

(** * The caller's query and the unused basic template *)

(** [app/main.py], lines 71 to 73: the query handed to [process_query] when
    a file was uploaded with it. *)
Definition full_query (query : string) (file_content : option string) : string :=
  match file_content with
  | Some content =>
      if truthy content
      then query ++ nl ++ nl ++ "Additional context from uploaded file:" ++ nl ++ content
      else query
  | None => query
  end.

Definition _create_basic_structure (analysis : Analysis) : Dict.t string :=
  let language := language analysis in
  if String.eqb language "python" then
    [ ("main.py", "# Main application file" ++ nl ++ "print('Hello, World!')");
      ("requirements.txt", "# Project dependencies");
      ("README.md",
       "# Project README" ++ nl ++ nl ++ "This project was generated by SimpleAgent.") ]
  else if is_node_language language then
    [ ("index.js", "// Main application file" ++ nl ++ "console.log('Hello, World!');");
      ("package.json",
       "{" ++ nl ++ "  " ++ quoted "name" ++ ": " ++ quoted "project" ++ "," ++ nl
       ++ "  " ++ quoted "version" ++ ": " ++ quoted "1.0.0" ++ nl ++ "}");
      ("README.md",
       "# Project README" ++ nl ++ nl ++ "This project was generated by SimpleAgent.") ]
  else
    Dict.set "README.md"
      ("# Project README" ++ nl ++ nl ++ "This project was generated by SimpleAgent.")
      (Dict.set ("main." ++ language)
         ("// Main application file" ++ nl ++ "// Generated by SimpleAgent") []).

(** The character [c] occurs in [s]. *)
Fixpoint has_char (c : ascii) (s : string) : bool :=
  match s with
  | EmptyString => false
  | String a r => Ascii.eqb a c || has_char c r
  end.

(** A requirement bullet: a line that starts with "- " and holds no
    newline. *)
Definition is_bullet (line : string) : bool :=
  startswith "- " line && negb (has_char (ascii_of_nat 10) line).

(** Where a key of the scanner's files comes from: the implicit README.md,
    the text after the marker of a marker line, or the name inferred at a
    fence line, which is main.<ext>. *)
Definition key_origin (lines : list string) (k : string) : Prop :=
  k = "README.md"
  \/ (exists line, In line lines /\ is_marker line = true
                   /\ k = strip (replace "FILE:" "" line))
  \/ (exists line, In line lines /\ is_fence line = true
                   /\ k = "main." ++ get_default (lower (strip (drop 3 (strip line))))
                                       "txt" ext_map).

(** The result of the parser on a reply in which nothing was found. *)
Definition empty_codebase : Codebase := {| files := []; structure := Dir [] |}.

(** What the scan keeps true of the file target and of the keys. *)
Definition keys_invariant (seen : list string) (st : ParseState) : Prop :=
  (forall f, current_file st = Some f -> key_origin seen f)
  /\ (forall k, In k (Dict.keys (st_files st)) -> truthy k = true /\ key_origin seen k).

(** The provider the flags select, in the order the dispatch tests them. *)
Definition selected_provider (self : SimpleAgent) : option Provider :=
  if use_openai self then Some OpenAI
  else if use_anthropic self then Some Anthropic
  else if use_gemini self then Some Gemini
  else None.

(** The call log after one query: one more call, to the selected provider,
    or none. *)
Definition log_after (self : SimpleAgent) (log : Log) : Log :=
  match selected_provider self with
  | Some p => app log [p]
  | None => log
  end.

(** The codebase a code request ends with, given the answer of the selected
    provider and the result of the fallback synthesizer. *)
Definition chosen_codebase (analysis : Analysis) (answer : result string)
  (fallback : Codebase) : Codebase :=
  match answer with
  | Ok reply =>
      match _parse_codebase_response reply analysis with
      | Ok parsed =>
          if negb (is_nonempty (files parsed)) || _is_fallback_code parsed
          then fallback else parsed
      | Raise _ => fallback
      end
  | Raise _ => fallback
  end.

(** The text a prose request ends with. *)
Definition text_answer (self : SimpleAgent) (query : string) (world : World) : string :=
  match selected_provider self with
  | Some _ =>
      match selected_answer self world with
      | Ok content => content
      | Raise e => "Error generating response: " ++ exn_msg e
      end
  | None =>
      "Response to query: " ++ query ++ nl ++ nl
      ++ "This query is better suited for an informational response rather than code generation."
  end.

(** * Properties *)

(** ** Strings and dictionaries *)

Lemma eqb_string_refl (s : string) : String.eqb s s = true.
Proof. apply String.eqb_refl. Qed.

Lemma dict_get_set {V : Type} (k k' : string) (v : V) (d : Dict.t V) :
  Dict.get k (Dict.set k' v d) = if String.eqb k k' then Some v else Dict.get k d.
Proof.
  induction d as [|[k0 v0] d IH]; simpl.
  - reflexivity.
  - destruct (String.eqb k' k0) eqn:E'; simpl.
    + apply String.eqb_eq in E'. subst k0.
      destruct (String.eqb k k'); reflexivity.
    + destruct (String.eqb k k0) eqn:E.
      * apply String.eqb_eq in E. subst k0.
        rewrite String.eqb_sym, E'. reflexivity.
      * exact IH.
Qed.

Lemma dict_set_set {V : Type} (k : string) (v v' : V) (d : Dict.t V) :
  Dict.set k v (Dict.set k v' d) = Dict.set k v d.
Proof.
  induction d as [|[k0 v0] d IH]; simpl.
  - rewrite eqb_string_refl. reflexivity.
  - destruct (String.eqb k k0) eqn:E; simpl.
    + rewrite eqb_string_refl. reflexivity.
    + rewrite E, IH. reflexivity.
Qed.

Lemma dict_get_in {V : Type} (k : string) (v : V) (d : Dict.t V) :
  Dict.get k d = Some v -> In k (Dict.keys d).
Proof.
  induction d as [|[k0 v0] d IH]; simpl; [discriminate|].
  destruct (String.eqb k k0) eqn:E; intros H.
  - left. symmetry. now apply String.eqb_eq.
  - right. now apply IH.
Qed.

Lemma dict_set_fresh {V : Type} (k : string) (v : V) (d : Dict.t V) :
  Dict.get k d = None -> Dict.set k v d = app d [(k, v)].
Proof.
  induction d as [|[k0 v0] d IH]; simpl; [reflexivity|].
  destruct (String.eqb k k0); [discriminate|].
  intros H. now rewrite IH.
Qed.

(** ** The classifier's decision rule *)

(** C2. For every query, the empty one included, [should_generate_code] is
    true exactly when [code_score > text_score] and [code_score > 0], the two
    scores being the numbers of keywords of each vocabulary found in the
    lower-cased query; when the scores are equal (both zero included) it is
    false. *)
Theorem should_generate_code_rule :
  forall query : string,
    let analysis := _analyze_query query in
    code_score analysis
      = count (fun keyword => contains keyword (lower query)) code_keywords
    /\ text_score analysis
      = count (fun keyword => contains keyword (lower query)) text_keywords
    /\ (should_generate_code analysis = true
        <-> text_score analysis < code_score analysis /\ 0 < code_score analysis)
    /\ (code_score analysis = text_score analysis
        -> should_generate_code analysis = false).
Proof.
  intros query analysis. subst analysis. unfold _analyze_query.
  cbn [should_generate_code code_score text_score].
  set (c := count _ code_keywords). set (t := count _ text_keywords).
  split; [reflexivity|]. split; [reflexivity|]. split.
  - rewrite andb_true_iff, !Nat.ltb_lt. reflexivity.
  - intros E. rewrite E, Nat.ltb_irrefl. reflexivity.
Qed.

Lemma should_generate_code_rule_witness :
  (code_score (_analyze_query "explain how to build it") = 1
   /\ text_score (_analyze_query "explain how to build it") = 1
   /\ should_generate_code (_analyze_query "explain how to build it") = false)
  /\ (code_score (_analyze_query "") = text_score (_analyze_query "")
      /\ should_generate_code (_analyze_query "") = false).
Proof.
  split.
  - split; [vm_compute; reflexivity|]. split; [vm_compute; reflexivity|].
    apply (proj2 (proj2 (proj2
             (should_generate_code_rule "explain how to build it")))).
    vm_compute. reflexivity.
  - split; [vm_compute; reflexivity|].
    apply (proj2 (proj2 (proj2 (should_generate_code_rule "")))).
    vm_compute. reflexivity.
Defined.

(** ** The quality gate *)

Lemma gate_loop_false (items : list (string * string)) (b : bool) :
  gate_loop items = Some b -> b = false.
Proof.
  induction items as [|[p c] r IH]; simpl; [discriminate|].
  destruct (has_fallback_pattern c); [|exact IH].
  destruct (Nat.ltb 200 (len c)); [congruence|].
  destruct (has_declaration c); [|exact IH].
  destruct (Nat.ltb 5 (code_lines c)); [congruence|exact IH].
Qed.

Lemma gate_loop_none (items : list (string * string)) :
  gate_loop items = None <-> gate_clear items.
Proof.
  unfold gate_clear.
  induction items as [|[p c] r IH]; simpl.
  - split; [intros _ ? ? []|reflexivity].
  - destruct (has_fallback_pattern c) eqn:Hp.
    + destruct (Nat.ltb 200 (len c)) eqn:Hl.
      * split; [discriminate|]. intros H.
        destruct (H p c (or_introl eq_refl) Hp) as [Hle _].
        apply Nat.ltb_lt in Hl. lia.
      * apply Nat.ltb_ge in Hl.
        destruct (has_declaration c) eqn:Hd.
        -- destruct (Nat.ltb 5 (code_lines c)) eqn:H5.
           ++ split; [discriminate|]. intros H.
              destruct (H p c (or_introl eq_refl) Hp) as [_ Hn].
              exfalso. apply Hn. split; [exact Hd|now apply Nat.ltb_lt].
           ++ apply Nat.ltb_ge in H5. rewrite IH. split.
              ** intros H path content [E|Hin] Hpat.
                 --- inversion E; subst. split; [exact Hl|]. intros [_ H6]. lia.
                 --- exact (H path content Hin Hpat).
              ** intros H path content Hin. apply (H path content). now right.
        -- rewrite IH. split.
           ++ intros H path content [E|Hin] Hpat.
              ** inversion E; subst. split; [exact Hl|].
                 intros [H6 _]. congruence.
              ** exact (H path content Hin Hpat).
           ++ intros H path content Hin. apply (H path content). now right.
    + rewrite IH. split.
      * intros H path content [E|Hin] Hpat.
        -- inversion E; subst. congruence.
        -- exact (H path content Hin Hpat).
      * intros H path content Hin. apply (H path content). now right.
Qed.

Lemma is_fallback_code_iff (result : Codebase) :
  _is_fallback_code result = true <->
  files result = []
  \/ (gate_clear (files result) /\ total_code_lines (files result) < 10).
Proof.
  unfold _is_fallback_code.
  destruct (files result) as [|item rest].
  - split; [now left|reflexivity].
  - destruct (gate_loop (item :: rest)) as [b|] eqn:Hg.
    + pose proof (gate_loop_false _ _ Hg) as ->.
      split; [discriminate|].
      intros [H|[H _]]; [discriminate|].
      apply gate_loop_none in H. congruence.
    + split.
      * intros H. right. split; [now apply gate_loop_none|now apply Nat.ltb_lt].
      * intros [H|[_ H]]; [discriminate|now apply Nat.ltb_lt].
Qed.

Lemma total_code_lines_single (path content : string) :
  total_code_lines [(path, content)] = code_lines content.
Proof. unfold total_code_lines. simpl. lia. Qed.

Lemma gate_clear_single (path content : string) :
  gate_clear [(path, content)] <->
  (has_fallback_pattern content = true ->
   len content <= 200
   /\ ~ (has_declaration content = true /\ 5 < code_lines content)).
Proof.
  unfold gate_clear. split.
  - intros H. apply (H path content). now left.
  - intros H p c [E|[]] Hp. inversion E; subst. now apply H.
Qed.

(** C1 (as amended). A result is judged fallback-quality exactly when its
    files mapping is empty, or when both of these hold: no file that contains
    a placeholder phrase (case-insensitively one of "hello, world",
    "todo: implement", "basic template", "placeholder", "print('hello") has
    more than 200 characters, or a declaration keyword together with more
    than five code lines; and the code lines of all files sum to fewer than
    ten.  A single-file result of exactly ten code lines is never
    fallback-quality; one of exactly nine is, unless the file holds a
    placeholder phrase together with more than 200 characters or a
    declaration keyword. *)
Theorem quality_gate_rule :
  forall result : Codebase,
    (_is_fallback_code result = true <->
     files result = []
     \/ (gate_clear (files result) /\ total_code_lines (files result) < 10))
    /\ (forall path content,
          files result = [(path, content)] ->
          code_lines content = 10 ->
          _is_fallback_code result = false)
    /\ (forall path content,
          files result = [(path, content)] ->
          code_lines content = 9 ->
          (_is_fallback_code result = true <->
           ~ (has_fallback_pattern content = true
              /\ (200 < len content \/ has_declaration content = true)))).
Proof.
  intros result. split; [apply is_fallback_code_iff|]. split.
  - intros path content Hf H10.
    destruct (_is_fallback_code result) eqn:E; [|reflexivity].
    apply is_fallback_code_iff in E. rewrite Hf in E.
    destruct E as [E|[_ E]]; [discriminate|].
    rewrite total_code_lines_single in E. lia.
  - intros path content Hf H9.
    rewrite is_fallback_code_iff, Hf, total_code_lines_single, gate_clear_single.
    split.
    + intros [E|[H _]]; [discriminate|].
      intros [Hp Hbad]. destruct (H Hp) as [Hlen Hdecl].
      destruct Hbad as [Hbad|Hbad]; [lia|].
      apply Hdecl. split; [exact Hbad|lia].
    + intros H. right. split; [|lia].
      intros Hp. split.
      * destruct (Nat.le_gt_cases (len content) 200) as [Hle|Hgt]; [exact Hle|].
        exfalso. apply H. split; [exact Hp|now left].
      * intros [Hd _]. apply H. split; [exact Hp|now right].
Qed.

Lemma quality_gate_rule_witness :
  code_lines ten_line_file = 10
  /\ _is_fallback_code (single_file "main.py" ten_line_file) = false.
Proof.
  split; [vm_compute; reflexivity|].
  apply (proj1 (proj2 (quality_gate_rule (single_file "main.py" ten_line_file)))
           "main.py" ten_line_file).
  - reflexivity.
  - vm_compute. reflexivity.
Defined.

(** C1, the claim as worded fails: a single file of exactly nine code
    lines, under 200 characters, that holds the phrase "placeholder" is
    fallback-quality by the wording, and [_is_fallback_code] accepts it. *)
Lemma quality_gate_counterexample :
  code_lines nine_line_file = 9
  /\ len nine_line_file < 200
  /\ spec_fallback_quality (single_file "main.py" nine_line_file) = true
  /\ _is_fallback_code (single_file "main.py" nine_line_file) = false.
Proof. vm_compute. repeat split; lia. Qed.

(** ** The structure tree *)

Lemma split_nonempty (sep : ascii) (s : string) : split sep s <> [].
Proof.
  destruct s as [|c r]; simpl; [discriminate|].
  destruct (Ascii.eqb c sep); [discriminate|].
  destruct (split sep r); discriminate.
Qed.

Lemma lookup_path_file (parts : list string) :
  lookup_path parts File = Some File -> parts = [].
Proof. destruct parts; [reflexivity|discriminate]. Qed.

Lemma lookup_path_empty_dir (parts : list string) :
  lookup_path parts (Dir []) <> Some File.
Proof. destruct parts; simpl; discriminate. Qed.

Lemma lookup_path_app (p r : list string) (t : Tree) :
  lookup_path (app p r) t =
  match lookup_path p t with
  | Some s => lookup_path r s
  | None => None
  end.
Proof.
  revert t. induction p as [|k p IH]; intros t; simpl; [reflexivity|].
  destruct t as [|d]; [reflexivity|].
  destruct (Dict.get k d); [apply IH|reflexivity].
Qed.

Lemma place_file (parts : list string) :
  parts <> [] -> is_type_error (place parts File).
Proof.
  destruct parts as [|part rest]; [congruence|]. intros _.
  destruct rest as [|r0 rest].
  - eexists. reflexivity.
  - change (place (part :: r0 :: rest) File)
      with (rbind (if contains part "file" then Ok File
                   else tree_setitem File part (Dir [])) (fun current1 =>
            rbind (tree_getitem current1 part) (fun sub =>
            rbind (place (r0 :: rest) sub) (fun sub' =>
            tree_setitem current1 part sub')))).
    destruct (contains part "file"); cbn [rbind tree_getitem tree_setitem];
      eexists; reflexivity.
Qed.

Lemma place_last (last : string) (d : list (string * Tree)) :
  place [last] (Dir d) = Ok (Dir (Dict.set last File d)).
Proof. reflexivity. Qed.

Lemma place_unfold (part r0 : string) (rest : list string) (current : Tree) :
  place (part :: r0 :: rest) current =
  rbind (if tree_contains part current then Ok current
         else tree_setitem current part (Dir [])) (fun current1 =>
  rbind (tree_getitem current1 part) (fun sub =>
  rbind (place (r0 :: rest) sub) (fun sub' =>
  tree_setitem current1 part sub'))).
Proof. reflexivity. Qed.

Lemma place_cons (part : string) (rest : list string) (d : list (string * Tree)) :
  rest <> [] ->
  place (part :: rest) (Dir d) =
  rbind (place rest (sub_at part d)) (fun sub' => Ok (Dir (Dict.set part sub' d))).
Proof.
  destruct rest as [|r0 rest]; [congruence|]. intros _.
  rewrite place_unfold. generalize (place (r0 :: rest)). intros walk.
  unfold sub_at, tree_contains, Dict.mem.
  destruct (Dict.get part d) as [s|] eqn:E.
  - cbn [rbind tree_getitem]. rewrite E. cbn [rbind].
    destruct (walk s); reflexivity.
  - cbn [rbind tree_setitem tree_getitem].
    rewrite dict_get_set, eqb_string_refl. cbn [rbind].
    destruct (walk (Dir [])); cbn [rbind tree_setitem];
      [rewrite dict_set_set|]; reflexivity.
Qed.

Lemma lookup_sub_at (part : string) (rest : list string) (d : list (string * Tree)) :
  rest <> [] ->
  lookup_path (part :: rest) (Dir d) = lookup_path rest (sub_at part d)
  \/ (Dict.get part d = None /\ lookup_path (part :: rest) (Dir d) = None
      /\ lookup_path rest (sub_at part d) = None).
Proof.
  intros Hr. unfold sub_at. simpl.
  destruct (Dict.get part d); [now left|].
  right. repeat split. destruct rest; [congruence|reflexivity].
Qed.

(** A path whose proper prefix is a leaf cannot be placed. *)
Lemma place_blocked (pre r : list string) (t : Tree) :
  r <> [] ->
  lookup_path pre t = Some File ->
  is_type_error (place (app pre r) t).
Proof.
  intros Hr. revert t.
  induction pre as [|k pre IH]; intros t H; simpl in H.
  - inversion H; subst. now apply place_file.
  - destruct t as [|d]; [discriminate|].
    destruct (Dict.get k d) as [s|] eqn:E; [|discriminate].
    change (app (k :: pre) r) with (k :: app pre r).
    rewrite place_cons by (destruct pre; simpl; [exact Hr|discriminate]).
    unfold sub_at. rewrite E.
    destruct (IH s H) as [msg Hm]. rewrite Hm. now exists msg.
Qed.

(** Placing a path raises nothing but a [TypeError]. *)
Lemma place_ok_or_type_error (parts : list string) (t : Tree) :
  parts <> [] ->
  (exists t', place parts t = Ok t') \/ is_type_error (place parts t).
Proof.
  revert t. induction parts as [|part rest IH]; intros t Hne; [congruence|].
  destruct t as [|d]; [right; now apply place_file|].
  destruct rest as [|r0 rest].
  - left. eexists. apply place_last.
  - rewrite place_cons by discriminate.
    destruct (IH (sub_at part d)) as [[s' Hs]|[msg Hm]]; [discriminate| |].
    + rewrite Hs. left. eexists. reflexivity.
    + rewrite Hm. right. now exists msg.
Qed.

(** What a successful placement leaves in the tree. *)
Lemma place_spec (parts : list string) :
  forall t t', place parts t = Ok t' ->
    lookup_path parts t' = Some File
    /\ (forall other, diverge other parts ->
          lookup_path other t' = lookup_path other t)
    /\ (forall other, lookup_path other t' = Some File ->
          other = parts \/ lookup_path other t = Some File).
Proof.
  induction parts as [|part rest IH]; intros t t' H; [discriminate|].
  destruct t as [|d].
  { destruct (place_file (part :: rest)) as [msg Hm]; [discriminate|]. congruence. }
  destruct rest as [|r0 rest].
  - rewrite place_last in H. inversion H; subst t'. clear H.
    split; [|split].
    + simpl. rewrite dict_get_set, eqb_string_refl. reflexivity.
    + intros other Hd. inversion Hd as [x y a b Hxy|x a b Hab]; subst.
      * simpl. rewrite dict_get_set.
        destruct (String.eqb x part) eqn:E; [|reflexivity].
        apply String.eqb_eq in E. congruence.
      * inversion Hab.
    + intros other Ho. destruct other as [|k other]; [discriminate|].
      simpl in Ho. rewrite dict_get_set in Ho.
      destruct (String.eqb k part) eqn:E.
      * apply String.eqb_eq in E. subst k.
        apply lookup_path_file in Ho. subst other. now left.
      * right. exact Ho.
  - rewrite place_cons in H by discriminate.
    destruct (place (r0 :: rest) (sub_at part d)) as [s'|e] eqn:Hs; [|discriminate].
    simpl in H. inversion H; subst t'. clear H.
    destruct (IH _ _ Hs) as (Hleaf & Hframe & Hleaves).
    split; [|split].
    + change (lookup_path (part :: r0 :: rest) (Dir (Dict.set part s' d)))
        with (match Dict.get part (Dict.set part s' d) with
              | Some sub => lookup_path (r0 :: rest) sub
              | None => None
              end).
      rewrite dict_get_set, eqb_string_refl. exact Hleaf.
    + intros other Hd. inversion Hd as [x y a b Hxy|x a b Hab]; subst.
      * simpl. rewrite dict_get_set.
        destruct (String.eqb x part) eqn:E; [|reflexivity].
        apply String.eqb_eq in E. congruence.
      * change (lookup_path (part :: a) (Dir (Dict.set part s' d)))
          with (match Dict.get part (Dict.set part s' d) with
                | Some sub => lookup_path a sub
                | None => None
                end).
        rewrite dict_get_set, eqb_string_refl, (Hframe a Hab).
        assert (Ha : a <> []) by (inversion Hab; discriminate).
        destruct (lookup_sub_at part a d Ha) as [E|(_ & E1 & E2)]; congruence.
    + intros other Ho. destruct other as [|k other]; [discriminate|].
      simpl in Ho. rewrite dict_get_set in Ho.
      destruct (String.eqb k part) eqn:E.
      * apply String.eqb_eq in E. subst k.
        destruct (Hleaves other Ho) as [Eo|Eo]; [left; congruence|].
        right. simpl. unfold sub_at in Eo.
        destruct (Dict.get part d); [exact Eo|].
        exfalso. exact (lookup_path_empty_dir other Eo).
      * right. simpl. exact Ho.
Qed.

(** A path none of whose proper prefixes is a leaf can be placed. *)
Lemma place_succeeds (parts : list string) :
  forall t, parts <> [] ->
    (forall pre r, parts = app pre r -> r <> [] -> lookup_path pre t <> Some File) ->
    exists t', place parts t = Ok t'.
Proof.
  induction parts as [|part rest IH]; intros t Hne Hfree; [congruence|].
  destruct t as [|d].
  { exfalso. apply (Hfree [] (part :: rest)); [reflexivity|discriminate|reflexivity]. }
  destruct rest as [|r0 rest].
  - eexists. apply place_last.
  - rewrite place_cons by discriminate.
    destruct (IH (sub_at part d)) as [s' Hs]; [discriminate| |].
    + intros pre r E Hr Hl.
      apply (Hfree (part :: pre) r); [simpl; congruence|exact Hr|].
      simpl. unfold sub_at in Hl.
      destruct (Dict.get part d); [exact Hl|].
      exfalso. exact (lookup_path_empty_dir pre Hl).
    + rewrite Hs. eexists. reflexivity.
Qed.

Lemma prefix_trichotomy (a b : list string) :
  is_prefix a b \/ is_prefix b a \/ diverge a b.
Proof.
  revert b. induction a as [|x a IH]; intros b.
  - left. now exists b.
  - destruct b as [|y b].
    + right. left. now exists (x :: a).
    + destruct (string_dec x y) as [E|N].
      * subst y. destruct (IH b) as [[r Hr]|[[r Hr]|Hd]].
        -- left. exists r. simpl. congruence.
        -- right. left. exists r. simpl. congruence.
        -- right. right. now apply diverge_later.
      * right. right. now apply diverge_here.
Qed.

Lemma diverge_sym (a b : list string) : diverge a b -> diverge b a.
Proof.
  induction 1; [apply diverge_here; congruence|now apply diverge_later].
Qed.

Lemma is_prefix_cases (a b : list string) :
  is_prefix a b -> a = b \/ proper_prefix a b.
Proof.
  intros [r Hr]. destruct r as [|x r].
  - left. rewrite app_nil_r in Hr. congruence.
  - right. exists (x :: r). split; [discriminate|exact Hr].
Qed.

Lemma build_from_app (l1 l2 : list string) (t : Tree) :
  build_from (app l1 l2) t = rbind (build_from l1 t) (build_from l2).
Proof.
  revert t. induction l1 as [|p l1 IH]; intros t; simpl; [reflexivity|].
  destruct (place (split_slash p) t); simpl; [apply IH|reflexivity].
Qed.

Lemma build_ok_or_type_error (paths : list string) (t : Tree) :
  (exists t', build_from paths t = Ok t') \/ is_type_error (build_from paths t).
Proof.
  revert t. induction paths as [|p paths IH]; intros t; simpl.
  - left. now exists t.
  - destruct (place_ok_or_type_error (split_slash p) t (split_nonempty _ _))
      as [[t' H]|[msg H]]; rewrite H; simpl.
    + apply IH.
    + right. now exists msg.
Qed.

Lemma is_prefix_trans (a b c : list string) :
  is_prefix a b -> is_prefix b c -> is_prefix a c.
Proof.
  intros [r1 H1] [r2 H2]. exists (app r1 r2). subst. now rewrite app_assoc.
Qed.

(** A leaf at or above a path stays at or above it through every later
    placement that succeeds. *)
Lemma place_keeps_blocked (parts target : list string) (t t' : Tree) :
  place parts t = Ok t' ->
  (exists pre, is_prefix pre target /\ lookup_path pre t = Some File) ->
  exists pre, is_prefix pre target /\ lookup_path pre t' = Some File.
Proof.
  intros Hp (pre & Hpre & Hl).
  destruct (place_spec parts t t' Hp) as (Hleaf & Hframe & _).
  destruct (prefix_trichotomy parts pre) as [H|[H|H]].
  - exists parts. split; [now apply (is_prefix_trans parts pre target)|exact Hleaf].
  - destruct (is_prefix_cases _ _ H) as [E|(r & Hr & E)].
    + subst pre. exists parts. split; [exact Hpre|exact Hleaf].
    + exfalso. subst parts.
      destruct (place_blocked pre r t Hr Hl) as [msg Hm]. congruence.
  - exists pre. split; [exact Hpre|].
    rewrite (Hframe pre (diverge_sym _ _ H)). exact Hl.
Qed.

Lemma build_keeps_blocked (paths : list string) (target : list string) :
  forall t t',
    build_from paths t = Ok t' ->
    (exists pre, is_prefix pre target /\ lookup_path pre t = Some File) ->
    exists pre, is_prefix pre target /\ lookup_path pre t' = Some File.
Proof.
  induction paths as [|p paths IH]; intros t t' H Hb; simpl in H.
  - inversion H; subst. exact Hb.
  - destruct (place (split_slash p) t) as [t1|e] eqn:Hp; [|discriminate].
    simpl in H. apply (IH t1 t' H).
    now apply (place_keeps_blocked (split_slash p) target t t1).
Qed.

(** A path placed after one of its proper prefixes runs into the leaf. *)
Lemma build_blocked (p q : string) (between after : list string) (t : Tree) :
  proper_prefix (split_slash p) (split_slash q) ->
  is_type_error (build_from (p :: app between (q :: after)) t).
Proof.
  intros (r & Hr & Hq).
  cbn [build_from].
  destruct (place_ok_or_type_error (split_slash p) t (split_nonempty _ _))
    as [[t1 H1]|[msg H1]]; rewrite H1; cbn [rbind]; [|now exists msg].
  rewrite build_from_app.
  destruct (build_ok_or_type_error between t1) as [[t2 H2]|[msg H2]];
    rewrite H2; cbn [rbind]; [|now exists msg].
  destruct (build_keeps_blocked between (split_slash p) t1 t2 H2)
    as (pre & [r0 Hpre] & Hl).
  { exists (split_slash p). split; [now exists []; rewrite app_nil_r|].
    now destruct (place_spec _ _ _ H1). }
  cbn [build_from].
  assert (Hb : is_type_error (place (split_slash q) t2)).
  { rewrite Hq, Hpre, <- app_assoc. apply place_blocked; [|exact Hl].
    destruct r0; simpl; [exact Hr|discriminate]. }
  destruct Hb as [msg Hm]. rewrite Hm. now exists msg.
Qed.

(** The invariant of the loop of [_build_structure_tree] over paths none of
    which is a proper prefix of another. *)
Lemma build_succeeds (paths : list string) :
  forall (done : list string) (t : Tree),
    (forall p, In p done -> marks_leaf t p) ->
    (forall other, lookup_path other t = Some File ->
       exists p, In p done /\ split_slash p = other) ->
    prefix_free (app done paths) ->
    exists t', build_from paths t = Ok t'
               /\ forall p, In p (app done paths) -> marks_leaf t' p.
Proof.
  induction paths as [|q paths IH]; intros done t Hmarks Hleaves Hfree.
  - exists t. split; [reflexivity|]. intros p Hp. rewrite app_nil_r in Hp. auto.
  - destruct (place_succeeds (split_slash q) t (split_nonempty _ _)) as [t1 H1].
    { intros pre r E Hr Hl. destruct (Hleaves pre Hl) as (p & Hin & Ep).
      apply (Hfree p q).
      - apply in_or_app. now left.
      - apply in_or_app. right. now left.
      - exists r. split; [exact Hr|congruence]. }
    destruct (place_spec _ _ _ H1) as (Hleaf & Hframe & Hnew).
    destruct (IH (app done [q]) t1) as (t' & Hb & Hall).
    + intros p Hp. apply in_app_or in Hp. destruct Hp as [Hp|[Hp|[]]].
      * unfold marks_leaf.
        destruct (prefix_trichotomy (split_slash p) (split_slash q)) as [H|[H|H]].
        -- destruct (is_prefix_cases _ _ H) as [E|Hpp].
           ++ rewrite E. exact Hleaf.
           ++ exfalso. apply (Hfree p q); [| |exact Hpp]; apply in_or_app;
                [now left|right; now left].
        -- destruct (is_prefix_cases _ _ H) as [E|Hpp].
           ++ rewrite <- E. exact Hleaf.
           ++ exfalso. apply (Hfree q p); [| |exact Hpp]; apply in_or_app;
                [right; now left|now left].
        -- rewrite (Hframe _ H). now apply Hmarks.
      * subst p. exact Hleaf.
    + intros other Ho. destruct (Hnew other Ho) as [E|Hold].
      * exists q. split; [apply in_or_app; right; now left|congruence].
      * destruct (Hleaves other Hold) as (p & Hin & Ep).
        exists p. split; [apply in_or_app; now left|exact Ep].
    + now rewrite <- app_assoc.
    + exists t'. split.
      * cbn [build_from]. rewrite H1. exact Hb.
      * intros p Hp. apply Hall. now rewrite <- app_assoc.
Qed.

Lemma prefix_free_builds (paths : list string) :
  prefix_free paths ->
  exists t, build_from paths (Dir []) = Ok t
            /\ forall p, In p paths -> marks_leaf t p.
Proof.
  intros Hfree. apply (build_succeeds paths [] (Dir [])).
  - intros p [].
  - intros other Ho. exfalso. exact (lookup_path_empty_dir other Ho).
  - exact Hfree.
Qed.

Lemma leaves_are_prefix_free (paths : list string) (t : Tree) :
  (forall p, In p paths -> marks_leaf t p) -> prefix_free paths.
Proof.
  intros Hall p q Hp Hq (r & Hr & E).
  pose proof (Hall p Hp) as Lp. pose proof (Hall q Hq) as Lq.
  unfold marks_leaf in Lp, Lq.
  rewrite E, lookup_path_app, Lp in Lq.
  destruct r; [congruence|discriminate].
Qed.

(** A placement that fails has run into a leaf above the path. *)
Lemma place_error_blocked (parts : list string) :
  forall t e, place parts t = Raise e -> parts <> [] ->
    exists pre r, parts = app pre r /\ r <> [] /\ lookup_path pre t = Some File.
Proof.
  induction parts as [|part rest IH]; intros t e H Hne; [congruence|].
  destruct t as [|d].
  { exists [], (part :: rest). now repeat split. }
  destruct rest as [|r0 rest].
  - rewrite place_last in H. discriminate.
  - rewrite place_cons in H by discriminate.
    destruct (place (r0 :: rest) (sub_at part d)) as [s'|e'] eqn:Hs; [discriminate|].
    destruct (IH _ _ Hs) as (pre & r & E & Hr & Hl); [discriminate|].
    exists (part :: pre), r. split; [simpl; congruence|]. split; [exact Hr|].
    simpl. unfold sub_at in Hl.
    destruct (Dict.get part d); [exact Hl|].
    exfalso. exact (lookup_path_empty_dir pre Hl).
Qed.

(** The loop fails only at a path that extends one placed before it. *)
Lemma build_error_origin (paths : list string) :
  forall (done : list string) (t : Tree) (e : exn),
    (forall other, lookup_path other t = Some File ->
       exists p, In p done /\ split_slash p = other) ->
    build_from paths t = Raise e ->
    extension_follows (app done paths).
Proof.
  induction paths as [|q paths IH]; intros done t e Hleaves H; [discriminate|].
  cbn [build_from] in H.
  destruct (place (split_slash q) t) as [t1|e1] eqn:Hp.
  - cbn [rbind] in H.
    replace (app done (q :: paths)) with (app (app done [q]) paths)
      by (now rewrite <- app_assoc).
    apply (IH (app done [q]) t1 e); [|exact H].
    intros other Ho. destruct (place_spec _ _ _ Hp) as (_ & _ & Hnew).
    destruct (Hnew other Ho) as [E|Hold].
    + exists q. split; [apply in_or_app; right; now left|congruence].
    + destruct (Hleaves other Hold) as (p & Hin & Ep).
      exists p. split; [apply in_or_app; now left|exact Ep].
  - destruct (place_error_blocked _ _ _ Hp (split_nonempty _ _))
      as (pre & r & E & Hr & Hl).
    destruct (Hleaves pre Hl) as (p & Hin & Ep).
    destruct (in_split _ _ Hin) as (b1 & b2 & Ed).
    exists b1, p, b2, q, paths. split.
    + rewrite Ed, <- app_assoc. reflexivity.
    + exists r. split; [exact Hr|congruence].
Qed.

(** A path placed after one of its extensions takes the place of the
    sub-dictionary: the extension is not in the tree that is built. *)
Lemma build_replaces (before between after : list string) (p q : string) (t : Tree) :
  proper_prefix (split_slash p) (split_slash q) ->
  build_from (app before (q :: app between (p :: after))) (Dir []) = Ok t ->
  lookup_path (split_slash q) t = None.
Proof.
  intros (r & Hr & E) H.
  rewrite build_from_app in H.
  destruct (build_from before (Dir [])) as [t0|] eqn:H0; [|discriminate].
  cbn [rbind build_from] in H.
  destruct (place (split_slash q) t0) as [t1|] eqn:H1; [|discriminate].
  cbn [rbind] in H. rewrite build_from_app in H.
  destruct (build_from between t1) as [t2|] eqn:H2; [|discriminate].
  cbn [rbind build_from] in H.
  destruct (place (split_slash p) t2) as [t3|] eqn:H3; [|discriminate].
  cbn [rbind] in H.
  destruct (build_keeps_blocked after (split_slash p) t3 t H)
    as (pre & [r0 Hpre] & Hl).
  { exists (split_slash p). split; [exists []; now rewrite app_nil_r|].
    now destruct (place_spec _ _ _ H3). }
  rewrite E, Hpre, <- app_assoc, lookup_path_app, Hl.
  destruct r0; simpl; [|reflexivity]. destruct r; [congruence|reflexivity].
Qed.

(** C10 (as amended). The tree is built without error and marks the final
    segment of every file path as a leaf exactly when no file path is a
    proper prefix, segment by segment, of another.  Building raises a
    [TypeError] exactly when some path comes before one of its extensions in
    the order of the keys: the extension's walk reaches the leaf already
    placed.  When the extension comes first and the tree is built, there is
    no error: the shorter path takes the place of the sub-dictionary and the
    extension is not in the tree.  The parser meets the error on a reply
    that names the files "a" and then "a/b". *)
Theorem structure_tree_rule :
  forall files : Dict.t string,
    ((exists t, _build_structure_tree files = Ok t
                /\ forall p, In p (Dict.keys files) -> marks_leaf t p)
     <-> prefix_free (Dict.keys files))
    /\ (is_type_error (_build_structure_tree files)
        <-> extension_follows (Dict.keys files))
    /\ (forall t before q between p after,
          _build_structure_tree files = Ok t ->
          Dict.keys files = app before (q :: app between (p :: after)) ->
          proper_prefix (split_slash p) (split_slash q) ->
          lookup_path (split_slash q) t = None)
    /\ (Dict.keys (scan_response nested_reply) = ["a"; "a/b"; "README.md"]
        /\ forall analysis,
             is_type_error (_parse_codebase_response nested_reply analysis)).
Proof.
  intros files. unfold _build_structure_tree. split; [|split; [|split]].
  - split.
    + intros (t & _ & Hall). now apply (leaves_are_prefix_free _ t).
    + apply prefix_free_builds.
  - split.
    + intros [msg H].
      apply (build_error_origin (Dict.keys files) [] (Dir []) (TypeError msg));
        [|exact H].
      intros other Ho. exfalso. exact (lookup_path_empty_dir other Ho).
    + intros (before & p & between & q & after & Hk & Hpp).
      rewrite Hk, build_from_app.
      destruct (build_ok_or_type_error before (Dir [])) as [[t1 H1]|[msg H1]];
        rewrite H1; cbn [rbind]; [|now exists msg].
      now apply build_blocked.
  - intros t before q between p after H Hk Hpp. rewrite Hk in H.
    now apply (build_replaces before between after p q).
  - split; [vm_compute; reflexivity|].
    intros analysis. eexists. vm_compute. reflexivity.
Qed.

Lemma structure_tree_rule_witness :
  is_type_error (_build_structure_tree [("a", "x = 1"); ("a/b", "y = 2")])
  /\ exists t, _build_structure_tree [("a/b", "y = 2"); ("c", "z = 3")] = Ok t.
Proof.
  split.
  - apply (proj2 (proj1 (proj2 (structure_tree_rule [("a", "x = 1"); ("a/b", "y = 2")])))).
    exists [], "a", [], "a/b", []. split; [reflexivity|].
    exists ["b"]. split; [discriminate|reflexivity].
  - destruct (proj2 (proj1 (structure_tree_rule [("a/b", "y = 2"); ("c", "z = 3")])))
      as (t & Ht & _).
    + intros p q [Hp|[Hp|[]]] [Hq|[Hq|[]]] (r & Hr & E); subst p q;
        vm_compute in E; destruct r; try congruence; discriminate.
    + now exists t.
Defined.


(** C10, the claim as worded fails: a mapping that holds "a/b" and then "a"
    holds a path and an extension of it, yet the tree is built without error,
    "a" being the only leaf; the parser returns such a result on a reply that
    names "a/b" before "a". *)
Lemma structure_tree_counterexample :
  In "a" (Dict.keys [("a/b", "y = 2"); ("a", "x = 1")])
  /\ In "a/b" (Dict.keys [("a/b", "y = 2"); ("a", "x = 1")])
  /\ proper_prefix (split_slash "a") (split_slash "a/b")
  /\ _build_structure_tree [("a/b", "y = 2"); ("a", "x = 1")] = Ok (Dir [("a", File)])
  /\ ~ is_type_error (_build_structure_tree [("a/b", "y = 2"); ("a", "x = 1")])
  /\ Dict.keys (scan_response reversed_reply) = ["a/b"; "a"; "README.md"]
  /\ forall analysis,
       exists parsed,
         _parse_codebase_response reversed_reply analysis = Ok parsed
         /\ structure parsed = Dir [("a", File); ("README.md", File)].
Proof.
  split; [right; now left|]. split; [now left|].
  split; [exists ["b"]; split; [discriminate|reflexivity]|].
  split; [vm_compute; reflexivity|].
  split; [intros [msg H]; vm_compute in H; discriminate|].
  split; [vm_compute; reflexivity|].
  intros analysis. eexists. split; vm_compute; reflexivity.
Qed.

(** ** The fallback synthesizer *)

Lemma hd_split_cons (sep c : ascii) (r : string) :
  hd "" (split sep (String c r))
  = if Ascii.eqb c sep then "" else String c (hd "" (split sep r)).
Proof.
  simpl. destruct (Ascii.eqb c sep); [reflexivity|].
  destruct (split sep r); reflexivity.
Qed.

Lemma prefix_free_by_heads (paths : list string) :
  (forall p q, In p paths -> In q paths ->
     hd "" (split_slash p) = hd "" (split_slash q) -> p = q) ->
  prefix_free paths.
Proof.
  intros H p q Hp Hq (r & Hr & E).
  assert (Eh : hd "" (split_slash p) = hd "" (split_slash q)).
  { rewrite E. pose proof (split_nonempty (ascii_of_nat 47) p) as Hn.
    unfold split_slash. destruct (split (ascii_of_nat 47) p); [congruence|reflexivity]. }
  rewrite (H p q Hp Hq Eh) in E.
  apply (f_equal (@List.length string)) in E. rewrite length_app in E.
  destruct r; [congruence|simpl in E; lia].
Qed.

Lemma fallback_keys_free (query : string) (analysis : Analysis) :
  prefix_free (Dict.keys (fallback_files query analysis)).
Proof.
  apply prefix_free_by_heads. unfold fallback_files.
  set (lang := language analysis).
  generalize (_generate_readme query (_extract_requirements query) lang
                (framework analysis)).
  intros readme.
  destruct (String.eqb lang "python").
  - generalize (_generate_python_code query (_extract_requirements query)
                  (framework analysis)),
               (_generate_dependencies (_extract_requirements query) lang
                  (framework analysis)).
    intros code deps p q Hp Hq.
    simpl in Hp, Hq. destruct Hp as [Hp|[Hp|[Hp|[]]]], Hq as [Hq|[Hq|[Hq|[]]]];
      subst p q; try reflexivity; vm_compute; discriminate.
  - destruct (is_node_language lang).
    + generalize (_generate_package_json (_extract_requirements query)
                    (framework analysis)).
      intros package.
      destruct (String.eqb lang "typescript");
        [generalize (_generate_js_code query (_extract_requirements query)
                       (framework analysis) "ts")
        |generalize (_generate_js_code query (_extract_requirements query)
                       (framework analysis) "js")];
        intros code p q Hp Hq;
        simpl in Hp, Hq; destruct Hp as [Hp|[Hp|[Hp|[]]]], Hq as [Hq|[Hq|[Hq|[]]]];
        subst p q; try reflexivity; vm_compute; discriminate.
    + generalize ("// Generated by SimpleAgent" ++ nl ++ "// Query: " ++ query ++ nl
                  ++ "// Implement the requested functionality here").
      intros code p q Hp Hq.
      simpl in Hp, Hq. destruct Hp as [Hp|[Hp|[]]], Hq as [Hq|[Hq|[]]];
        subst p q; try reflexivity; unfold split_slash;
        rewrite !hd_split_cons; simpl; discriminate.
Qed.

(** The synthesizer never raises. *)
Lemma enhanced_fallback_total (query : string) (analysis : Analysis) :
  exists codebase,
    enhanced_fallback query analysis = Ok codebase
    /\ files codebase = fallback_files query analysis
    /\ _build_structure_tree (files codebase) = Ok (structure codebase).
Proof.
  unfold enhanced_fallback, _build_structure_tree.
  destruct (prefix_free_builds _ (fallback_keys_free query analysis)) as (t & Ht & _).
  rewrite Ht. cbn [rbind]. eexists. split; [reflexivity|].
  split; [reflexivity|exact Ht].
Qed.

Lemma fallback_run (query : string) (analysis : Analysis)
  (existing_result : option Reply) (world : World) (log : Log) :
  _generate_enhanced_fallback query analysis existing_result world log
  = (enhanced_fallback query analysis, log).
Proof. reflexivity. Qed.

(** C8. For every query and analysis the synthesizer returns a codebase
    (files and a structure built from them) that depends on the query and the
    analysis alone, not on the existing result it is handed, on what the
    providers would answer, or on the calls made before; it raises nothing
    and makes no provider call (the log is returned as it was). *)
Theorem fallback_synthesizer_total_deterministic :
  forall (query : string) (analysis : Analysis),
  exists codebase : Codebase,
    files codebase = fallback_files query analysis
    /\ _build_structure_tree (files codebase) = Ok (structure codebase)
    /\ forall (existing_result : option Reply) (world : World) (log : Log),
         _generate_enhanced_fallback query analysis existing_result world log
         = (Ok codebase, log).
Proof.
  intros query analysis.
  destruct (enhanced_fallback_total query analysis) as (c & Hc & Hf & Ht).
  exists c. split; [exact Hf|]. split; [exact Ht|].
  intros existing_result world log. rewrite fallback_run, Hc. reflexivity.
Qed.

(** ** The provider adapters *)

Lemma openai_run (query : string) (analysis : Analysis) (codebase : bool)
  (world : World) (log : Log) :
  _generate_with_openai query analysis codebase world log
  = (finish query analysis codebase (openai_answer world), app log [OpenAI]).
Proof.
  unfold _generate_with_openai, try_except, bind, call_openai, lift, ret,
    _generate_enhanced_fallback, finish, error_reply.
  destruct (openai_answer world) as [content|e]; destruct codebase; try reflexivity.
  - destruct (_parse_codebase_response content analysis); [reflexivity|].
    destruct (enhanced_fallback query analysis); reflexivity.
  - destruct (enhanced_fallback query analysis); reflexivity.
Qed.

Lemma anthropic_run (query : string) (analysis : Analysis) (codebase : bool)
  (world : World) (log : Log) :
  _generate_with_anthropic query analysis codebase world log
  = (finish query analysis codebase (anthropic_answer world), app log [Anthropic]).
Proof.
  unfold _generate_with_anthropic, try_except, bind, call_anthropic, lift, ret,
    _generate_enhanced_fallback, finish, error_reply.
  destruct (anthropic_answer world) as [content|e]; destruct codebase; try reflexivity.
  - destruct (_parse_codebase_response content analysis); [reflexivity|].
    destruct (enhanced_fallback query analysis); reflexivity.
  - destruct (enhanced_fallback query analysis); reflexivity.
Qed.

Lemma gemini_run (query : string) (analysis : Analysis) (codebase : bool)
  (world : World) (log : Log) :
  _generate_with_gemini query analysis codebase world log
  = (finish query analysis codebase (gemini_text (gemini_answer world)),
     app log [Gemini]).
Proof.
  unfold _generate_with_gemini, try_except, bind, call_gemini, lift, ret, raise,
    _generate_enhanced_fallback, finish, error_reply, gemini_text.
  destruct (gemini_answer world) as [[content|content|]|e]; destruct codebase;
    try reflexivity;
    try (destruct (_parse_codebase_response content analysis); [reflexivity|]);
    destruct (enhanced_fallback query analysis); reflexivity.
Qed.

Lemma finish_never_raises (query : string) (analysis : Analysis) (codebase : bool)
  (answer : result string) :
  exists reply, finish query analysis codebase answer = Ok reply.
Proof.
  destruct (enhanced_fallback_total query analysis) as (c & Hc & _).
  unfold finish. rewrite Hc.
  destruct answer as [content|e]; destruct codebase; try (eexists; reflexivity).
  destruct (_parse_codebase_response content analysis); eexists; reflexivity.
Qed.

Lemma finish_raised (query : string) (analysis : Analysis) (e : exn) :
  finish query analysis false (Raise e) = Ok (error_reply e)
  /\ exists fallback,
       enhanced_fallback query analysis = Ok fallback
       /\ finish query analysis true (Raise e) = Ok (CodeReply fallback).
Proof.
  split; [reflexivity|].
  destruct (enhanced_fallback_total query analysis) as (c & Hc & _).
  exists c. split; [exact Hc|]. unfold finish. now rewrite Hc.
Qed.

(** C6. Whatever exception the call to a provider raises, the adapter
    returns normally: for a code request the result of the fallback
    synthesizer, for a prose request the string "Error generating response: "
    followed by the message of the exception.  This holds for the three
    adapters, also for a Gemini response of neither shape, and no adapter
    raises on any answer at all (an exception of the parser is recovered the
    same way). *)
Theorem provider_errors_are_recovered :
  forall (query : string) (analysis : Analysis) (world : World) (log : Log),
    (forall e, openai_answer world = Raise e ->
       _generate_with_openai query analysis false world log
       = (Ok (error_reply e), app log [OpenAI])
       /\ exists fallback,
            enhanced_fallback query analysis = Ok fallback
            /\ _generate_with_openai query analysis true world log
               = (Ok (CodeReply fallback), app log [OpenAI]))
    /\ (forall e, anthropic_answer world = Raise e ->
          _generate_with_anthropic query analysis false world log
          = (Ok (error_reply e), app log [Anthropic])
          /\ exists fallback,
               enhanced_fallback query analysis = Ok fallback
               /\ _generate_with_anthropic query analysis true world log
                  = (Ok (CodeReply fallback), app log [Anthropic]))
    /\ (forall e, gemini_text (gemini_answer world) = Raise e ->
          _generate_with_gemini query analysis false world log
          = (Ok (error_reply e), app log [Gemini])
          /\ exists fallback,
               enhanced_fallback query analysis = Ok fallback
               /\ _generate_with_gemini query analysis true world log
                  = (Ok (CodeReply fallback), app log [Gemini]))
    /\ (forall codebase : bool,
          (exists reply, fst (_generate_with_openai query analysis codebase world log)
                         = Ok reply)
          /\ (exists reply, fst (_generate_with_anthropic query analysis codebase world log)
                            = Ok reply)
          /\ (exists reply, fst (_generate_with_gemini query analysis codebase world log)
                            = Ok reply)).
Proof.
  intros query analysis world log.
  split; [|split; [|split]].
  - intros e He. rewrite !openai_run, He.
    destruct (finish_raised query analysis e) as (H1 & c & Hc & H2).
    rewrite H1. split; [reflexivity|]. exists c. now rewrite H2.
  - intros e He. rewrite !anthropic_run, He.
    destruct (finish_raised query analysis e) as (H1 & c & Hc & H2).
    rewrite H1. split; [reflexivity|]. exists c. now rewrite H2.
  - intros e He. rewrite !gemini_run, He.
    destruct (finish_raised query analysis e) as (H1 & c & Hc & H2).
    rewrite H1. split; [reflexivity|]. exists c. now rewrite H2.
  - intros codebase. rewrite openai_run, anthropic_run, gemini_run. cbn [fst].
    repeat split; apply finish_never_raises.
Qed.

Lemma provider_errors_are_recovered_witness :
  let world := {| openai_answer := Raise (Exception "ConnectionError" "network down");
                  anthropic_answer := Ok "";
                  gemini_answer := Ok Shapeless |} in
  _generate_with_openai "explain it" (_analyze_query "explain it") false world []
  = (Ok (ContentReply "Error generating response: network down"), [OpenAI])
  /\ _generate_with_gemini "explain it" (_analyze_query "explain it") false world []
     = (Ok (ContentReply
              "Error generating response: Unable to extract text from Gemini response"),
        [Gemini]).
Proof.
  intros world. split.
  - apply (proj1 (provider_errors_are_recovered "explain it"
                    (_analyze_query "explain it") world [])
             (Exception "ConnectionError" "network down")).
    reflexivity.
  - apply (proj1 (proj2 (proj2 (provider_errors_are_recovered "explain it"
                                  (_analyze_query "explain it") world [])))
             extraction_error).
    reflexivity.
Defined.

(** ** Provider selection *)

Lemma check_result_run (query : string) (analysis : Analysis) (result : Reply)
  (world : World) (log : Log) :
  snd (check_result query analysis result world log) = log.
Proof.
  unfold check_result.
  destruct result as [c|content]; [|reflexivity].
  destruct (negb (is_nonempty (files c)) || _is_fallback_code c); reflexivity.
Qed.

Lemma generate_codebase_log (self : SimpleAgent) (query : string)
  (analysis : Analysis) (world : World) (log : Log) :
  snd (_generate_codebase self query analysis world log)
  = if use_openai self then app log [OpenAI]
    else if use_anthropic self then app log [Anthropic]
    else if use_gemini self then app log [Gemini]
    else log.
Proof.
  unfold _generate_codebase.
  destruct (use_openai self); [|destruct (use_anthropic self);
                                 [|destruct (use_gemini self); [|reflexivity]]];
    unfold bind.
  - rewrite openai_run.
    destruct (finish_never_raises query analysis true (openai_answer world)) as [r Hr].
    rewrite Hr. apply check_result_run.
  - rewrite anthropic_run.
    destruct (finish_never_raises query analysis true (anthropic_answer world)) as [r Hr].
    rewrite Hr. apply check_result_run.
  - rewrite gemini_run.
    destruct (finish_never_raises query analysis true
                (gemini_text (gemini_answer world))) as [r Hr].
    rewrite Hr. apply check_result_run.
Qed.

(** C7. At initialization the three use-flags follow the priority OpenAI,
    Anthropic, Google over the credentials present, so at most one of them
    is true; a code request reaches the selected provider once and no other;
    and when no credential is present it reaches none and returns the result
    of the fallback synthesizer. *)
Theorem provider_selection :
  forall (settings : Settings) (getenv : Environ),
    let self := __init__ settings getenv in
    let has_openai := credential (OPENAI_API_KEY settings) (getenv "OPENAI_API_KEY") in
    let has_anthropic :=
      credential (ANTHROPIC_API_KEY settings) (getenv "ANTHROPIC_API_KEY") in
    let has_google := credential (GOOGLE_API_KEY settings) (getenv "GOOGLE_API_KEY") in
    use_openai self = has_openai
    /\ use_anthropic self = (has_anthropic && negb has_openai)
    /\ use_gemini self = (has_google && negb has_openai && negb has_anthropic)
    /\ Nat.b2n (use_openai self) + Nat.b2n (use_anthropic self)
       + Nat.b2n (use_gemini self) <= 1
    /\ (forall query analysis world log,
          snd (_generate_codebase self query analysis world log)
          = if has_openai then app log [OpenAI]
            else if has_anthropic then app log [Anthropic]
            else if has_google then app log [Gemini]
            else log)
    /\ (has_openai = false -> has_anthropic = false -> has_google = false ->
        forall query analysis world log,
          _generate_codebase self query analysis world log
          = (enhanced_fallback query analysis, log)
          /\ exists codebase, enhanced_fallback query analysis = Ok codebase).
Proof.
  intros settings getenv self has_openai has_anthropic has_google.
  assert (E1 : use_openai self = has_openai) by reflexivity.
  assert (E2 : use_anthropic self = (has_anthropic && negb has_openai)) by reflexivity.
  assert (E3 : use_gemini self = (has_google && negb has_openai && negb has_anthropic)).
  { change (use_gemini self)
      with (has_google && negb has_openai && negb (has_anthropic && negb has_openai)).
    destruct has_openai, has_anthropic, has_google; reflexivity. }
  split; [exact E1|]. split; [exact E2|]. split; [exact E3|].
  split; [|split].
  - rewrite E1, E2, E3.
    destruct has_openai, has_anthropic, has_google; simpl; lia.
  - intros query analysis world log. rewrite generate_codebase_log, E1, E2, E3.
    destruct has_openai, has_anthropic, has_google; reflexivity.
  - intros H1 H2 H3 query analysis world log.
    unfold _generate_codebase. rewrite E1, E2, E3, H1, H2, H3. cbn [andb negb].
    split; [apply fallback_run|].
    destruct (enhanced_fallback_total query analysis) as (c & Hc & _). now exists c.
Qed.

Lemma provider_selection_witness :
  let settings := {| OPENAI_API_KEY := None; ANTHROPIC_API_KEY := Some "";
                     GOOGLE_API_KEY := None; ENABLE_CODE_GENERATION := true |} in
  let getenv : Environ := fun _ => None in
  let world := {| openai_answer := Ok "FILE: a.py";
                  anthropic_answer := Ok "FILE: b.py";
                  gemini_answer := Ok (WithText "FILE: c.py") |} in
  snd (_generate_codebase (__init__ settings getenv) "build a todo app"
         (_analyze_query "build a todo app") world [])
  = []
  /\ exists codebase,
       enhanced_fallback "build a todo app" (_analyze_query "build a todo app")
       = Ok codebase.
Proof.
  intros settings getenv world.
  destruct (proj2 (proj2 (proj2 (proj2 (proj2 (provider_selection settings getenv)))))
              eq_refl eq_refl eq_refl "build a todo app"
              (_analyze_query "build a todo app") world []) as [H1 H2].
  split; [rewrite H1; reflexivity|exact H2].
Defined.

(** ** The scanner: what a commit stores *)

Lemma append_nil_r (s : string) : s ++ "" = s.
Proof. induction s as [|c s IH]; simpl; [reflexivity|now rewrite IH]. Qed.

Lemma append_assoc (a b c : string) : (a ++ b) ++ c = a ++ (b ++ c).
Proof. induction a as [|x a IH]; simpl; [reflexivity|now rewrite IH]. Qed.

Lemma lstrip_decompose (s : string) :
  exists pre, s = pre ++ lstrip s /\ all_space pre = true.
Proof.
  induction s as [|c s (pre & E & H)]; simpl.
  - now exists "".
  - destruct (isspace c) eqn:Hc.
    + exists (String c pre). simpl. rewrite Hc, H. split; [congruence|reflexivity].
    + now exists "".
Qed.

Lemma rstrip_decompose (s : string) :
  exists post, s = rstrip s ++ post /\ all_space post = true.
Proof.
  induction s as [|c s (post & E & H)]; simpl.
  - now exists "".
  - destruct (rstrip s) as [|c' r'] eqn:Hr.
    + destruct (isspace c) eqn:Hc.
      * exists (String c post). simpl. simpl in E. rewrite Hc, H.
        split; [congruence|reflexivity].
      * exists post. simpl. simpl in E. split; [congruence|exact H].
    + exists post. split; [|exact H]. simpl. simpl in E. congruence.
Qed.

Lemma rstrip_cons (c : ascii) (s : string) :
  isspace c = false -> rstrip (String c s) = String c (rstrip s).
Proof.
  intros Hc. simpl. destruct (rstrip s); [now rewrite Hc|reflexivity].
Qed.

Lemma rstrip_idempotent (s : string) : rstrip (rstrip s) = rstrip s.
Proof.
  induction s as [|c s IH]; [reflexivity|].
  simpl. destruct (rstrip s) as [|c' r'] eqn:Hr.
  - destruct (isspace c) eqn:Hc; [reflexivity|]. simpl. now rewrite Hc.
  - change (rstrip (String c (String c' r'))
            = String c (String c' r')).
    simpl. simpl in IH. destruct (rstrip r') eqn:Hr'.
    + destruct (isspace c'); [discriminate|]. now rewrite IH.
    + now rewrite IH.
Qed.

Lemma lstrip_head (s : string) :
  lstrip s = "" \/ exists c r, lstrip s = String c r /\ isspace c = false.
Proof.
  induction s as [|c s IH]; simpl; [now left|].
  destruct (isspace c) eqn:Hc; [exact IH|].
  right. now exists c, s.
Qed.

Lemma strip_stable (s : string) :
  lstrip (strip s) = strip s /\ rstrip (strip s) = strip s.
Proof.
  unfold strip. split; [|apply rstrip_idempotent].
  destruct (lstrip_head s) as [E|(c & r & E & Hc)]; rewrite E.
  - reflexivity.
  - rewrite rstrip_cons by exact Hc. simpl. now rewrite Hc.
Qed.

Lemma strip_decompose (s : string) :
  exists pre post,
    s = pre ++ strip s ++ post
    /\ all_space pre = true /\ all_space post = true.
Proof.
  destruct (lstrip_decompose s) as (pre & E1 & H1).
  destruct (rstrip_decompose (lstrip s)) as (post & E2 & H2).
  exists pre, post. unfold strip. split; [|now split].
  rewrite <- E2. exact E1.
Qed.

Lemma readme_key_is_readme_like (files : Dict.t string) (old : string) :
  Dict.get "README.md" files = Some old ->
  existsb readme_like (Dict.keys files) = true.
Proof.
  intros H. apply existsb_exists. exists "README.md".
  split; [now apply (dict_get_in _ old)|reflexivity].
Qed.

Lemma inferred_name_without_target (target : option string) (lang : string) :
  truthy_opt target = false ->
  inferred_name target lang = "main." ++ get_default (lower lang) "txt" ext_map.
Proof.
  intros H. unfold inferred_name. now rewrite H, orb_true_r.
Qed.

Lemma filter_snoc {A : Type} (p : A -> bool) (l : list A) (x : A) :
  filter p (app l [x]) = if p x then app (filter p l) [x] else filter p l.
Proof.
  rewrite filter_app. simpl. destruct (p x); [reflexivity|apply app_nil_r].
Qed.

Lemma count_snoc {A : Type} (p : A -> bool) (l : list A) (x : A) :
  count p (app l [x]) = count p l + (if p x then 1 else 0).
Proof.
  unfold count. rewrite filter_snoc. destruct (p x).
  - now rewrite length_app.
  - now rewrite Nat.add_0_r.
Qed.

Lemma existsb_snoc {A : Type} (p : A -> bool) (l : list A) (x : A) :
  existsb p (app l [x]) = existsb p l || p x.
Proof. rewrite existsb_app. simpl. now rewrite orb_false_r. Qed.

(** What one turn of the loop can do to an entry of [files]: leave it, store
    the accumulated lines of a non-empty target at a marker line or at the
    fence line that closes a block, or keep a loose prose line. *)
Lemma scan_step_files (st : ParseState) (line k v : string) :
  Dict.get k (st_files (scan_step st line)) = Some v ->
  Dict.get k (st_files st) = Some v
  \/ (current_file st = Some k /\ truthy k = true
      /\ v = committed_text (current_content st)
      /\ (is_marker line = true
          \/ (is_marker line = false /\ is_fence line = true
              /\ in_code_block st = true)))
  \/ (k = "README.md" /\ v = line
      /\ is_plain line = true /\ truthy (strip line) = true).
Proof.
  unfold scan_step. intros H.
  destruct (is_marker line) eqn:Hm.
  { cbn [st_files] in H. destruct (current_file st) as [f|]; [|now left].
    destruct (truthy f) eqn:Ht; [|now left].
    rewrite dict_get_set in H. destruct (String.eqb k f) eqn:E; [|now left].
    apply String.eqb_eq in E. subst f. right. left.
    split; [reflexivity|]. split; [exact Ht|]. split; [congruence|now left]. }
  destruct (is_fence line) eqn:Hf.
  { destruct (in_code_block st) eqn:Hb; cbn [negb] in H; [|now left].
    destruct (current_file st) as [f|]; [|now left].
    destruct (truthy f) eqn:Ht; [|now left].
    cbn [st_files] in H.
    destruct (is_nonempty (current_content st)); [|now left].
    rewrite dict_get_set in H. destruct (String.eqb k f) eqn:E; [|now left].
    apply String.eqb_eq in E. subst f. right. left.
    split; [reflexivity|]. split; [exact Ht|]. split; [congruence|now right]. }
  destruct (truthy_opt (current_file st)); [now left|].
  destruct (truthy (strip line)) eqn:Hs; [|now left].
  cbn [andb] in H.
  destruct (negb (startswith "```" line) && negb (in_code_block st)); [|now left].
  destruct (existsb readme_like (Dict.keys (st_files st))) eqn:Hex; [now left|].
  cbn [negb st_files] in H.
  destruct (Dict.get "README.md" (st_files st)) as [old|] eqn:Hold.
  { apply readme_key_is_readme_like in Hold. congruence. }
  rewrite dict_get_set in H. destruct (String.eqb k "README.md") eqn:E; [|now left].
  apply String.eqb_eq in E. right. right. unfold is_plain. rewrite Hm, Hf.
  repeat split; congruence.
Qed.

(** One turn of the loop keeps the accumulated lines in step with the lines
    seen since the opener of the target. *)
Lemma scan_step_open_block (seen : list string) (st : ParseState) (line : string) :
  open_block seen st -> open_block (app seen [line]) (scan_step st line).
Proof.
  destruct st as [files cf cc icb lang]. unfold open_block, scan_step.
  cbn [current_file current_content in_code_block st_files code_block_lang].
  intros Hopen.
  destruct (is_marker line) eqn:Hm.
  { cbn [current_file current_content in_code_block].
    destruct (truthy (strip (replace "FILE:" "" line))); [|reflexivity].
    exists seen, line, [].
    split; [reflexivity|]. split; [left; now split|].
    split; [reflexivity|]. split; [reflexivity|]. split; [reflexivity|].
    intros _. exact Hm. }
  destruct (is_fence line) eqn:Hf.
  { destruct icb; cbn [negb].
    - destruct cf as [f|]; [|exact Hopen].
      destruct (truthy f) eqn:Ht; cbn [current_file current_content];
        [reflexivity|]. rewrite Ht. exact Hopen.
    - cbn [current_file current_content in_code_block].
      destruct cf as [f|]; cbn [truthy_opt]; [destruct (truthy f) eqn:Ht|].
      + assert (E : (if true && negb (is_nonempty cc) then Some f
                     else if negb true
                          then (if truthy (strip (drop 3 (strip line)))
                                then Some (inferred_name (Some f)
                                             (strip (drop 3 (strip line))))
                                else Some f)
                          else Some f) = Some f)
          by (destruct (negb (is_nonempty cc)); reflexivity).
        rewrite E, Ht.
        destruct Hopen as (before & opener & seg & Es & Ho & Hn & Hc & Hk & Hi).
        exists before, opener, (app seg [line]).
        split; [rewrite Es, <- app_assoc; reflexivity|].
        split; [exact Ho|].
        split; [rewrite existsb_snoc, Hn, Hm; reflexivity|].
        split; [rewrite filter_snoc; unfold is_plain; rewrite Hm, Hf; exact Hc|].
        split; [|discriminate].
        rewrite count_snoc, Hf, Hk. unfold fences_allowed.
        now rewrite (Hi eq_refl).
      + cbn [andb negb].
        destruct (truthy (strip (drop 3 (strip line)))) eqn:Hl.
        * rewrite inferred_name_without_target by (cbn [truthy_opt]; exact Ht).
          cbn [truthy append].
          exists seen, line, [].
          split; [reflexivity|]. split; [right; now repeat split|].
          split; [reflexivity|]. split; [exact Hopen|].
          split; [|discriminate]. unfold fences_allowed. now rewrite Hm.
        * rewrite Ht. exact Hopen.
      + cbn [andb negb].
        destruct (truthy (strip (drop 3 (strip line)))) eqn:Hl; [|exact Hopen].
        rewrite inferred_name_without_target by reflexivity.
        cbn [truthy append].
        exists seen, line, [].
        split; [reflexivity|]. split; [right; now repeat split|].
        split; [reflexivity|]. split; [exact Hopen|].
        split; [|discriminate]. unfold fences_allowed. now rewrite Hm. }
  destruct (truthy_opt cf) eqn:Ht.
  { destruct cf as [f|]; [|discriminate]. cbn [truthy_opt] in Ht.
    cbn [current_file current_content in_code_block]. rewrite Ht in Hopen |- *.
    destruct Hopen as (before & opener & seg & Es & Ho & Hn & Hc & Hk & Hi).
    exists before, opener, (app seg [line]).
    split; [rewrite Es, <- app_assoc; reflexivity|].
    split; [exact Ho|].
    split; [rewrite existsb_snoc, Hn, Hm; reflexivity|].
    split; [rewrite filter_snoc; unfold is_plain; rewrite Hm, Hf, Hc; reflexivity|].
    split; [|exact Hi].
    rewrite count_snoc, Hf, Hk. apply Nat.add_0_r. }
  assert (Hcc : cc = []).
  { destruct cf as [f|]; [|exact Hopen].
    cbn [truthy_opt] in Ht. now rewrite Ht in Hopen. }
  destruct (truthy (strip line) && negb (startswith "```" line) && negb icb);
    [destruct (negb (existsb readme_like (Dict.keys files)))|];
    cbn [current_file current_content];
    (destruct cf as [f|]; [cbn [truthy_opt] in Ht; rewrite Ht|]; exact Hcc).
Qed.

Lemma loose_entry_more (seen more : list string) (k v : string) :
  loose_entry seen k v -> loose_entry (app seen more) k v.
Proof.
  intros (E & Hin & Hp & Hs). repeat split; try assumption.
  apply in_or_app. now left.
Qed.

Lemma closed_entry_more (seen more : list string) (k v : string) :
  closed_entry seen k v -> closed_entry (app seen more) k v.
Proof.
  intros (before & opener & seg & closer & rest & E & Ho & Hl & He & Ev).
  exists before, opener, seg, closer, (app rest more).
  split; [|split; [exact Ho|split; [exact Hl|split; [exact He|exact Ev]]]].
  rewrite E, <- !app_assoc. cbn [app]. now rewrite <- app_assoc.
Qed.

Lemma scan_step_invariant (seen : list string) (st : ParseState) (line : string) :
  scan_invariant seen st -> scan_invariant (app seen [line]) (scan_step st line).
Proof.
  intros [Hopen Hfiles]. split; [now apply scan_step_open_block|].
  intros k v H.
  destruct (scan_step_files st line k v H)
    as [Hold|[(Hc & Ht & Ev & Hline)|(E1 & E2 & Hp & Hs)]].
  - destruct (Hfiles k v Hold) as [Hl|Hl].
    + left. now apply loose_entry_more.
    + right. now apply closed_entry_more.
  - right. unfold open_block in Hopen. rewrite Hc, Ht in Hopen.
    destruct Hopen as (before & opener & seg & Es & Ho & Hn & Hcc & Hk & Hi).
    exists before, opener, seg, line, [].
    split; [rewrite Es, <- app_assoc; reflexivity|].
    split; [exact Ho|].
    split; [split; [exact Hn|]|split].
    + rewrite Hk. destruct (in_code_block st); [apply Nat.le_refl|apply Nat.le_0_l].
    + destruct Hline as [Hm|(_ & Hf & Hb)]; [now left|].
      right. split; [exact Hf|]. now rewrite Hk, Hb.
    + now rewrite <- Hcc.
  - left. subst k v. repeat split; try assumption.
    apply in_or_app. right. now left.
Qed.

Lemma scan_loop_invariant (lines : list string) :
  forall seen st,
    scan_invariant seen st ->
    scan_invariant (app seen lines) (scan_loop lines st).
Proof.
  induction lines as [|line lines IH]; intros seen st H; simpl.
  - now rewrite app_nil_r.
  - change (app seen (line :: lines)) with (app seen (app [line] lines)).
    rewrite app_assoc. apply IH. now apply scan_step_invariant.
Qed.

(** Every entry of the files found by the scanner is a loose prose line or
    the block of lines between an opener and the line that commits. *)
Lemma scan_response_entries (content k v : string) :
  Dict.get k (scan_response content) = Some v ->
  loose_entry (splitlines_nl content) k v
  \/ block_entry (splitlines_nl content) k v.
Proof.
  unfold scan_response, save_last. intros H.
  destruct (scan_loop_invariant (splitlines_nl content) [] initial_state)
    as [Hopen Hfiles].
  { split; [reflexivity|]. intros k0 v0 H0. discriminate. }
  simpl app in Hopen, Hfiles.
  set (st := scan_loop (splitlines_nl content) initial_state) in *.
  assert (Hdone : Dict.get k (st_files st) = Some v ->
                  loose_entry (splitlines_nl content) k v
                  \/ block_entry (splitlines_nl content) k v).
  { intros H0. destruct (Hfiles k v H0)
      as [Hl|(before & opener & seg & closer & rest & E & Ho & Hl & He & Ev)];
      [now left|].
    right. exists before, opener, seg, (closer :: rest).
    split; [exact E|]. split; [exact Ho|]. split; [exact Hl|].
    split; [exact He|exact Ev]. }
  unfold open_block in Hopen.
  destruct (current_file st) as [f|]; [|now apply Hdone].
  destruct (truthy f) eqn:Ht; cbn [andb] in H; [|now apply Hdone].
  destruct (is_nonempty (current_content st)); [|now apply Hdone].
  rewrite dict_get_set in H. destruct (String.eqb k f) eqn:E; [|now apply Hdone].
  apply String.eqb_eq in E. subst f.
  destruct Hopen as (before & opener & seg & Es & Ho & Hn & Hcc & Hk & Hi).
  right. exists before, opener, seg, [].
  split; [now rewrite app_nil_r|]. split; [exact Ho|].
  split; [split; [exact Hn|]|split; [exact I|]].
  - rewrite Hk. destruct (in_code_block st); [apply Nat.le_refl|apply Nat.le_0_l].
  - rewrite <- Hcc. congruence.
Qed.

(** C3 (as amended). Every entry of the files found by the scanner is
    either the loose prose line kept under README.md, a non-blank line of
    the reply that is neither marker nor fence, or the text of a block: the
    reply holds a line that opens the target (a marker line naming it, or a
    fence line inferring it), then the lines of the block, then the end of
    the reply or the line that commits (a marker line, or the fence line that
    closes the block); the accumulated lines are the lines of the block
    without the fence line that starts it, in their order and unchanged; and
    the content stored is these lines joined by newlines with all leading
    and trailing whitespace removed.  The stored text is a contiguous part of
    the joined text, preceded and followed there by whitespace only, and it
    neither starts nor ends with a whitespace character: blank lines at both
    ends go, and with them the indentation of the first kept line and the
    trailing whitespace of the last. *)
Theorem committed_text_is_stripped :
  forall content path stored : string,
    Dict.get path (scan_response content) = Some stored ->
    (path = "README.md" /\ In stored (splitlines_nl content)
     /\ is_plain stored = true /\ truthy (strip stored) = true)
    \/ exists (before : list string) (opener : string) (seg after : list string),
         splitlines_nl content = app before (opener :: app seg after)
         /\ opens opener path
         /\ block_lines opener seg
         /\ block_end opener seg after
         /\ stored = strip (join nl (filter is_plain seg))
         /\ lstrip stored = stored
         /\ rstrip stored = stored
         /\ exists pre post : string,
              join nl (filter is_plain seg) = pre ++ stored ++ post
              /\ all_space pre = true /\ all_space post = true.
Proof.
  intros content path stored H.
  destruct (scan_response_entries content path stored H)
    as [Hl|(before & opener & seg & after & E & Ho & Hl & He & Ev)].
  - now left.
  - right. exists before, opener, seg, after.
    unfold committed_text in Ev. subst stored.
    split; [exact E|]. split; [exact Ho|]. split; [exact Hl|].
    split; [exact He|]. split; [reflexivity|].
    destruct (strip_stable (join nl (filter is_plain seg))) as [H1 H2].
    split; [exact H1|]. split; [exact H2|].
    apply strip_decompose.
Qed.

Lemma committed_text_is_stripped_witness :
  exists (before : list string) (opener : string) (seg after : list string),
    splitlines_nl indented_reply = app before (opener :: app seg after)
    /\ opens opener "step.py"
    /\ block_lines opener seg
    /\ block_end opener seg after
    /\ "total = total + 1" ++ nl ++ "    return total"
       = strip (join nl (filter is_plain seg)).
Proof.
  destruct (committed_text_is_stripped indented_reply "step.py"
              ("total = total + 1" ++ nl ++ "    return total"))
    as [[E _]|(before & opener & seg & after & H1 & H2 & H3 & H4 & H5 & _)].
  - vm_compute. reflexivity.
  - discriminate E.
  - now exists before, opener, seg, after.
Defined.

(** C3, the claim as worded fails: the lines accumulated for step.py, with
    the blank lines at both ends removed and nothing else touched, start with
    four spaces and end with two; the text stored has lost both. *)
Lemma committed_text_counterexample :
  Dict.get "step.py" (scan_response indented_reply)
  = Some ("total = total + 1" ++ nl ++ "    return total")
  /\ spec_committed_text [ ""; "    total = total + 1"; "    return total  "; "" ]
     = "    total = total + 1" ++ nl ++ "    return total  "
  /\ Dict.get "step.py" (scan_response indented_reply)
     <> Some (spec_committed_text
                [ ""; "    total = total + 1"; "    return total  "; "" ]).
Proof.
  split; [vm_compute; reflexivity|]. split; [vm_compute; reflexivity|].
  vm_compute. discriminate.
Qed.

(** ** The scanner: loose prose and inferred targets *)

Lemma fence_at_start (line : string) :
  startswith "```" line = true -> is_fence line = true.
Proof.
  unfold is_fence, strip. intros H.
  destruct line as [|a [|b [|c r]]]; cbn [startswith] in H;
    repeat (apply andb_true_iff in H; destruct H as [? H]);
    try discriminate.
  repeat match goal with
         | E : Ascii.eqb _ _ = true |- _ => apply Ascii.eqb_eq in E
         end.
  subst a b c.
  change (lstrip (String "`" (String "`" (String "`" r))))
    with (String "`" (String "`" (String "`" r))).
  rewrite !rstrip_cons by reflexivity. reflexivity.
Qed.

Lemma no_readme_key (files : Dict.t string) :
  existsb readme_like (Dict.keys files) = false ->
  Dict.get "README.md" files = None.
Proof.
  intros H. destruct (Dict.get "README.md" files) as [old|] eqn:E; [|reflexivity].
  apply readme_key_is_readme_like in E. congruence.
Qed.

(** C4 (as amended). A line that is no marker, no fence and not blank, met
    while no file target is set, becomes the content of the implicit
    README.md target, which is created for it, when no fenced block is open
    and no key of the files so far starts with "README" or ends with ".md";
    met inside an open fenced block it is dropped and the state stays as it
    was. *)
Theorem loose_prose_rule :
  forall (st : ParseState) (line : string),
    is_marker line = false ->
    is_fence line = false ->
    truthy (strip line) = true ->
    truthy_opt (current_file st) = false ->
    (in_code_block st = false ->
     existsb readme_like (Dict.keys (st_files st)) = false ->
     scan_step st line
     = {| st_files := app (st_files st) [("README.md", line)];
          current_file := current_file st;
          current_content := current_content st;
          in_code_block := false;
          code_block_lang := code_block_lang st |})
    /\ (in_code_block st = true -> scan_step st line = st).
Proof.
  intros st line Hm Hf Hb Hc.
  assert (Hs : startswith "```" line = false).
  { destruct (startswith "```" line) eqn:E; [|reflexivity].
    apply fence_at_start in E. congruence. }
  unfold scan_step. rewrite Hm, Hf, Hc, Hb, Hs. cbn [andb negb].
  split.
  - intros Hblock Hkeys. rewrite Hblock, Hkeys. cbn [negb].
    rewrite (no_readme_key _ Hkeys), (dict_set_fresh _ _ _ (no_readme_key _ Hkeys)).
    reflexivity.
  - intros Hblock. rewrite Hblock. reflexivity.
Qed.

Lemma loose_prose_rule_witness :
  scan_step initial_state "This tool prints a greeting."
  = {| st_files := [("README.md", "This tool prints a greeting.")];
       current_file := None; current_content := [];
       in_code_block := false; code_block_lang := None |}
  /\ scan_step inside_untagged_block "This tool prints a greeting."
     = inside_untagged_block.
Proof.
  split.
  - apply (proj1 (loose_prose_rule initial_state "This tool prints a greeting."
                    eq_refl eq_refl eq_refl eq_refl));
      reflexivity.
  - apply (proj2 (loose_prose_rule inside_untagged_block
                    "This tool prints a greeting."
                    eq_refl eq_refl eq_refl eq_refl)).
    reflexivity.
Defined.

(** C4, the claim as worded fails: the second line of the reply is no
    marker, no fence, not blank, and is met with no file target set; it is
    not appended to a README.md target, and the scan ends with no file. *)
Lemma loose_prose_counterexample :
  current_file inside_untagged_block = None
  /\ is_marker "This tool prints a greeting." = false
  /\ is_fence "This tool prints a greeting." = false
  /\ truthy (strip "This tool prints a greeting.") = true
  /\ Dict.get "README.md"
       (st_files (scan_step inside_untagged_block "This tool prints a greeting."))
     = None
  /\ scan_response untagged_block_reply = [].
Proof. vm_compute. repeat split. Qed.

(** Once README.md exists it is itself a key that starts with "README": the
    branch of the source that appends to it is never taken, and a second
    line of loose prose is dropped. *)
Lemma second_prose_line_is_dropped :
  scan_response ("First line." ++ nl ++ "Second line.")
  = [("README.md", "First line.")].
Proof. vm_compute. reflexivity. Qed.

(** C5. The name inferred for a fenced block opened without a target is
    always main.<ext>: in that branch [not current_file] holds, so the
    alternative file.<ext> is never chosen.  Two blocks of one language
    overwrite each other, and the block of a second language is named
    main.<ext> too. *)
Theorem inferred_name_is_always_main :
  scan_response two_python_blocks = [("main.py", "print(2)")]
  /\ scan_response python_then_js_blocks
     = [("main.py", "print(1)"); ("main.js", "console.log(2)")]
  /\ forall (target : option string) (lang : string),
       inferred_name target lang
       = if contains "main" (lower lang) || negb (truthy_opt target)
         then "main." ++ get_default (lower lang) "txt" ext_map
         else "file." ++ get_default (lower lang) "txt" ext_map.
Proof.
  split; [vm_compute; reflexivity|]. split; [vm_compute; reflexivity|].
  intros target lang. reflexivity.
Qed.

(** ** The keys of a codebase result *)

Lemma first_language_range (table : list (string * list string)) (query_lower : string) :
  first_language table query_lower = "python"
  \/ In (first_language table query_lower) (map fst table).
Proof.
  induction table as [|[lang keywords] table IH]; simpl; [now left|].
  destruct (existsb _ keywords).
  - right. now left.
  - destruct IH as [IH|IH]; [now left|right; now right].
Qed.

Lemma detect_language_range (query : string) :
  In (_detect_language query) detected_languages.
Proof.
  unfold _detect_language.
  destruct (first_language_range language_keywords (lower query)) as [E|H].
  - rewrite E. now left.
  - exact H.
Qed.

Lemma fallback_keys (query : string) (analysis : Analysis) :
  Dict.keys (fallback_files query analysis) = fallback_key_list (language analysis).
Proof.
  unfold fallback_files, fallback_key_list.
  set (lang := language analysis).
  generalize (_generate_readme query (_extract_requirements query) lang
                (framework analysis)).
  intros readme.
  destruct (String.eqb lang "python"); [reflexivity|].
  destruct (is_node_language lang).
  - destruct (String.eqb lang "typescript"); reflexivity.
  - reflexivity.
Qed.

Lemma fallback_keys_safe (query : string) :
  forallb safe_relative_path
    (Dict.keys (fallback_files query (_analyze_query query))) = true.
Proof.
  rewrite fallback_keys.
  change (language (_analyze_query query)) with (_detect_language query).
  pose proof (detect_language_range query) as H.
  unfold detected_languages in H. simpl in H.
  repeat (destruct H as [H|H]; [rewrite <- H; vm_compute; reflexivity|]).
  destruct H.
Qed.

(** Where the result of [_generate_codebase] comes from. *)
Lemma codebase_origin (self : SimpleAgent) (query : string) (analysis : Analysis)
  (world : World) (log : Log) (c : Codebase) :
  fst (_generate_codebase self query analysis world log) = Ok c ->
  enhanced_fallback query analysis = Ok c
  \/ exists reply,
       selected_answer self world = Ok reply
       /\ _parse_codebase_response reply analysis = Ok c
       /\ is_nonempty (files c) = true
       /\ _is_fallback_code c = false.
Proof.
  assert (Hfinish : forall answer log',
            fst (match finish query analysis true answer with
                 | Ok a => check_result query analysis a world log'
                 | Raise e => (Raise e, log')
                 end) = Ok c ->
            enhanced_fallback query analysis = Ok c
            \/ exists reply,
                 answer = Ok reply
                 /\ _parse_codebase_response reply analysis = Ok c
                 /\ is_nonempty (files c) = true
                 /\ _is_fallback_code c = false).
  { intros answer log'. unfold finish, check_result.
    destruct answer as [reply|e].
    - destruct (_parse_codebase_response reply analysis) as [parsed|e] eqn:Hp.
      + destruct (is_nonempty (files parsed)) eqn:Hn; cbn [negb orb].
        * destruct (_is_fallback_code parsed) eqn:Hg.
          -- rewrite fallback_run. cbn [fst]. now left.
          -- cbn [ret fst]. intros H. inversion H; subst parsed.
             right. exists reply. repeat split; assumption.
        * rewrite fallback_run. cbn [fst]. now left.
      + destruct (enhanced_fallback query analysis) as [fb|e'] eqn:Hfb;
          [|discriminate].
        destruct (negb (is_nonempty (files fb)) || _is_fallback_code fb);
          [rewrite fallback_run, Hfb|]; cbn [ret fst]; intros H; left; exact H.
    - destruct (enhanced_fallback query analysis) as [fb|e'] eqn:Hfb;
        [|discriminate].
      destruct (negb (is_nonempty (files fb)) || _is_fallback_code fb);
        [rewrite fallback_run, Hfb|]; cbn [ret fst]; intros H; left; exact H. }
  unfold _generate_codebase, selected_answer.
  destruct (use_openai self).
  { unfold bind. rewrite openai_run. apply Hfinish. }
  destruct (use_anthropic self).
  { unfold bind. rewrite anthropic_run. apply Hfinish. }
  destruct (use_gemini self).
  { unfold bind. rewrite gemini_run. apply Hfinish. }
  rewrite fallback_run. cbn [fst]. now left.
Qed.

(** C9 (as amended). The files of a codebase result handed to the
    collaborator are either those of the fallback synthesizer, whose keys
    are relative paths with no [..] segment, or those parsed from the reply
    of the selected provider that passed the quality gate, whose keys are
    handed on as the parser read them. *)
Theorem codebase_keys_rule :
  forall (settings : Settings) (self : SimpleAgent) (query : string)
         (world : World) (log : Log)
         (content : Codebase) (lang : string) (fw : option string) (tree : Tree),
    fst (process_query settings self query world log)
    = Ok (CodebaseResult content lang fw tree) ->
    (enhanced_fallback query (_analyze_query query) = Ok content
     /\ forallb safe_relative_path (Dict.keys (files content)) = true)
    \/ exists reply,
         selected_answer self world = Ok reply
         /\ _parse_codebase_response reply (_analyze_query query) = Ok content
         /\ is_nonempty (files content) = true
         /\ _is_fallback_code content = false.
Proof.
  intros settings self query world log content lang fw tree.
  unfold process_query.
  destruct (should_generate_code (_analyze_query query)
            && ENABLE_CODE_GENERATION settings).
  - unfold bind.
    destruct (_generate_codebase self query (_analyze_query query) world log)
      as [[c|e] log'] eqn:Hg; cbn [ret fst]; [|discriminate].
    intros H. inversion H; subst.
    destruct (codebase_origin self query (_analyze_query query) world log content)
      as [Hfb|Hparsed].
    + now rewrite Hg.
    + left. split; [exact Hfb|].
      destruct (enhanced_fallback_total query (_analyze_query query))
        as (c & Hc & Hfiles & _).
      assert (c = content) by congruence. subst c.
      rewrite Hfiles. apply fallback_keys_safe.
    + now right.
  - unfold bind.
    destruct (_generate_text_response self query (_analyze_query query) world log)
      as [[s|e] log']; cbn [ret fst]; discriminate.
Qed.

Lemma codebase_keys_rule_witness :
  exists content : Codebase,
    fst (process_query no_settings (__init__ no_settings empty_environ)
           "build a todo app" traversal_world [])
    = Ok (CodebaseResult content "python" None
            (Dir [("main.py", File); ("requirements.txt", File); ("README.md", File)]))
    /\ Dict.keys (files content) = ["main.py"; "requirements.txt"; "README.md"]
    /\ forallb safe_relative_path (Dict.keys (files content)) = true.
Proof.
  eexists. split; [vm_compute; reflexivity|]. split; [vm_compute; reflexivity|].
  edestruct (codebase_keys_rule no_settings (__init__ no_settings empty_environ)
               "build a todo app" traversal_world [])
    as [[_ H]|(reply & H & _)].
  - vm_compute. reflexivity.
  - exact H.
  - vm_compute in H. discriminate H.
Defined.

(** C9, the claim as worded fails: with an OpenAI credential and a reply
    that names the file ../deploy.py, the codebase result handed on has that
    key, which leaves the output directory. *)
Lemma codebase_keys_counterexample :
  match fst (process_query openai_settings (__init__ openai_settings empty_environ)
               "build a deploy tool" traversal_world []) with
  | Ok (CodebaseResult content _ _ _) =>
      Dict.keys (files content) = ["../deploy.py"; "README.md"]
      /\ existsb (String.eqb "..") (split_slash "../deploy.py") = true
      /\ forallb safe_relative_path (Dict.keys (files content)) = false
  | _ => False
  end.
Proof. vm_compute. repeat split. Qed.

(** ** The turns allowed to the two regular-expression loops are enough *)

Lemma drop3_len (s : string) :
  startswith "```" s = true -> len s = 3 + len (drop 3 s).
Proof.
  destruct s as [|a [|b [|c r]]]; cbn [startswith];
    intros H; repeat (apply andb_true_iff in H; destruct H as [? H]);
    try discriminate.
  reflexivity.
Qed.

Lemma find_fence_len (s before after : string) :
  find_fence s = Some (before, after) -> len s = len before + 3 + len after.
Proof.
  revert before. induction s as [|c r IH]; intros before H; [discriminate|].
  cbn [find_fence] in H.
  destruct (startswith "```" (String c r)) eqn:E.
  - inversion H; subst. now apply drop3_len.
  - destruct (find_fence r) as [[b a]|]; [|discriminate].
    inversion H; subst. specialize (IH b eq_refl).
    unfold len in *. simpl. lia.
Qed.

Lemma span_word_len (s w rest : string) :
  span_word s = (w, rest) -> len s = len w + len rest.
Proof.
  revert w. induction s as [|c r IH]; intros w H; cbn [span_word] in H.
  - inversion H. reflexivity.
  - destruct (isword c).
    + destruct (span_word r) as [w' rest'] eqn:E. inversion H; subst.
      specialize (IH w' eq_refl). unfold len in *. simpl. lia.
    + inversion H. reflexivity.
Qed.

Lemma match_block_len (s lang code rest : string) :
  match_block s = Some (lang, code, rest) -> len rest < len s.
Proof.
  unfold match_block. destruct (startswith "```" s) eqn:E; [|discriminate].
  destruct (span_word (drop 3 s)) as [w r] eqn:Hw.
  destruct r as [|c r']; [discriminate|].
  destruct (Ascii.eqb c (ascii_of_nat 10)); [|discriminate].
  destruct (find_fence r') as [[cd rs]|] eqn:Hf; [|discriminate].
  intros H. inversion H; subst.
  apply drop3_len in E. apply span_word_len in Hw. apply find_fence_len in Hf.
  unfold len in *. cbn [String.length] in Hw. lia.
Qed.

Lemma findall_blocks_fuel (fuel1 : nat) :
  forall fuel2 s, len s <= fuel1 -> len s <= fuel2 ->
    findall_blocks fuel1 s = findall_blocks fuel2 s.
Proof.
  unfold len.
  induction fuel1 as [|fuel1 IH]; intros fuel2 s H1 H2.
  - destruct s; [|simpl in H1; lia].
    destruct fuel2; reflexivity.
  - destruct s as [|c r]; [destruct fuel2; reflexivity|].
    destruct fuel2 as [|fuel2]; [simpl in H2; lia|].
    cbn [findall_blocks]. simpl in H1, H2.
    destruct (match_block (String c r)) as [[[lang code] rest]|] eqn:E.
    + apply match_block_len in E. unfold len in E. simpl in E.
      f_equal. apply IH; lia.
    + apply IH; lia.
Qed.

Lemma split_fenced_fuel (fuel1 : nat) :
  forall fuel2 s, len s <= fuel1 -> len s <= fuel2 ->
    split_fenced fuel1 s = split_fenced fuel2 s.
Proof.
  unfold len.
  induction fuel1 as [|fuel1 IH]; intros fuel2 s H1 H2.
  - destruct s; [|simpl in H1; lia].
    destruct fuel2; reflexivity.
  - destruct fuel2 as [|fuel2].
    + destruct s; [reflexivity|simpl in H2; lia].
    + cbn [split_fenced].
      destruct (find_fence s) as [[before after]|] eqn:E1; [|reflexivity].
      destruct (find_fence after) as [[inner rest]|] eqn:E2; [|reflexivity].
      apply find_fence_len in E1, E2. unfold len in E1, E2. f_equal.
      apply IH; lia.
Qed.

(** * Further properties *)

(** ** Substrings and case *)

Lemma lower_char_idempotent (c : ascii) : lower_char (lower_char c) = lower_char c.
Proof.
  destruct c as [b0 b1 b2 b3 b4 b5 b6 b7].
  destruct b0, b1, b2, b3, b4, b5, b6, b7; vm_compute; reflexivity.
Qed.

Lemma lower_idempotent (s : string) : lower (lower s) = lower s.
Proof.
  induction s as [|c s IH]; simpl; [reflexivity|].
  now rewrite lower_char_idempotent, IH.
Qed.

Lemma lower_app (a b : string) : lower (a ++ b) = lower a ++ lower b.
Proof. induction a as [|c a IH]; simpl; [reflexivity|now rewrite IH]. Qed.

Lemma startswith_iff (p s : string) :
  startswith p s = true <-> exists rest, s = p ++ rest.
Proof.
  revert s. induction p as [|a p IH]; intros s; simpl.
  - split; [intros _; now exists s|reflexivity].
  - destruct s as [|b s].
    + split; [discriminate|]. intros [rest H]. discriminate.
    + rewrite andb_true_iff, IH. split.
      * intros [E [rest H]]. apply Ascii.eqb_eq in E. subst. now exists rest.
      * intros [rest H]. inversion H; subst. split; [apply Ascii.eqb_refl|now exists rest].
Qed.

Lemma contains_iff (p s : string) :
  contains p s = true <-> exists before rest, s = before ++ p ++ rest.
Proof.
  induction s as [|c s IH].
  - cbn [contains]. rewrite orb_false_r, startswith_iff. split.
    + intros [rest H]. now exists "", rest.
    + intros (before & rest & H). destruct before; [now exists rest|discriminate].
  - cbn [contains]. rewrite orb_true_iff, startswith_iff, IH. split.
    + intros [[rest H]|(before & rest & H)].
      * now exists "", rest.
      * exists (String c before), rest. simpl. now rewrite H.
    + intros (before & rest & H). destruct before as [|x before].
      * left. now exists rest.
      * right. inversion H; subst. now exists before, rest.
Qed.

Lemma contains_trans (a b s : string) :
  contains a b = true -> contains b s = true -> contains a s = true.
Proof.
  rewrite !contains_iff. intros (x & y & Hb) (u & v & Hs).
  exists (u ++ x), (y ++ v). subst. now rewrite !append_assoc.
Qed.

Lemma contains_app_l (p a b : string) :
  contains p a = true -> contains p (a ++ b) = true.
Proof.
  rewrite !contains_iff. intros (x & y & H).
  exists x, (y ++ b). subst. now rewrite !append_assoc.
Qed.

Lemma contains_app_r (p a b : string) :
  contains p b = true -> contains p (a ++ b) = true.
Proof.
  rewrite !contains_iff. intros (x & y & H).
  exists (a ++ x), y. subst. now rewrite !append_assoc.
Qed.

Lemma count_app {A : Type} (p : A -> bool) (l1 l2 : list A) :
  count p (app l1 l2) = count p l1 + count p l2.
Proof. unfold count. now rewrite filter_app, length_app. Qed.

Lemma count_monotone {A : Type} (p q : A -> bool) (l : list A) :
  (forall x, p x = true -> q x = true) -> count p l <= count q l.
Proof.
  intros H. unfold count. induction l as [|x l IH]; simpl; [lia|].
  destruct (p x) eqn:Hp.
  - rewrite (H x Hp). simpl. lia.
  - destruct (q x); simpl; lia.
Qed.

Lemma count_two {A : Type} (p : A -> bool) (l1 : list A) (x : A) (l2 : list A)
  (y : A) (l3 : list A) :
  p x = true -> p y = true ->
  2 <= count p (app l1 (x :: app l2 (y :: l3))).
Proof.
  intros Hx Hy. rewrite count_app.
  change (x :: app l2 (y :: l3)) with (app [x] (app l2 (app [y] l3))).
  rewrite !count_app. unfold count at 2 4. cbn [filter]. rewrite Hx, Hy.
  cbn [List.length]. lia.
Qed.

(** ** More on the classifier *)

(** X1. The analysis depends on the query through its lower-cased form
    only: two queries that differ in case alone get the same analysis, and
    lower-casing a query first changes nothing. *)
Theorem analysis_ignores_case :
  forall query : string,
    _analyze_query (lower query) = _analyze_query query
    /\ forall other : string,
         lower other = lower query -> _analyze_query other = _analyze_query query.
Proof.
  intros query. split.
  - unfold _analyze_query, _detect_language, _detect_framework.
    now rewrite lower_idempotent.
  - intros other H. unfold _analyze_query, _detect_language, _detect_framework.
    now rewrite H.
Qed.

Lemma analysis_ignores_case_witness :
  _analyze_query "Build A FastAPI Service" = _analyze_query "build a fastapi service".
Proof.
  apply (proj2 (analysis_ignores_case "build a fastapi service")).
  vm_compute. reflexivity.
Defined.

Lemma first_language_skips (before : list (string * list string)) :
  forall after query_lower,
    (forall entry, In entry before -> any_in (snd entry) query_lower = false) ->
    first_language (app before after) query_lower = first_language after query_lower.
Proof.
  induction before as [|[lang kws] before IH]; intros after ql H; [reflexivity|].
  cbn [app first_language].
  change (existsb (fun keyword => contains keyword ql) kws) with (any_in kws ql).
  pose proof (H (lang, kws) (or_introl eq_refl)) as Hk. cbn [snd] in Hk.
  rewrite Hk. apply IH.
  intros entry Hin. apply H. now right.
Qed.

(** X2. Language detection is first match in table order: the language
    returned is one of the eight of the table; it is the first whose
    keywords occur in the lower-cased query, and "python" when none does. *)
Theorem detect_language_first_match :
  forall query : string,
    In (_detect_language query) detected_languages
    /\ ((forall entry, In entry language_keywords ->
           any_in (snd entry) (lower query) = false) ->
        _detect_language query = "python")
    /\ (forall before lang keywords after,
          language_keywords = app before ((lang, keywords) :: after) ->
          (forall entry, In entry before -> any_in (snd entry) (lower query) = false) ->
          any_in keywords (lower query) = true ->
          _detect_language query = lang).
Proof.
  intros query. split; [apply detect_language_range|]. split.
  - intros H. unfold _detect_language.
    rewrite <- (app_nil_r language_keywords).
    now rewrite first_language_skips.
  - intros before lang keywords after E Hb Hk. unfold _detect_language.
    rewrite E, first_language_skips by exact Hb.
    cbn [first_language].
    change (existsb (fun keyword => contains keyword (lower query)) keywords)
      with (any_in keywords (lower query)).
    now rewrite Hk.
Qed.

Lemma detect_language_first_match_witness :
  _detect_language "A Java service with Spring" = "java"
  /\ _detect_language "Sort my books" = "python".
Proof.
  split.
  - apply (proj2 (proj2 (detect_language_first_match "A Java service with Spring"))
             [ ("python", ["python"; "py"; "django"; "flask"; "fastapi"]);
               ("javascript", ["javascript"; "js"; "node"; "react"; "vue"; "angular"]);
               ("typescript", ["typescript"; "ts"]) ]
             "java" ["java"; "spring"; "maven"]
             [ ("go", ["go"; "golang"]); ("rust", ["rust"]); ("cpp", ["c++"; "cpp"]);
               ("c", ["c programming"; "c language"]) ]).
    + reflexivity.
    + intros entry [E|[E|[E|[]]]]; subst entry; vm_compute; reflexivity.
    + vm_compute. reflexivity.
  - apply (proj1 (proj2 (detect_language_first_match "Sort my books"))).
    intros entry H. unfold language_keywords in H. simpl in H.
    repeat (destruct H as [H|H]; [subst entry; vm_compute; reflexivity|]).
    destruct H.
Defined.

Lemma first_framework_found (table : list (string * string)) (query_lower fw : string) :
  first_framework table query_lower = Some fw ->
  exists keyword, In (keyword, fw) table /\ contains keyword query_lower = true.
Proof.
  induction table as [|[k f] table IH]; simpl; [discriminate|].
  destruct (contains k query_lower) eqn:E.
  - intros H. inversion H; subst. exists k. split; [now left|exact E].
  - intros H. destruct (IH H) as (kw & Hin & Hc). exists kw. split; [now right|exact Hc].
Qed.

(** X3. A detected framework is named in the lower-cased query, and the
    three Python frameworks force the language: when the framework is
    django, flask or fastapi the language detected is python. *)
Theorem python_framework_gives_python :
  forall (query fw : string),
    _detect_framework query = Some fw ->
    contains fw (lower query) = true
    /\ (In fw ["django"; "flask"; "fastapi"] -> _detect_language query = "python").
Proof.
  intros query fw H. unfold _detect_framework in H.
  destruct (first_framework_found _ _ _ H) as (kw & Hin & Hc).
  assert (E : kw = fw).
  { unfold frameworks in Hin. simpl in Hin.
    repeat (destruct Hin as [Hin|Hin]; [inversion Hin; reflexivity|]).
    destruct Hin. }
  subst kw. split; [exact Hc|].
  intros Hpy. unfold _detect_language, language_keywords. cbn [first_language existsb].
  simpl in Hpy. destruct Hpy as [E|[E|[E|[]]]]; subst fw; rewrite Hc;
    rewrite ?orb_true_r; reflexivity.
Qed.

Lemma python_framework_gives_python_witness :
  contains "flask" (lower "A Flask site in JavaScript") = true
  /\ _detect_language "A Flask site in JavaScript" = "python".
Proof.
  destruct (python_framework_gives_python "A Flask site in JavaScript" "flask")
    as [H1 H2].
  - vm_compute. reflexivity.
  - split; [exact H1|]. apply H2. right. now left.
Defined.

(** X4. Attaching an uploaded file never lowers a score: every keyword
    found in the query alone is found in the query with the file's text
    appended; without a file, or with an empty one, the query is unchanged. *)
Theorem attached_file_keeps_scores :
  forall (query : string) (file_content : option string),
    code_score (_analyze_query query)
      <= code_score (_analyze_query (full_query query file_content))
    /\ text_score (_analyze_query query)
      <= text_score (_analyze_query (full_query query file_content))
    /\ (truthy_opt file_content = false -> full_query query file_content = query).
Proof.
  intros query file_content.
  assert (H : forall k, contains k (lower query) = true ->
                        contains k (lower (full_query query file_content)) = true).
  { intros k Hk. unfold full_query. destruct file_content as [c|]; [|exact Hk].
    destruct (truthy c); [|exact Hk].
    rewrite lower_app. now apply contains_app_l. }
  split; [|split].
  - apply count_monotone. exact H.
  - apply count_monotone. exact H.
  - unfold full_query. destruct file_content as [c|]; [|reflexivity].
    simpl. intros E. now rewrite E.
Qed.

Lemma attached_file_keeps_scores_witness :
  full_query "explain the api" (Some "") = "explain the api".
Proof.
  apply (proj2 (proj2 (attached_file_keeps_scores "explain the api" (Some "")))).
  reflexivity.
Defined.

(** X5. The code vocabulary holds "app" beside "application" and
    "web app": a query that mentions "application" or "web app" scores at
    least two code keywords, and is classified as a code request whenever at
    most one explanation keyword occurs in it. *)
Theorem application_counts_twice :
  forall query : string,
    contains "application" (lower query) = true
    \/ contains "web app" (lower query) = true ->
    2 <= code_score (_analyze_query query)
    /\ (text_score (_analyze_query query) <= 1 ->
        should_generate_code (_analyze_query query) = true).
Proof.
  intros query H.
  assert (Happ : contains "app" (lower query) = true).
  { destruct H as [H|H]; [apply (contains_trans "app" "application")
                         |apply (contains_trans "app" "web app")];
      try exact H; vm_compute; reflexivity. }
  assert (H2 : 2 <= code_score (_analyze_query query)).
  { cbn [_analyze_query code_score].
    destruct H as [H|H].
    - apply (count_two _ ["create"; "build"; "develop"; "implement"; "write code"]
               "application" [] "app"
               ["program"; "script"; "function"; "api"; "service"; "website";
                "web app"; "database"; "class"; "module"; "package"; "framework"]);
        assumption.
    - apply (count_two _ ["create"; "build"; "develop"; "implement"; "write code";
                          "application"]
               "app"
               ["program"; "script"; "function"; "api"; "service"; "website"]
               "web app"
               ["database"; "class"; "module"; "package"; "framework"]);
        assumption. }
  split; [exact H2|]. intros Ht.
  cbn [_analyze_query should_generate_code].
  cbn [_analyze_query code_score text_score] in H2, Ht.
  apply andb_true_iff. split; apply Nat.ltb_lt; lia.
Qed.

Lemma application_counts_twice_witness :
  should_generate_code (_analyze_query "Explain this application") = true.
Proof.
  apply (application_counts_twice "Explain this application").
  - left. vm_compute. reflexivity.
  - vm_compute. repeat constructor.
Defined.

(** ** More on the structure tree *)

Lemma build_leaves (paths : list string) :
  forall t t', build_from paths t = Ok t' ->
    forall other, lookup_path other t' = Some File ->
      (exists p, In p paths /\ split_slash p = other)
      \/ lookup_path other t = Some File.
Proof.
  induction paths as [|p paths IH]; intros t t' H other Ho; simpl in H.
  - inversion H; subst. now right.
  - destruct (place (split_slash p) t) as [t1|e] eqn:Hp; [|discriminate].
    simpl in H. destruct (IH t1 t' H other Ho) as [(q & Hq & E)|H1].
    + left. exists q. split; [now right|exact E].
    + destruct (place_spec _ _ _ Hp) as (_ & _ & Hnew).
      destruct (Hnew other H1) as [E|Hold].
      * left. exists p. split; [now left|congruence].
      * now right.
Qed.

(** X6. Building the tree either raises a [TypeError], and nothing else, or
    returns a tree every leaf of which is the path of one of the files: no
    leaf is invented. *)
Theorem tree_building_outcomes :
  forall files : Dict.t string,
    is_type_error (_build_structure_tree files)
    \/ exists t, _build_structure_tree files = Ok t
                 /\ forall segments, lookup_path segments t = Some File ->
                      exists p, In p (Dict.keys files) /\ split_slash p = segments.
Proof.
  intros files. unfold _build_structure_tree.
  destruct (build_ok_or_type_error (Dict.keys files) (Dir [])) as [[t H]|H];
    [right|now left].
  exists t. split; [exact H|]. intros segments Hs.
  destruct (build_leaves _ _ _ H segments Hs) as [Hp|Hd]; [exact Hp|].
  exfalso. exact (lookup_path_empty_dir segments Hd).
Qed.



(** ** The basic template and the quality check *)

(** X8. Whatever the analysis, the files of [_create_basic_structure] hold a
    README.md and are judged fallback-quality by [_is_fallback_code]. *)
Theorem basic_structure_is_fallback_quality :
  forall (analysis : Analysis) (tree : Tree),
    Dict.mem "README.md" (_create_basic_structure analysis) = true
    /\ _is_fallback_code {| files := _create_basic_structure analysis;
                            structure := tree |} = true.
Proof.
  intros analysis tree. unfold _create_basic_structure.
  destruct (String.eqb (language analysis) "python");
    [split; vm_compute; reflexivity|].
  destruct (is_node_language (language analysis));
    [split; vm_compute; reflexivity|].
  generalize (language analysis). intros lang.
  split; vm_compute; reflexivity.
Qed.

(** ** More on the fallback synthesizer *)

Lemma truthy_join_cons (sep x : string) (l : list string) :
  truthy x = true -> truthy (join sep (x :: l)) = true.
Proof.
  intros H. destruct x as [|c x]; [discriminate|].
  destruct l; reflexivity.
Qed.

Lemma truthy_app_l (a b : string) : truthy a = true -> truthy (a ++ b) = true.
Proof. destruct a; [discriminate|reflexivity]. Qed.

Lemma python_code_nonempty (query requirements : string) (framework : option string) :
  truthy (_generate_python_code query requirements framework) = true.
Proof.
  unfold _generate_python_code.
  match goal with
  | |- context [is_nonempty ?imports] => destruct (is_nonempty imports)
  end;
    destruct (framework_is framework "fastapi"), (framework_is framework "flask");
    cbn [app]; apply truthy_join_cons; reflexivity.
Qed.

Lemma js_code_nonempty (query requirements : string) (framework : option string)
  (ext : string) :
  truthy (_generate_js_code query requirements framework ext) = true.
Proof.
  unfold _generate_js_code.
  destruct (String.eqb ext "ts"), (framework_is framework "react"),
    (framework_is framework "express" || contains "api" (lower query));
    cbn [app]; apply truthy_join_cons; reflexivity.
Qed.

Lemma dependencies_nonempty (requirements language : string) (framework : option string) :
  truthy (_generate_dependencies requirements language framework) = true.
Proof.
  unfold _generate_dependencies.
  destruct (String.eqb language "python"); [|reflexivity].
  destruct (framework_is framework "fastapi"), (framework_is framework "flask"),
    (any_in ["database"; "sql"] (lower requirements)),
    (any_in ["csv"; "data"] (lower requirements)); reflexivity.
Qed.

Lemma readme_nonempty (query requirements language : string) (framework : option string) :
  truthy (_generate_readme query requirements language framework) = true.
Proof.
  unfold _generate_readme.
  destruct (String.eqb language "python"); [|destruct (is_node_language language)];
    repeat apply truthy_app_l; reflexivity.
Qed.

(** X9. The fallback synthesizer never produces an empty file: every
    content of its files mapping is a non-empty string, for every query and
    analysis. *)
Theorem fallback_files_are_nonempty :
  forall (query : string) (analysis : Analysis) (path content : string),
    Dict.get path (fallback_files query analysis) = Some content ->
    truthy content = true.
Proof.
  intros query analysis path content. unfold fallback_files.
  rewrite dict_get_set. destruct (String.eqb path "README.md").
  { intros H. inversion H. apply readme_nonempty. }
  destruct (String.eqb (language analysis) "python").
  { rewrite !dict_get_set.
    destruct (String.eqb path "requirements.txt").
    { intros H. inversion H. apply dependencies_nonempty. }
    destruct (String.eqb path "main.py"); [|discriminate].
    intros H. inversion H. apply python_code_nonempty. }
  destruct (is_node_language (language analysis)).
  { rewrite !dict_get_set.
    destruct (String.eqb path "package.json").
    { intros H. inversion H. reflexivity. }
    destruct (String.eqb path _); [|discriminate].
    intros H. inversion H. apply js_code_nonempty. }
  rewrite dict_get_set. destruct (String.eqb path _); [|discriminate].
  intros H. inversion H. reflexivity.
Qed.

Lemma fallback_files_are_nonempty_witness :
  exists content,
    Dict.get "requirements.txt"
      (fallback_files "build a tool" (_analyze_query "build a tool")) = Some content
    /\ truthy content = true.
Proof.
  eexists. split; [vm_compute; reflexivity|].
  apply (fallback_files_are_nonempty "build a tool" (_analyze_query "build a tool")
           "requirements.txt").
  vm_compute. reflexivity.
Defined.

(** ** Splitting and joining lines *)

Lemma split_no_sep (sep : ascii) (s : string) :
  has_char sep s = false -> split sep s = [s].
Proof.
  induction s as [|c s IH]; simpl; [reflexivity|].
  intros H. apply orb_false_iff in H. destruct H as [Hc Hs].
  rewrite Hc, (IH Hs). reflexivity.
Qed.

Lemma split_app_sep (sep : ascii) (a b : string) :
  has_char sep a = false ->
  split sep (a ++ String sep b) = a :: split sep b.
Proof.
  induction a as [|c a IH]; simpl.
  - intros _. now rewrite Ascii.eqb_refl.
  - intros H. apply orb_false_iff in H. destruct H as [Hc Ha].
    rewrite Hc, (IH Ha). reflexivity.
Qed.

Lemma join_cons_char (sep : string) (c : ascii) (h : string) (t : list string) :
  join sep (String c h :: t) = String c (join sep (h :: t)).
Proof. destruct t; reflexivity. Qed.

Lemma join_split (sep : ascii) (s : string) :
  join (String sep "") (split sep s) = s.
Proof.
  induction s as [|c s IH]; [reflexivity|].
  cbn [split]. pose proof (split_nonempty sep s) as Hn.
  destruct (split sep s) as [|h t] eqn:Hs; [congruence|].
  destruct (Ascii.eqb c sep) eqn:E.
  - apply Ascii.eqb_eq in E. subst c.
    change (join (String sep "") ("" :: h :: t))
      with (String sep (join (String sep "") (h :: t))).
    now rewrite IH.
  - now rewrite join_cons_char, IH.
Qed.

Lemma split_join (sep : ascii) (l : list string) :
  l <> [] ->
  forallb (fun x => negb (has_char sep x)) l = true ->
  split sep (join (String sep "") l) = l.
Proof.
  induction l as [|x l IH]; [congruence|]. intros _ H.
  cbn [forallb] in H. apply andb_true_iff in H. destruct H as [Hx Hl].
  apply negb_true_iff in Hx.
  destruct l as [|y l].
  - cbn [join]. now apply split_no_sep.
  - change (join (String sep "") (x :: y :: l))
      with (x ++ String sep (join (String sep "") (y :: l))).
    rewrite split_app_sep by exact Hx.
    rewrite IH; [reflexivity|discriminate|exact Hl].
Qed.

Lemma forallb_concat {A : Type} (p : A -> bool) (ls : list (list A)) :
  forallb (forallb p) ls = true -> forallb p (concat ls) = true.
Proof.
  induction ls as [|l ls IH]; simpl; [reflexivity|].
  intros H. apply andb_true_iff in H. destruct H as [H1 H2].
  rewrite forallb_app, H1. now apply IH.
Qed.

Lemma length_concat_le {A : Type} (ls : list (list A)) :
  forallb (fun l => Nat.leb (List.length l) 1) ls = true ->
  List.length (concat ls) <= List.length ls.
Proof.
  induction ls as [|l ls IH]; simpl; [lia|].
  intros H. apply andb_true_iff in H. destruct H as [H1 H2].
  apply Nat.leb_le in H1. rewrite length_app. specialize (IH H2). lia.
Qed.

(** X10. The requirement bullets are never empty: for every query the text
    has between one and nine lines, each of which starts with "- ". *)
Theorem requirements_are_bullets :
  forall query : string,
    truthy (_extract_requirements query) = true
    /\ forallb (startswith "- ") (splitlines_nl (_extract_requirements query)) = true
    /\ 1 <= List.length (splitlines_nl (_extract_requirements query)) <= 9.
Proof.
  intros query. unfold _extract_requirements.
  generalize (lower query). intros ql.
  match goal with
  | |- context [concat ?groups] => set (gs := groups)
  end.
  assert (Hb : forallb (forallb is_bullet) gs = true).
  { subst gs. apply forallb_forall. intros g Hg. cbn [In] in Hg.
    repeat (destruct Hg as [Hg|Hg];
            [subst g;
             match goal with
             | |- context [any_in ?k ql] => destruct (any_in k ql)
             end; reflexivity|]).
    destruct Hg. }
  assert (Hl : forallb (fun l => Nat.leb (List.length l) 1) gs = true).
  { subst gs. apply forallb_forall. intros g Hg. cbn [In] in Hg.
    repeat (destruct Hg as [Hg|Hg];
            [subst g;
             match goal with
             | |- context [any_in ?k ql] => destruct (any_in k ql)
             end; reflexivity|]).
    destruct Hg. }
  apply forallb_concat in Hb. apply length_concat_le in Hl.
  change (List.length gs) with 9 in Hl.
  set (requirements :=
         if negb (is_nonempty (concat gs))
         then ["- Implement the functionality described in the user's request"]
         else concat gs).
  assert (H : forallb is_bullet requirements = true
              /\ 1 <= List.length requirements <= 9).
  { subst requirements. destruct (concat gs) as [|x l].
    - split; [reflexivity|simpl; lia].
    - split; [exact Hb|simpl in *; lia]. }
  destruct H as [Hok Hlen].
  assert (Hsplit : splitlines_nl (join nl requirements) = requirements).
  { apply (split_join (ascii_of_nat 10)).
    - destruct requirements; [simpl in Hlen; lia|discriminate].
    - rewrite forallb_forall in Hok. apply forallb_forall. intros x Hx.
      specialize (Hok x Hx). unfold is_bullet in Hok.
      now apply andb_true_iff in Hok. }
  rewrite Hsplit. split; [|split; [|exact Hlen]].
  - destruct requirements as [|x l]; [simpl in Hlen; lia|].
    apply truthy_join_cons. cbn [forallb] in Hok.
    apply andb_true_iff in Hok. destruct Hok as [Hx _].
    unfold is_bullet in Hx. apply andb_true_iff in Hx. destruct Hx as [Hx _].
    destruct x; [discriminate|reflexivity].
  - rewrite forallb_forall in Hok. apply forallb_forall. intros x Hx.
    specialize (Hok x Hx). unfold is_bullet in Hok.
    now apply andb_true_iff in Hok.
Qed.

(** ** More on the response parser *)

Lemma dict_set_keys {V : Type} (k k' : string) (v : V) (d : Dict.t V) :
  In k' (Dict.keys (Dict.set k v d)) <-> k' = k \/ In k' (Dict.keys d).
Proof.
  induction d as [|[k0 v0] d IH]; simpl.
  - split; [intros [E|[]]; now left|intros [E|[]]; now left].
  - destruct (String.eqb k k0) eqn:E; simpl.
    + apply String.eqb_eq in E. subst k0. split.
      * intros [H|H]; [now left|right; now right].
      * intros [H|[H|H]]; [now left|now left|now right].
    + rewrite IH. split.
      * intros [H|[H|H]]; [right; now left|now left|right; now right].
      * intros [H|[H|H]]; [right; now left|now left|right; now right].
Qed.

Lemma dict_set_nonempty {V : Type} (k : string) (v : V) (d : Dict.t V) :
  Dict.set k v d <> [].
Proof.
  destruct d as [|[k0 v0] d]; simpl; [discriminate|].
  destruct (String.eqb k k0); discriminate.
Qed.

Lemma parse_shape (content : string) (analysis : Analysis) (c : Codebase) :
  _parse_codebase_response content analysis = Ok c ->
  c = empty_codebase
  \/ (files c <> []
      /\ existsb is_readme (Dict.keys (files c)) = true
      /\ _build_structure_tree (files c) = Ok (structure c)).
Proof.
  unfold _parse_codebase_response.
  set (found := if negb (is_nonempty (scan_response content))
                then _parse_alternative_format content analysis
                else scan_response content).
  destruct (is_nonempty found) eqn:Hn; cbn [negb].
  - destruct (existsb is_readme (Dict.keys found)) eqn:Hr; cbn [negb].
    + destruct (_build_structure_tree found) as [t|e] eqn:Hb; [|discriminate].
      cbn [rbind]. intros H. inversion H; subst c. right. cbn [files structure].
      split; [destruct found; [discriminate|discriminate]|]. now split.
    + set (withreadme := Dict.set "README.md" _ found).
      destruct (_build_structure_tree withreadme) as [t|e] eqn:Hb; [|discriminate].
      cbn [rbind]. intros H. inversion H; subst c. right. cbn [files structure].
      split; [apply dict_set_nonempty|]. split; [|exact Hb].
      apply existsb_exists. exists "README.md".
      split; [apply dict_set_keys; now left|reflexivity].
  - intros H. inversion H. now left.
Qed.

(** X11. A result of the parser is either the empty hand-off (no files, an
    empty structure) or has files among which one is a README (a key that
    ends, case-insensitively, with "readme.md"), with the structure being
    the tree built from exactly those files. *)
Theorem parser_result_has_readme :
  forall (content : string) (analysis : Analysis) (c : Codebase),
    _parse_codebase_response content analysis = Ok c ->
    c = empty_codebase
    \/ (files c <> []
        /\ existsb is_readme (Dict.keys (files c)) = true
        /\ _build_structure_tree (files c) = Ok (structure c)).
Proof. exact parse_shape. Qed.

Lemma parser_result_has_readme_witness :
  exists c, _parse_codebase_response two_python_blocks (_analyze_query "build it") = Ok c
            /\ Dict.keys (files c) = ["main.py"; "README.md"].
Proof.
  destruct (_parse_codebase_response two_python_blocks (_analyze_query "build it"))
    as [c|e] eqn:E; [|vm_compute in E; discriminate E].
  exists c. split; [reflexivity|].
  destruct (parser_result_has_readme _ _ _ E) as [H|(_ & _ & _)];
    vm_compute in E; inversion E; reflexivity.
Defined.

Lemma all_space_lstrip (s : string) : all_space s = true -> lstrip s = "".
Proof.
  induction s as [|c s IH]; simpl; [reflexivity|].
  intros H. apply andb_true_iff in H. destruct H as [Hc Hs].
  rewrite Hc. now apply IH.
Qed.

Lemma all_space_strip (s : string) : all_space s = true -> strip s = "".
Proof. intros H. unfold strip. now rewrite all_space_lstrip. Qed.

Lemma all_space_split (sep : ascii) (s : string) :
  all_space s = true -> forallb all_space (split sep s) = true.
Proof.
  induction s as [|c s IH]; simpl; [reflexivity|].
  intros H. apply andb_true_iff in H. destruct H as [Hc Hs]. specialize (IH Hs).
  destruct (Ascii.eqb c sep); [exact IH|].
  destruct (split sep s) as [|h t]; simpl.
  - now rewrite Hc.
  - simpl in IH. apply andb_true_iff in IH. destruct IH as [Hh Ht].
    now rewrite Hc, Hh, Ht.
Qed.

Lemma scan_step_blank (st : ParseState) (line : string) :
  strip line = "" ->
  truthy_opt (current_file st) = false ->
  scan_step st line = st.
Proof.
  intros Hl Hc. unfold scan_step, is_marker, is_fence.
  rewrite Hl, Hc. reflexivity.
Qed.

Lemma scan_loop_blank (lines : list string) (st : ParseState) :
  forallb all_space lines = true ->
  truthy_opt (current_file st) = false ->
  scan_loop lines st = st.
Proof.
  induction lines as [|line lines IH]; intros H Hc; [reflexivity|].
  simpl in H. apply andb_true_iff in H. destruct H as [Hl Hr].
  cbn [scan_loop fold_left]. rewrite scan_step_blank;
    [now apply IH|now apply all_space_strip|exact Hc].
Qed.

Lemma all_space_no_fence (s : string) :
  all_space s = true -> startswith "```" s = false.
Proof.
  destruct s as [|c s]; [reflexivity|]. cbn [startswith all_space].
  intros H. apply andb_true_iff in H. destruct H as [Hc _].
  destruct (Ascii.eqb "`" c) eqn:E; [|reflexivity].
  apply Ascii.eqb_eq in E. subst c. discriminate Hc.
Qed.

Lemma all_space_find_fence (s : string) :
  all_space s = true -> find_fence s = None.
Proof.
  induction s as [|c s IH]; [reflexivity|]. intros H.
  cbn [find_fence]. rewrite (all_space_no_fence _ H).
  cbn [all_space] in H. apply andb_true_iff in H. destruct H as [_ Hs].
  now rewrite (IH Hs).
Qed.

Lemma all_space_findall (fuel : nat) :
  forall s, all_space s = true -> findall_blocks fuel s = [].
Proof.
  induction fuel as [|fuel IH]; intros s H; [reflexivity|].
  destruct s as [|c s]; [reflexivity|].
  cbn [findall_blocks]. unfold match_block. rewrite (all_space_no_fence _ H).
  cbn [all_space] in H. apply andb_true_iff in H. destruct H as [_ Hs]. now apply IH.
Qed.

Lemma all_space_split_fenced (fuel : nat) (s : string) :
  all_space s = true -> split_fenced fuel s = [s].
Proof.
  intros H. destruct fuel; [reflexivity|].
  cbn [split_fenced]. now rewrite (all_space_find_fence _ H).
Qed.

Lemma blank_reply_parse :
  forall (content : string) (analysis : Analysis),
    all_space content = true ->
    scan_response content = []
    /\ _parse_alternative_format content analysis = []
    /\ _parse_codebase_response content analysis = Ok empty_codebase.
Proof.
  intros content analysis H.
  assert (Hs : scan_response content = []).
  { unfold scan_response, splitlines_nl.
    rewrite scan_loop_blank; [reflexivity|now apply all_space_split|reflexivity]. }
  assert (Ha : _parse_alternative_format content analysis = []).
  { unfold _parse_alternative_format.
    rewrite all_space_findall, all_space_split_fenced by exact H.
    cbn [filter map]. rewrite (all_space_strip _ H). reflexivity. }
  split; [exact Hs|]. split; [exact Ha|].
  unfold _parse_codebase_response. rewrite Hs. cbn [is_nonempty negb].
  rewrite Ha. reflexivity.
Qed.

(** X12. A reply made of whitespace only (the empty reply included) yields
    the empty hand-off: the scanner finds no file, the alternative format
    finds neither a block nor text worth a README, and the parser returns no
    files and an empty structure, for every analysis. *)
Theorem blank_reply_yields_no_files :
  forall (content : string) (analysis : Analysis),
    all_space content = true ->
    scan_response content = []
    /\ _parse_alternative_format content analysis = []
    /\ _parse_codebase_response content analysis = Ok empty_codebase.
Proof. exact blank_reply_parse. Qed.

Lemma blank_reply_yields_no_files_witness :
  _parse_codebase_response ("  " ++ nl ++ nl ++ " ") (_analyze_query "build it")
  = Ok empty_codebase.
Proof.
  apply (blank_reply_yields_no_files ("  " ++ nl ++ nl ++ " ")
           (_analyze_query "build it")).
  reflexivity.
Defined.

(** The file target after one turn of the loop. *)
Lemma scan_step_target (st : ParseState) (line : string) :
  current_file (scan_step st line) = current_file st
  \/ current_file (scan_step st line) = None
  \/ (is_marker line = true
      /\ current_file (scan_step st line) = Some (strip (replace "FILE:" "" line)))
  \/ (is_fence line = true
      /\ current_file (scan_step st line)
         = Some ("main." ++ get_default (lower (strip (drop 3 (strip line))))
                              "txt" ext_map)).
Proof.
  unfold scan_step.
  destruct (is_marker line) eqn:Hm; [right; right; left; now split|].
  destruct (is_fence line) eqn:Hf.
  { destruct (negb (in_code_block st)).
    - cbn [current_file].
      destruct (truthy_opt (current_file st)) eqn:Ht.
      + destruct (negb (is_nonempty (current_content st))); now left.
      + cbn [andb negb]. destruct (truthy (strip (drop 3 (strip line)))); [|now left].
        right. right. right. split; [reflexivity|].
        now rewrite inferred_name_without_target.
    - destruct (current_file st) as [f|]; [|now left].
      destruct (truthy f); [right|]; now left. }
  destruct (truthy_opt (current_file st)); [now left|].
  destruct (truthy (strip line) && negb (startswith "```" line)
            && negb (in_code_block st)); [|now left].
  destruct (negb (existsb readme_like (Dict.keys (st_files st)))); now left.
Qed.

(** The keys after one turn of the loop. *)
Lemma scan_step_keys (st : ParseState) (line k : string) :
  In k (Dict.keys (st_files (scan_step st line))) ->
  In k (Dict.keys (st_files st))
  \/ (current_file st = Some k /\ truthy k = true)
  \/ k = "README.md".
Proof.
  unfold scan_step. intros H.
  destruct (is_marker line).
  { cbn [st_files] in H. destruct (current_file st) as [f|]; [|now left].
    destruct (truthy f) eqn:Ht; [|now left].
    apply dict_set_keys in H. destruct H as [E|H]; [|now left].
    subst k. right. left. now split. }
  destruct (is_fence line).
  { destruct (negb (in_code_block st)); [now left|].
    destruct (current_file st) as [f|]; [|now left].
    destruct (truthy f) eqn:Ht; [|now left].
    cbn [st_files] in H.
    destruct (is_nonempty (current_content st)); [|now left].
    apply dict_set_keys in H. destruct H as [E|H]; [|now left].
    subst k. right. left. now split. }
  destruct (truthy_opt (current_file st)); [now left|].
  destruct (truthy (strip line) && negb (startswith "```" line)
            && negb (in_code_block st)); [|now left].
  destruct (negb (existsb readme_like (Dict.keys (st_files st)))); [|now left].
  cbn [st_files] in H.
  destruct (Dict.get "README.md" (st_files st));
    apply dict_set_keys in H; destruct H as [E|H];
    try (right; right; exact E); now left.
Qed.

Lemma key_origin_more (seen more : list string) (k : string) :
  key_origin seen k -> key_origin (app seen more) k.
Proof.
  intros [H|[(line & Hin & H)|(line & Hin & H)]].
  - now left.
  - right. left. exists line. split; [apply in_or_app; now left|exact H].
  - right. right. exists line. split; [apply in_or_app; now left|exact H].
Qed.

Lemma scan_step_keys_invariant (seen : list string) (st : ParseState) (line : string) :
  keys_invariant seen st -> keys_invariant (app seen [line]) (scan_step st line).
Proof.
  intros [Ht Hk]. split.
  - intros f Hf.
    destruct (scan_step_target st line) as [E|[E|[[Hm E]|[Hm E]]]];
      rewrite E in Hf.
    + apply key_origin_more. now apply Ht.
    + discriminate.
    + inversion Hf; subst f. right. left. exists line.
      split; [apply in_or_app; right; now left|now split].
    + inversion Hf; subst f. right. right. exists line.
      split; [apply in_or_app; right; now left|now split].
  - intros k H. destruct (scan_step_keys st line k H) as [Hold|[[Hc Htr]|E]].
    + destruct (Hk k Hold) as [H1 H2]. split; [exact H1|now apply key_origin_more].
    + split; [exact Htr|]. apply key_origin_more. now apply Ht.
    + subst k. split; [reflexivity|now left].
Qed.

Lemma scan_loop_keys_invariant (lines : list string) :
  forall seen st,
    keys_invariant seen st -> keys_invariant (app seen lines) (scan_loop lines st).
Proof.
  induction lines as [|line lines IH]; intros seen st H; simpl.
  - now rewrite app_nil_r.
  - change (app seen (line :: lines)) with (app seen (app [line] lines)).
    rewrite app_assoc. apply IH. now apply scan_step_keys_invariant.
Qed.

(** X13. Every key of the files the scanner finds is a non-empty name, and
    it is the implicit README.md, the stripped text after "FILE:" of a marker
    line of the reply, or the name inferred at a fence line of the reply,
    which is always main.<ext>: the scanner never stores a file under the
    empty name and never infers any other name. *)
Theorem scanner_keys_origin :
  forall (content k : string),
    In k (Dict.keys (scan_response content)) ->
    truthy k = true /\ key_origin (splitlines_nl content) k.
Proof.
  intros content k. unfold scan_response, save_last.
  destruct (scan_loop_keys_invariant (splitlines_nl content) [] initial_state)
    as [Ht Hk].
  { split; [discriminate|intros k0 []]. }
  simpl app in Ht, Hk.
  set (st := scan_loop (splitlines_nl content) initial_state) in *.
  destruct (current_file st) as [f|] eqn:Hf; [|apply Hk].
  destruct (truthy f) eqn:Htr; cbn [andb]; [|apply Hk].
  destruct (is_nonempty (current_content st)); [|apply Hk].
  intros H. apply dict_set_keys in H. destruct H as [E|H]; [|now apply Hk].
  subst k. split; [exact Htr|now apply Ht].
Qed.

Lemma scanner_keys_origin_witness :
  truthy "main.js" = true /\ key_origin (splitlines_nl python_then_js_blocks) "main.js".
Proof.
  apply (scanner_keys_origin python_then_js_blocks "main.js").
  vm_compute. right. now left.
Defined.

Lemma split_lines_no_sep (sep : ascii) (s : string) :
  forallb (fun x => negb (has_char sep x)) (split sep s) = true.
Proof.
  induction s as [|c s IH]; [reflexivity|]. cbn [split].
  destruct (Ascii.eqb c sep) eqn:E; [exact IH|].
  destruct (split sep s) as [|h t]; cbn [forallb has_char] in *.
  - now rewrite E.
  - now rewrite E.
Qed.

(** The lines of two strings put end to end: the last line of the first
    runs into the first line of the second. *)
Lemma split_app (sep : ascii) (a b : string) :
  split sep (a ++ b)
  = app (removelast (split sep a))
        ((last (split sep a) "" ++ hd "" (split sep b)) :: tl (split sep b)).
Proof.
  induction a as [|c a IH].
  - cbn [append]. pose proof (split_nonempty sep b) as Hn.
    destruct (split sep b); [congruence|reflexivity].
  - cbn [append split]. rewrite IH.
    pose proof (split_nonempty sep a) as Hn.
    destruct (split sep a) as [|h t]; [congruence|].
    destruct (Ascii.eqb c sep); destruct t; reflexivity.
Qed.

Lemma forallb_last {A : Type} (p : A -> bool) (l : list A) (d : A) :
  p d = true -> forallb p l = true -> p (last l d) = true.
Proof.
  intros Hd. induction l as [|x l IH]; [intros _; exact Hd|].
  intros H. cbn [forallb] in H. apply andb_true_iff in H. destruct H as [Hx Hl].
  destruct l; [exact Hx|]. now apply IH.
Qed.

Lemma all_space_rstrip (s : string) : all_space s = true -> rstrip s = "".
Proof.
  induction s as [|c s IH]; [reflexivity|]. cbn [all_space rstrip].
  intros H. apply andb_true_iff in H. destruct H as [Hc Hs].
  now rewrite (IH Hs), Hc.
Qed.

Lemma rstrip_app_space (s w : string) :
  all_space w = true -> rstrip (s ++ w) = rstrip s.
Proof.
  intros Hw. induction s as [|c s IH]; [now apply all_space_rstrip|].
  cbn [append rstrip]. now rewrite IH.
Qed.

Lemma strip_app_space_r (s w : string) :
  all_space w = true -> strip (s ++ w) = strip s.
Proof.
  intros Hw. unfold strip. induction s as [|c s IH].
  - cbn [append lstrip]. rewrite all_space_lstrip by exact Hw. reflexivity.
  - cbn [append lstrip]. destruct (isspace c); [exact IH|].
    now apply (rstrip_app_space (String c s)).
Qed.

Lemma strip_app_space_l (w s : string) :
  all_space w = true -> strip (w ++ s) = strip s.
Proof.
  unfold strip. induction w as [|c w IH]; [reflexivity|].
  cbn [all_space append lstrip]. intros H.
  apply andb_true_iff in H. destruct H as [Hc Hw]. rewrite Hc. now apply IH.
Qed.

Lemma is_plain_app_space_r (s w : string) :
  all_space w = true -> is_plain (s ++ w) = is_plain s.
Proof.
  intros Hw. unfold is_plain, is_marker, is_fence.
  now rewrite strip_app_space_r.
Qed.

Lemma is_plain_app_space_l (w s : string) :
  all_space w = true -> is_plain (w ++ s) = is_plain s.
Proof.
  intros Hw. unfold is_plain, is_marker, is_fence.
  now rewrite strip_app_space_l.
Qed.

(** Whitespace put before or after a text does not hide a marker or a fence
    line of it. *)
Lemma plain_lines_without_prefix (w s : string) :
  all_space w = true ->
  forallb is_plain (splitlines_nl (w ++ s)) = true ->
  forallb is_plain (splitlines_nl s) = true.
Proof.
  unfold splitlines_nl. intros Hw H. rewrite split_app, forallb_app in H.
  apply andb_true_iff in H. destruct H as [_ H].
  cbn [forallb] in H. apply andb_true_iff in H. destruct H as [Hh Ht].
  rewrite is_plain_app_space_l in Hh
    by (apply forallb_last; [reflexivity|now apply all_space_split]).
  pose proof (split_nonempty (ascii_of_nat 10) s) as Hn.
  destruct (split (ascii_of_nat 10) s) as [|h t]; [congruence|].
  cbn [hd tl forallb] in *. now rewrite Hh, Ht.
Qed.

Lemma plain_lines_without_suffix (s w : string) :
  all_space w = true ->
  forallb is_plain (splitlines_nl (s ++ w)) = true ->
  forallb is_plain (splitlines_nl s) = true.
Proof.
  unfold splitlines_nl. intros Hw H. rewrite split_app, forallb_app in H.
  apply andb_true_iff in H. destruct H as [Hr H].
  cbn [forallb] in H. apply andb_true_iff in H. destruct H as [Hl _].
  rewrite is_plain_app_space_r in Hl.
  2:{ pose proof (all_space_split (ascii_of_nat 10) w Hw) as Ha.
      destruct (split (ascii_of_nat 10) w) as [|h t]; [reflexivity|].
      cbn [forallb hd] in *. apply andb_true_iff in Ha. now destruct Ha. }
  rewrite (app_removelast_last "" (split_nonempty (ascii_of_nat 10) s)).
  rewrite forallb_app, Hr. cbn [forallb]. now rewrite Hl.
Qed.

Lemma plain_lines_strip (s : string) :
  forallb is_plain (splitlines_nl s) = true ->
  forallb is_plain (splitlines_nl (strip s)) = true.
Proof.
  destruct (strip_decompose s) as (pre & post & E & Hpre & Hpost).
  generalize dependent (strip s). intros t E H. subst s.
  apply (plain_lines_without_suffix t post Hpost).
  now apply (plain_lines_without_prefix pre (t ++ post) Hpre).
Qed.

(** X14. Marker lines and fence lines never get into a file: no line of a
    content the scanner stores is a marker line or a fence line. *)
Theorem delimiters_never_stored :
  forall (content path stored : string),
    Dict.get path (scan_response content) = Some stored ->
    forallb is_plain (splitlines_nl stored) = true.
Proof.
  intros content path stored H.
  pose proof (split_lines_no_sep (ascii_of_nat 10) content) as Hnl.
  fold (splitlines_nl content) in Hnl.
  destruct (scan_response_entries content path stored H)
    as [(_ & Hin & Hp & _)|(before & opener & seg & after & E & _ & _ & _ & Ev)].
  - rewrite forallb_forall in Hnl. specialize (Hnl stored Hin).
    apply negb_true_iff in Hnl. unfold splitlines_nl.
    rewrite split_no_sep by exact Hnl. cbn [forallb]. now rewrite Hp.
  - subst stored. unfold committed_text. apply plain_lines_strip.
    assert (Hseg : forallb (fun x => negb (has_char (ascii_of_nat 10) x))
                     (filter is_plain seg) = true).
    { apply forallb_forall. intros x Hx. apply filter_In in Hx.
      rewrite forallb_forall in Hnl. apply Hnl. rewrite E.
      apply in_or_app. right. right. apply in_or_app. left. apply Hx. }
    assert (Hplain : forallb is_plain (filter is_plain seg) = true).
    { apply forallb_forall. intros x Hx. apply filter_In in Hx. apply Hx. }
    destruct (filter is_plain seg) as [|x acc] eqn:Ef; [reflexivity|].
    unfold splitlines_nl, nl. rewrite split_join; [exact Hplain|discriminate|exact Hseg].
Qed.

Lemma delimiters_never_stored_witness :
  forallb is_plain (splitlines_nl "print(2)") = true.
Proof.
  apply (delimiters_never_stored two_python_blocks "main.py" "print(2)").
  vm_compute. reflexivity.
Defined.

Lemma marker_line (path : string) : is_marker ("FILE: " ++ path) = true.
Proof.
  unfold is_marker, strip.
  change (lstrip ("FILE: " ++ path)) with ("FILE: " ++ path).
  change ("FILE: " ++ path)
    with (String "F" (String "I" (String "L" (String "E" (String ":" (" " ++ path)))))).
  rewrite !rstrip_cons by reflexivity. reflexivity.
Qed.

Lemma marker_target (path : string) :
  strip path = path ->
  replace "FILE:" "" path = path ->
  strip (replace "FILE:" "" ("FILE: " ++ path)) = path.
Proof.
  intros Hs Hr.
  change (replace "FILE:" "" ("FILE: " ++ path))
    with (String " " (replace "FILE:" "" path)).
  rewrite Hr. exact Hs.
Qed.

Lemma scan_loop_cons (line : string) (lines : list string) (st : ParseState) :
  scan_loop (line :: lines) st = scan_loop lines (scan_step st line).
Proof. reflexivity. Qed.

Lemma scan_step_appends (files : Dict.t string) (f : string)
  (accumulated : list string) (block : bool) (lang : option string) (line : string) :
  truthy f = true ->
  is_plain line = true ->
  scan_step {| st_files := files; current_file := Some f;
               current_content := accumulated;
               in_code_block := block; code_block_lang := lang |} line
  = {| st_files := files; current_file := Some f;
       current_content := app accumulated [line];
       in_code_block := block; code_block_lang := lang |}.
Proof.
  intros Hf Hl. unfold is_plain in Hl. apply andb_true_iff in Hl.
  destruct Hl as [Hm Hfence]. apply negb_true_iff in Hm, Hfence.
  unfold scan_step. rewrite Hm, Hfence. cbn [current_file truthy_opt].
  now rewrite Hf.
Qed.

Lemma scan_loop_accumulates (lines : list string) :
  forall files f accumulated block lang,
    truthy f = true ->
    forallb is_plain lines = true ->
    scan_loop lines
      {| st_files := files; current_file := Some f; current_content := accumulated;
         in_code_block := block; code_block_lang := lang |}
    = {| st_files := files; current_file := Some f;
         current_content := app accumulated lines;
         in_code_block := block; code_block_lang := lang |}.
Proof.
  induction lines as [|line lines IH]; intros files f acc block lang Hf Hp.
  - unfold scan_loop. cbn [fold_left]. now rewrite app_nil_r.
  - cbn [forallb] in Hp. apply andb_true_iff in Hp. destruct Hp as [Hl Hr].
    rewrite scan_loop_cons, (scan_step_appends _ _ _ _ _ _ Hf Hl).
    rewrite (IH files f (app acc [line]) block lang Hf Hr).
    now rewrite <- app_assoc.
Qed.

Lemma scan_step_first_marker (path : string) :
  scan_step initial_state ("FILE: " ++ path)
  = {| st_files := [];
       current_file := Some (strip (replace "FILE:" "" ("FILE: " ++ path)));
       current_content := []; in_code_block := false; code_block_lang := None |}.
Proof. unfold scan_step. now rewrite marker_line. Qed.

(** X15. A reply made of one marker line and a body round-trips: when the
    path is non-empty, carries no surrounding whitespace, no newline and no
    "FILE:" of its own, and no line of the body is a marker or a fence, the
    scanner finds exactly one file, under that path, whose content is the
    body stripped. *)
Theorem single_file_round_trip :
  forall (path body : string),
    truthy path = true ->
    strip path = path ->
    has_char (ascii_of_nat 10) path = false ->
    replace "FILE:" "" path = path ->
    forallb is_plain (splitlines_nl body) = true ->
    scan_response ("FILE: " ++ path ++ nl ++ body) = [(path, strip body)].
Proof.
  intros path body Ht Hs Hn Hr Hp.
  unfold scan_response. unfold splitlines_nl at 1.
  change ("FILE: " ++ path ++ nl ++ body)
    with (("FILE: " ++ path) ++ String (ascii_of_nat 10) body).
  rewrite split_app_sep by exact Hn.
  rewrite scan_loop_cons, scan_step_first_marker, (marker_target path Hs Hr).
  change (split (ascii_of_nat 10) body) with (splitlines_nl body).
  rewrite (scan_loop_accumulates _ [] path [] false None Ht Hp).
  unfold save_last. cbn [current_file current_content st_files app]. rewrite Ht.
  pose proof (split_nonempty (ascii_of_nat 10) body) as Hne.
  unfold splitlines_nl.
  destruct (split (ascii_of_nat 10) body) as [|l ls] eqn:E; [congruence|].
  cbn [is_nonempty andb Dict.set]. unfold committed_text.
  rewrite <- E. change nl with (String (ascii_of_nat 10) "").
  now rewrite join_split.
Qed.

Lemma single_file_round_trip_witness :
  scan_response ("FILE: src/app.py" ++ nl ++ nl ++ "def run():" ++ nl
                 ++ "    return 1" ++ nl)
  = [("src/app.py", "def run():" ++ nl ++ "    return 1")].
Proof.
  apply (single_file_round_trip "src/app.py"
           (nl ++ "def run():" ++ nl ++ "    return 1" ++ nl));
    vm_compute; reflexivity.
Defined.

(** ** The orchestrator *)

Lemma check_finish (query : string) (analysis : Analysis) (answer : result string)
  (fb : Codebase) (world : World) (log : Log) :
  enhanced_fallback query analysis = Ok fb ->
  match finish query analysis true answer with
  | Ok a => check_result query analysis a world log
  | Raise e => (Raise e, log)
  end = (Ok (chosen_codebase analysis answer fb), log).
Proof.
  intros Hfb. unfold finish, chosen_codebase, check_result.
  destruct answer as [reply|e].
  - destruct (_parse_codebase_response reply analysis) as [parsed|e].
    + destruct (negb (is_nonempty (files parsed)) || _is_fallback_code parsed).
      * now rewrite fallback_run, Hfb.
      * reflexivity.
    + rewrite Hfb.
      destruct (negb (is_nonempty (files fb)) || _is_fallback_code fb);
        [now rewrite fallback_run, Hfb|reflexivity].
  - rewrite Hfb.
    destruct (negb (is_nonempty (files fb)) || _is_fallback_code fb);
      [now rewrite fallback_run, Hfb|reflexivity].
Qed.

Lemma generate_codebase_run (self : SimpleAgent) (query : string)
  (analysis : Analysis) (world : World) (log : Log) (fb : Codebase) :
  enhanced_fallback query analysis = Ok fb ->
  _generate_codebase self query analysis world log
  = (Ok (chosen_codebase analysis (selected_answer self world) fb),
     log_after self log).
Proof.
  intros Hfb.
  unfold _generate_codebase, selected_answer, log_after, selected_provider.
  destruct (use_openai self).
  { unfold bind. rewrite openai_run. now apply check_finish. }
  destruct (use_anthropic self).
  { unfold bind. rewrite anthropic_run. now apply check_finish. }
  destruct (use_gemini self).
  { unfold bind. rewrite gemini_run. now apply check_finish. }
  now rewrite fallback_run, Hfb.
Qed.

Lemma generate_text_run (self : SimpleAgent) (query : string)
  (analysis : Analysis) (world : World) (log : Log) :
  _generate_text_response self query analysis world log
  = (Ok (text_answer self query world), log_after self log).
Proof.
  unfold _generate_text_response, text_answer, selected_answer, log_after,
    selected_provider.
  destruct (use_openai self).
  { unfold bind. rewrite openai_run. unfold finish.
    destruct (openai_answer world); reflexivity. }
  destruct (use_anthropic self).
  { unfold bind. rewrite anthropic_run. unfold finish.
    destruct (anthropic_answer world); reflexivity. }
  destruct (use_gemini self).
  { unfold bind. rewrite gemini_run. unfold finish.
    destruct (gemini_text (gemini_answer world)); reflexivity. }
  reflexivity.
Qed.

Lemma code_path_run (settings : Settings) (self : SimpleAgent) (query : string)
  (world : World) (log : Log) (fb : Codebase) :
  should_generate_code (_analyze_query query) && ENABLE_CODE_GENERATION settings = true ->
  enhanced_fallback query (_analyze_query query) = Ok fb ->
  process_query settings self query world log
  = (Ok (CodebaseResult
           (chosen_codebase (_analyze_query query) (selected_answer self world) fb)
           (_detect_language query) (_detect_framework query)
           (structure (chosen_codebase (_analyze_query query)
                         (selected_answer self world) fb))),
     log_after self log).
Proof.
  intros Hc Hfb. unfold process_query. rewrite Hc. unfold bind.
  now rewrite (generate_codebase_run _ _ _ _ _ fb Hfb).
Qed.

Lemma text_path_run (settings : Settings) (self : SimpleAgent) (query : string)
  (world : World) (log : Log) :
  should_generate_code (_analyze_query query) && ENABLE_CODE_GENERATION settings = false ->
  process_query settings self query world log
  = (Ok (TextResult (text_answer self query world) (reason (_analyze_query query))),
     log_after self log).
Proof.
  intros Hc. unfold process_query. rewrite Hc. unfold bind.
  now rewrite generate_text_run.
Qed.

(** X16. A code request (the classifier says code and code generation is
    enabled) ends with a codebase result that is the parsed reply of the
    selected provider when the call and the parse succeed and the parsed
    files are non-empty and pass [_is_fallback_code], and the result of the
    fallback synthesizer in every other case, never a mix of the two; its
    metadata carry the detected language and framework and the structure of
    that codebase. *)
Theorem code_request_result :
  forall (settings : Settings) (self : SimpleAgent) (query : string)
         (world : World) (log : Log),
    should_generate_code (_analyze_query query) = true ->
    ENABLE_CODE_GENERATION settings = true ->
    exists fallback : Codebase,
      enhanced_fallback query (_analyze_query query) = Ok fallback
      /\ let codebase :=
           chosen_codebase (_analyze_query query) (selected_answer self world)
             fallback in
         fst (process_query settings self query world log)
         = Ok (CodebaseResult codebase (_detect_language query)
                 (_detect_framework query) (structure codebase)).
Proof.
  intros settings self query world log H1 H2.
  destruct (enhanced_fallback_total query (_analyze_query query)) as (fb & Hfb & _).
  exists fb. split; [exact Hfb|]. cbv zeta.
  rewrite (code_path_run settings self query world log fb); [reflexivity| |exact Hfb].
  now rewrite H1, H2.
Qed.

Lemma code_request_result_witness :
  exists fallback : Codebase,
    enhanced_fallback "build a deploy tool" (_analyze_query "build a deploy tool")
    = Ok fallback
    /\ fst (process_query openai_settings (__init__ openai_settings empty_environ)
              "build a deploy tool" traversal_world [])
       = Ok (CodebaseResult
               (chosen_codebase (_analyze_query "build a deploy tool")
                  (Ok traversal_reply) fallback)
               "python" None
               (structure (chosen_codebase (_analyze_query "build a deploy tool")
                             (Ok traversal_reply) fallback))).
Proof.
  destruct (code_request_result openai_settings
              (__init__ openai_settings empty_environ)
              "build a deploy tool" traversal_world [] eq_refl eq_refl)
    as (fb & Hfb & H).
  exists fb. split; [exact Hfb|exact H].
Defined.

(** X17. A prose request (the classifier says prose, or code generation is
    disabled) ends with a text result whose content is, with no provider
    selected, the canned answer that quotes the query; with a provider, its
    reply as it came, with no quality check; and when the call raised, the
    string "Error generating response: " followed by the message.  The reason
    in the metadata is the classifier's, also when code generation is
    disabled. *)
Theorem prose_request_result :
  forall (settings : Settings) (self : SimpleAgent) (query : string)
         (world : World) (log : Log),
    should_generate_code (_analyze_query query) && ENABLE_CODE_GENERATION settings
    = false ->
    fst (process_query settings self query world log)
    = Ok (TextResult (text_answer self query world) (reason (_analyze_query query))).
Proof.
  intros settings self query world log H.
  now rewrite text_path_run.
Qed.

Lemma prose_request_result_witness :
  fst (process_query
         {| OPENAI_API_KEY := Some "sk-test"; ANTHROPIC_API_KEY := None;
            GOOGLE_API_KEY := None; ENABLE_CODE_GENERATION := false |}
         (__init__ openai_settings empty_environ)
         "build a deploy tool" traversal_world [])
  = Ok (TextResult traversal_reply "Code generation suitable").
Proof.
  apply (prose_request_result
           {| OPENAI_API_KEY := Some "sk-test"; ANTHROPIC_API_KEY := None;
              GOOGLE_API_KEY := None; ENABLE_CODE_GENERATION := false |}
           (__init__ openai_settings empty_environ)
           "build a deploy tool" traversal_world []).
  reflexivity.
Defined.

(** X18. [process_query] never raises, whatever the providers answer, and
    it calls a provider at most once: the log grows by the selected provider
    alone, or not at all when none is selected.  The result is a codebase
    exactly when the classifier says code and code generation is enabled. *)
Theorem process_query_never_raises :
  forall (settings : Settings) (self : SimpleAgent) (query : string)
         (world : World) (log : Log),
    exists result : GenerationResult,
      process_query settings self query world log = (Ok result, log_after self log)
      /\ ((exists c l f t, result = CodebaseResult c l f t)
          <-> should_generate_code (_analyze_query query)
              && ENABLE_CODE_GENERATION settings = true).
Proof.
  intros settings self query world log.
  destruct (should_generate_code (_analyze_query query)
            && ENABLE_CODE_GENERATION settings) eqn:Hc.
  - destruct (enhanced_fallback_total query (_analyze_query query)) as (fb & Hfb & _).
    eexists. split; [apply (code_path_run settings self query world log fb Hc Hfb)|].
    split; [reflexivity|]. intros _. now eexists _, _, _, _.
  - eexists. split; [apply (text_path_run settings self query world log Hc)|].
    split; [|discriminate]. intros (c & l & f & t & H). discriminate H.
Qed.

Lemma fallback_has_readme (query : string) (analysis : Analysis) :
  fallback_files query analysis <> []
  /\ existsb is_readme (Dict.keys (fallback_files query analysis)) = true.
Proof.
  split.
  - unfold fallback_files. apply dict_set_nonempty.
  - rewrite fallback_keys. unfold fallback_key_list.
    destruct (String.eqb (language analysis) "python"); [reflexivity|].
    destruct (is_node_language (language analysis)).
    + destruct (String.eqb (language analysis) "typescript"); reflexivity.
    + cbn [existsb]. change (is_readme "README.md") with true.
      now rewrite orb_true_r.
Qed.

(** X19. Every codebase result handed on is complete: its files are not
    empty, one of them is a README, the structure in the metadata is the tree
    built from exactly those files, and the language and framework in the
    metadata are those detected in the query. *)
Theorem codebase_result_is_complete :
  forall (settings : Settings) (self : SimpleAgent) (query : string)
         (world : World) (log : Log)
         (content : Codebase) (lang : string) (fw : option string) (tree : Tree),
    fst (process_query settings self query world log)
    = Ok (CodebaseResult content lang fw tree) ->
    files content <> []
    /\ existsb is_readme (Dict.keys (files content)) = true
    /\ _build_structure_tree (files content) = Ok tree
    /\ lang = _detect_language query
    /\ fw = _detect_framework query.
Proof.
  intros settings self query world log content lang fw tree H.
  destruct (should_generate_code (_analyze_query query)
            && ENABLE_CODE_GENERATION settings) eqn:Hc.
  2:{ rewrite text_path_run in H by exact Hc. discriminate H. }
  destruct (enhanced_fallback_total query (_analyze_query query))
    as (fb & Hfb & Hfiles & Htree).
  rewrite (code_path_run settings self query world log fb Hc Hfb) in H.
  cbn [fst] in H. inversion H; subst. clear H.
  assert (Hfb_ok : files fb <> []
                   /\ existsb is_readme (Dict.keys (files fb)) = true
                   /\ _build_structure_tree (files fb) = Ok (structure fb)).
  { rewrite Hfiles. destruct (fallback_has_readme query (_analyze_query query)).
    repeat split; try assumption. now rewrite <- Hfiles. }
  assert (Hgoal : files (chosen_codebase (_analyze_query query)
                           (selected_answer self world) fb) <> []
                  /\ existsb is_readme
                       (Dict.keys (files (chosen_codebase (_analyze_query query)
                                            (selected_answer self world) fb))) = true
                  /\ _build_structure_tree
                       (files (chosen_codebase (_analyze_query query)
                                 (selected_answer self world) fb))
                     = Ok (structure (chosen_codebase (_analyze_query query)
                                        (selected_answer self world) fb))).
  { unfold chosen_codebase.
    destruct (selected_answer self world) as [reply|e]; [|exact Hfb_ok].
    destruct (_parse_codebase_response reply (_analyze_query query))
      as [parsed|e] eqn:Hp; [|exact Hfb_ok].
    destruct (is_nonempty (files parsed)) eqn:Hn; cbn [negb orb]; [|exact Hfb_ok].
    destruct (_is_fallback_code parsed); [exact Hfb_ok|].
    destruct (parse_shape _ _ _ Hp) as [E|Hs]; [|exact Hs].
    subst parsed. discriminate Hn. }
  destruct Hgoal as (G1 & G2 & G3). repeat split; assumption.
Qed.

Lemma codebase_result_is_complete_witness :
  exists content : Codebase,
    fst (process_query openai_settings (__init__ openai_settings empty_environ)
           "build a deploy tool" traversal_world [])
    = Ok (CodebaseResult content "python" None
            (Dir [("..", Dir [("deploy.py", File)]); ("README.md", File)]))
    /\ _build_structure_tree (files content)
       = Ok (Dir [("..", Dir [("deploy.py", File)]); ("README.md", File)]).
Proof.
  eexists. split; [vm_compute; reflexivity|].
  edestruct (codebase_result_is_complete openai_settings
               (__init__ openai_settings empty_environ)
               "build a deploy tool" traversal_world [])
    as (_ & _ & H & _).
  - vm_compute. reflexivity.
  - exact H.
Defined.

(** X20. A reply that cannot be used is replaced wholesale: when the
    selected provider answers with whitespace only, or with a reply on which
    the parser raises, a code request ends with the result of the fallback
    synthesizer. *)
Theorem unusable_reply_is_replaced :
  forall (settings : Settings) (self : SimpleAgent) (query : string)
         (world : World) (log : Log) (reply : string),
    should_generate_code (_analyze_query query) = true ->
    ENABLE_CODE_GENERATION settings = true ->
    selected_answer self world = Ok reply ->
    all_space reply = true
    \/ (exists e, _parse_codebase_response reply (_analyze_query query) = Raise e) ->
    exists fallback : Codebase,
      enhanced_fallback query (_analyze_query query) = Ok fallback
      /\ fst (process_query settings self query world log)
         = Ok (CodebaseResult fallback (_detect_language query)
                 (_detect_framework query) (structure fallback)).
Proof.
  intros settings self query world log reply H1 H2 Ha Hbad.
  destruct (enhanced_fallback_total query (_analyze_query query)) as (fb & Hfb & _).
  exists fb. split; [exact Hfb|].
  rewrite (code_path_run settings self query world log fb); [|now rewrite H1, H2|exact Hfb].
  cbn [fst].
  assert (E : chosen_codebase (_analyze_query query) (selected_answer self world) fb = fb).
  { unfold chosen_codebase. rewrite Ha. destruct Hbad as [Hs|[e He]].
    - now rewrite (proj2 (proj2 (blank_reply_parse reply (_analyze_query query) Hs))).
    - now rewrite He. }
  now rewrite E.
Qed.

Lemma unusable_reply_is_replaced_witness :
  exists fallback : Codebase,
    enhanced_fallback "build a tool" (_analyze_query "build a tool") = Ok fallback
    /\ fst (process_query openai_settings (__init__ openai_settings empty_environ)
              "build a tool"
              {| openai_answer := Ok nested_reply; anthropic_answer := Ok "";
                 gemini_answer := Ok Shapeless |} [])
       = Ok (CodebaseResult fallback "python" None (structure fallback)).
Proof.
  apply (unusable_reply_is_replaced openai_settings
           (__init__ openai_settings empty_environ) "build a tool"
           {| openai_answer := Ok nested_reply; anthropic_answer := Ok "";
              gemini_answer := Ok Shapeless |} [] nested_reply);
    try reflexivity.
  right. eexists. vm_compute. reflexivity.
Defined.

(** X21. Loose prose is kept once only: when the files already hold
    README.md and no file target is set, a line that is neither marker nor
    fence leaves the whole state of the scanner as it was, so the branch of
    the source that would append to README.md is never taken. *)
Theorem prose_after_readme_is_dropped :
  forall (st : ParseState) (line : string),
    Dict.mem "README.md" (st_files st) = true ->
    truthy_opt (current_file st) = false ->
    is_plain line = true ->
    scan_step st line = st.
Proof.
  intros st line Hr Hc Hp.
  unfold is_plain in Hp. apply andb_true_iff in Hp. destruct Hp as [Hm Hf].
  apply negb_true_iff in Hm, Hf.
  unfold Dict.mem in Hr.
  destruct (Dict.get "README.md" (st_files st)) as [old|] eqn:Hold; [|discriminate].
  unfold scan_step. rewrite Hm, Hf, Hc, (readme_key_is_readme_like _ _ Hold).
  cbn [negb].
  destruct (truthy (strip line) && negb (startswith "```" line)
            && negb (in_code_block st)); reflexivity.
Qed.

Lemma prose_after_readme_is_dropped_witness :
  scan_step (scan_loop ["First line."] initial_state) "Second line."
  = scan_loop ["First line."] initial_state.
Proof.
  apply (prose_after_readme_is_dropped (scan_loop ["First line."] initial_state)
           "Second line.");
    reflexivity.
Defined.
